(** * Freemoviehub: a shallow embedding of [api/index.py]

    The bot side (filename parser, TMDB lookup, ingestion handler, link
    resolver) and the Flask side (basic-auth gate, pagination, webhook and
    detail routes) of [api/index.py], as executable Rocq definitions, and
    the properties the specification states about them; then the other
    views of the site (download, stream, request form, webhook set-up,
    admin panel) and what the code shows of them.

    Conventions.
    - A Python [str] is a [string]; a character stands for the code point
      of the same number (U+0000 to U+00FF).
    - A Python [int] is a [Z]; the [_id] of a document is the [N] its 12
      bytes spell.
    - A call that leaves the process (Telegram, TMDB, MongoDB writes,
      template rendering) returns or raises as the environment [Env]
      decides; every such call is recorded in the world's trace.  The
      calls of the views in [Site] are answered by [Site.Outside] and
      are not traced.
    - [exn] stands for the instances of Python's [Exception], the ones an
      [except Exception] clause catches. *)

From Stdlib Require Import List String Ascii Bool Arith ZArith NArith Lia.
From Stdlib Require Import Permutation Sorted QArith Qround DecimalString.
Import ListNotations.

Local Open Scope string_scope.
Local Open Scope Z_scope.

(* ================================================================= *)
(** ** Python strings *)

Module PyStr.

(** [Py_UNICODE_ISSPACE] below U+0100: what [str.strip] removes and what
    [\s] matches in a [str] pattern. *)
Definition is_space (c : ascii) : bool :=
  let n := nat_of_ascii c in
  (((9 <=? n) && (n <=? 13)) || ((28 <=? n) && (n <=? 32))
   || (n =? 133) || (n =? 160))%nat.

(** [\d] in a [str] pattern, below U+0100: the ten decimal digits. *)
Definition is_digit (c : ascii) : bool :=
  let n := nat_of_ascii c in ((48 <=? n) && (n <=? 57))%nat.

(** The only character [.] refuses without [re.DOTALL]. *)
Definition is_linebreak (c : ascii) : bool :=
  (nat_of_ascii c =? 10)%nat.

Fixpoint lstrip (s : string) : string :=
  match s with
  | EmptyString => EmptyString
  | String c s' => if is_space c then lstrip s' else s
  end.

Fixpoint rstrip (s : string) : string :=
  match s with
  | EmptyString => EmptyString
  | String c s' =>
      match rstrip s' with
      | EmptyString => if is_space c then EmptyString else String c EmptyString
      | r => String c r
      end
  end.

(** [s.strip()] *)
Definition strip (s : string) : string := rstrip (lstrip s).

(** [s.replace(old, new)] for one-character [old] and [new]. *)
Fixpoint replace (old new : ascii) (s : string) : string :=
  match s with
  | EmptyString => EmptyString
  | String c s' =>
      String (if Ascii.eqb c old then new else c) (replace old new s')
  end.

Fixpoint forallb (p : ascii -> bool) (s : string) : bool :=
  match s with
  | EmptyString => true
  | String c s' => p c && forallb p s'
  end.

(** Truthiness of a [str]: [not s] holds of the empty string only. *)
Definition truthy (s : string) : bool :=
  match s with EmptyString => false | _ => true end.

End PyStr.

(* ================================================================= *)
(** ** The filename parser *)

(** The pattern of [parse_filename] is
    [^(.*?)\s*\((\d{4})\)], searched with [re.search]: anchored at the
    start of the string, group 1 lazy, then greedy white space, then a
    parenthesised group of exactly four digits. *)
Module FilenameRe.

(** [\((\d{4})\)] at the head of [s]; the value is group 2. *)
Definition year_group (s : string) : option string :=
  match s with
  | String "(" (String a (String b (String c (String d (String ")" _))))) =>
      if PyStr.is_digit a && PyStr.is_digit b
         && PyStr.is_digit c && PyStr.is_digit d
      then Some (String a (String b (String c (String d EmptyString))))
      else None
  | _ => None
  end.

(** [\s*\((\d{4})\)] at the head of [s].  The greedy run of white space
    never has to give a character back: the next thing the pattern wants
    is an opening parenthesis, which is not white space. *)
Definition after_title (s : string) : option string :=
  year_group (PyStr.lstrip s).

(** [(.*?)] followed by the rest of the pattern: the backtracking
    matcher tries the shortest group 1 first and lengthens it by one
    character, which must not be a line break, after each failure.
    [seen] is group 1 so far, [s] the input that is left. *)
Fixpoint lazy_title (seen s : string) : option (string * string) :=
  match after_title s with
  | Some year => Some (seen, year)
  | None =>
      match s with
      | EmptyString => None
      | String c s' =>
          if PyStr.is_linebreak c then None
          else lazy_title (seen ++ String c EmptyString) s'
      end
  end.

(** [re.search(r'^(.*?)\s*\((\d{4})\)', filename)]: the two groups of
    the match, or [None]. *)
Definition search (filename : string) : option (string * string) :=
  lazy_title EmptyString filename.

End FilenameRe.

(** [parse_filename(filename)]: the pair [(title, year)] or [(None, None)]. *)
Definition parse_filename (filename : string) : option string * option string :=
  match FilenameRe.search filename with
  | Some (group1, group2) =>
      let title :=
        PyStr.replace "_" " " (PyStr.replace "." " " (PyStr.strip group1)) in
      let year := group2 in
      (Some title, Some year)
  | None => (None, None)
  end.

(* ================================================================= *)
(** ** Exceptions and results *)

(** An instance of [Exception]: its class and its message. *)
Record exn : Type := Exception { exn_class : string; exn_msg : string }.

(** What a Python call does: it returns a value or raises. *)
Inductive Res (A : Type) : Type :=
| Ok (a : A)
| Raise (e : exn).
Arguments Ok {A} a.
Arguments Raise {A} e.

Definition raised {A} (r : Res A) : option exn :=
  match r with Ok _ => None | Raise e => Some e end.

Definition AttributeError := Exception "AttributeError" "".
Definition TypeError := Exception "TypeError" "".
Definition KeyError (k : string) := Exception "KeyError" k.
Definition HTTPError := Exception "HTTPError" "".
Definition ValueError (m : string) := Exception "ValueError" m.
Definition ZeroDivisionError := Exception "ZeroDivisionError" "division by zero".
Definition InvalidId (s : string) := Exception "InvalidId" s.

(* ================================================================= *)
(** ** Decoded JSON, as [response.json()] returns it *)

#[warnings="-register-all"]
Inductive json : Type :=
| JNull
| JBool (b : bool)
| JInt (z : Z)
| JFloat (q : Q)
| JStr (s : string)
| JArr (items : list json)
| JObj (fields : list (string * json)).

Module Py.

(** Truthiness of a decoded value. *)
Definition truthy (v : json) : bool :=
  match v with
  | JNull => false
  | JBool b => b
  | JInt z => negb (z =? 0)
  | JFloat q => negb (Qnum q =? 0)
  | JStr s => PyStr.truthy s
  | JArr [] => false
  | JArr _ => true
  | JObj [] => false
  | JObj _ => true
  end.

(** [a or b] *)
Definition or_ (a b : json) : json := if truthy a then a else b.

Fixpoint assoc (k : string) (fields : list (string * json)) : option json :=
  match fields with
  | [] => None
  | (k', v) :: rest => if String.eqb k k' then Some v else assoc k rest
  end.

(** [d.get(k, default)]; only a dict has the method. *)
Definition get (d : json) (k : string) (default : json) : Res json :=
  match d with
  | JObj fields =>
      Ok (match assoc k fields with Some v => v | None => default end)
  | _ => Raise AttributeError
  end.

(** [d[k]] with a [str] key. *)
Definition getitem (d : json) (k : string) : Res json :=
  match d with
  | JObj fields =>
      match assoc k fields with Some v => Ok v | None => Raise (KeyError k) end
  | _ => Raise TypeError
  end.

Fixpoint chars (s : string) : list json :=
  match s with
  | EmptyString => []
  | String c s' => JStr (String c EmptyString) :: chars s'
  end.

(** What [for x in v] goes through: the items of a list, the keys of a
    dict, the characters of a str; nothing else iterates. *)
Definition iter (v : json) : Res (list json) :=
  match v with
  | JArr items => Ok items
  | JObj fields => Ok (map (fun kv => JStr (fst kv)) fields)
  | JStr s => Ok (chars s)
  | _ => Raise TypeError
  end.

(** [v == s] for a str literal [s]. *)
Definition eq_str (v : json) (s : string) : bool :=
  match v with JStr s' => String.eqb s' s | _ => false end.

End Py.

(* ================================================================= *)
(** ** Documents *)

(** [telegram_ref]: the channel reference of a catalogue item. *)
Record telegram_ref : Type :=
  { ref_chat_id : Z; ref_message_id : Z }.

(** What [search_tmdb_for_bot] returns when it finds the title. *)
Module Tmdb.
Record details : Type :=
  { title : json;
    poster : option string;
    backdrop : option string;
    overview : json;
    release_date : json;
    genres : list json;
    vote_average : json;
    type : string }.
End Tmdb.

(** The [movies] collection. *)
Module Movie.
(** The dict handed to [insert_one]. *)
Record data : Type :=
  { title : json;
    type : string;
    poster : string;
    backdrop : option string;
    overview : json;
    release_date : json;
    genres : list json;
    vote_average : json;
    categories : list string;
    created_at : Z;
    telegram_ref : option telegram_ref;
    manual_links : option (list (string * string)) }.

(** A stored document: the dict and its [_id]. *)
Record doc : Type := { _id : N; fields : data }.
End Movie.

Record request_doc : Type :=
  { req_name : string; req_info : string; req_status : string; req_created_at : Z }.

(* ================================================================= *)
(** ** Telegram objects *)

Record tg_file : Type := { file_name : option string }.

Record tg_message : Type :=
  { chat_id : Z;
    message_id : Z;
    video : option tg_file;
    document : option tg_file }.

Record tg_update : Type := { channel_post : option tg_message }.

(** The copy [forward_messages] leaves in the account's own chat. *)
Record forwarded_message : Type := { fwd_message_id : Z }.

(** The texts [handle_new_post] sends, by their fillers.
    - [FormatErrorText]: the warning that the filename format is
      incorrect, use [Movie Name (Year).mkv];
    - [NotFoundText title year]: could not find [title (year)] on TMDB;
    - [PostSuccessfulText title site oid]: post successful, [title] has
      been added, view post at [site/movie/oid];
    - [DbErrorText e]: could not post to database, details [e]. *)
Inductive bot_text : Type :=
| FormatErrorText
| NotFoundText (title : string) (year : option string)
| PostSuccessfulText (title : json) (website_url : string) (inserted_id : N)
| DbErrorText (e : exn).

(* ================================================================= *)
(** ** HTTP *)

(** What [requests.get] returns. *)
Record http_response : Type :=
  { status_code : Z; json_body : Res json }.

(** A Flask response: body, status and headers. *)
Record Response : Type :=
  { body : string; status : Z; headers : list (string * string) }.

(** [request.authorization] *)
Record Authorization : Type :=
  { username : option string; password : option string }.

Record Request : Type :=
  { authorization : option Authorization;
    is_json : bool;
    (** [Update.de_json(request.get_json(force=True), bot)]: [get_json]
        raises on a body that is no JSON; [de_json] gives [None] for an
        empty payload, [{}] or [null] *)
    json_update : Res (option tg_update) }.

(* ================================================================= *)
(** ** The world: the store, the Telegram side, the trace *)

(** The calls that leave the process. *)
Inductive call : Type :=
| PyroStart
| GetDownloadLink (chat msg : Z)
| ForwardMessages (to_chat : string) (from_chat msg : Z)
| Download (m : forwarded_message)
| Delete (m : forwarded_message)
| SendMessage (chat : Z) (text : bot_text) (reply_to : Z)
| RequestsGet (url : string)
| InsertOne (d : Movie.data)
| RenderDetail (movie_id : N).

(** One call and how it ended: [None] when it returned, the exception
    when it raised. *)
Record event : Type := Event { ev_call : call; ev_raised : option exn }.

Record World : Type :=
  { (** the four collections *)
    movies : list Movie.doc;
    settings : list (string * string);
    categories_collection : list string;
    requests_collection : list request_doc;
    (** [pyro_bot.is_initialized] *)
    is_initialized : bool;
    (** the forwarded copies that exist in the account's own chat *)
    saved_messages : list forwarded_message;
    (** the calls made so far, oldest first *)
    trace : list event }.

Definition with_movies (ms : list Movie.doc) (w : World) : World :=
  {| movies := ms; settings := settings w;
     categories_collection := categories_collection w;
     requests_collection := requests_collection w;
     is_initialized := is_initialized w;
     saved_messages := saved_messages w; trace := trace w |}.

Definition with_initialized (b : bool) (w : World) : World :=
  {| movies := movies w; settings := settings w;
     categories_collection := categories_collection w;
     requests_collection := requests_collection w;
     is_initialized := b;
     saved_messages := saved_messages w; trace := trace w |}.

Definition with_saved (l : list forwarded_message) (w : World) : World :=
  {| movies := movies w; settings := settings w;
     categories_collection := categories_collection w;
     requests_collection := requests_collection w;
     is_initialized := is_initialized w;
     saved_messages := l; trace := trace w |}.

Definition with_trace (t : list event) (w : World) : World :=
  {| movies := movies w; settings := settings w;
     categories_collection := categories_collection w;
     requests_collection := requests_collection w;
     is_initialized := is_initialized w;
     saved_messages := saved_messages w; trace := t |}.

(** The four collections of a world, for frame statements. *)
Definition store (w : World) :=
  (movies w, categories_collection w, settings w, requests_collection w).

(** The events a run from [w] to [w'] added to the trace. *)
Definition new_events (w w' : World) : list event :=
  skipn (List.length (trace w)) (trace w').

(* ================================================================= *)
(** ** The monad of the handlers: state and exceptions *)

Definition M (A : Type) : Type := World -> Res A * World.

Definition ret {A} (a : A) : M A := fun w => (Ok a, w).

Definition raise {A} (e : exn) : M A := fun w => (Raise e, w).

Definition bind {A B} (m : M A) (k : A -> M B) : M B :=
  fun w =>
    match m w with
    | (Ok a, w') => k a w'
    | (Raise e, w') => (Raise e, w')
    end.

(** [try: m  except Exception as e: handler e].  What [m] did to the
    world before it raised stays done. *)
Definition try_except {A} (m : M A) (handler : exn -> M A) : M A :=
  fun w =>
    match m w with
    | (Ok a, w') => (Ok a, w')
    | (Raise e, w') => handler e w'
    end.

(** A pure computation that may raise. *)
Definition lift {A} (r : Res A) : M A := fun w => (r, w).

Definition get_world : M World := fun w => (Ok w, w).

Definition modify (f : World -> World) : M unit := fun w => (Ok tt, f w).

Declare Scope py_scope.
Delimit Scope py_scope with py.
Notation "x <- m ;; k" := (bind m (fun x => k))
  (at level 61, m at next level, right associativity) : py_scope.
Notation "m ;;; k" := (bind m (fun _ => k))
  (at level 61, right associativity) : py_scope.
Local Open Scope py_scope.

(** A call that leaves the process: it ends as [r] says and is recorded. *)
Definition extern {A} (c : call) (r : Res A) : M A :=
  fun w => (r, with_trace (trace w ++ [Event c (raised r)]) w).

(* ================================================================= *)
(** ** Configuration and environment *)

(** The values read from the process environment at start-up. *)
Record Config : Type :=
  { TMDB_API_KEY : string;
    ADMIN_USERNAME : string;
    ADMIN_PASSWORD : string;
    WEBSITE_URL : string;
    (** [int(TARGET_CHANNEL_ID)], or [None] when the variable is unusable *)
    TARGET_CHANNEL_ID : option Z }.

Definition PLACEHOLDER_POSTER : string :=
  "https://via.placeholder.com/400x600.png?text=Poster+Not+Found".

Definition ITEMS_PER_PAGE : Z := 20.

Inductive fresh_link : Type :=
| LinkUrl (url : string)          (** what [get_download_link] gives *)
| LinkBuffer (content : string).  (** what [download(in_memory=True)] gives *)

(** How the outside answers.  Library functions whose code is not part of
    the repository are here too. *)
Record Env : Type :=
  { (** [urllib.parse.quote] *)
    quote : string -> string;
    (** [str(v)] of a decoded value that is not already a str *)
    str_of : json -> string;
    (** [datetime.utcnow()] *)
    utcnow : Z;
    (** [requests.get(url, timeout=10)] *)
    requests_get_result : string -> Res http_response;
    (** [pyro_bot.start()] *)
    start_result : Res unit;
    (** [pyro_bot.get_download_link(chat_id, msg_id)] *)
    get_download_link_result : Z -> Z -> Res string;
    (** [pyro_bot.forward_messages("me", chat_id, msg_id)] *)
    forward_messages_result : Z -> Z -> Res forwarded_message;
    (** [forwarded_message.download(in_memory=True)] *)
    download_result : forwarded_message -> Res string;
    (** [forwarded_message.delete()] *)
    delete_result : forwarded_message -> Res unit;
    (** [bot.send_message(chat_id, text, reply_to_message_id)] *)
    send_message_result : Z -> bot_text -> Z -> Res unit;
    (** [movies.insert_one(d)]: the new [_id], or the driver's error *)
    insert_one_result : Movie.data -> Res N;
    (** [render_template_string(detail_html, movie, related_content)] *)
    render_detail_result : Movie.doc -> list Movie.doc -> Res string;
    (** [movies.find_one({"_id": oid})] for an identifier of fewer than
        twelve bytes, by its bytes: the driver raises on it, or the query
        goes out and finds nothing *)
    short_id_result : list N -> Res unit;
    (** MongoDB's [$regex] with option [i] on a title *)
    regex_i : string -> json -> bool }.

(* ================================================================= *)
(** ** The catalogue query layer *)

(** The filters the routes build. *)
Inductive query_filter : Type :=
| QAll                          (** [{}] *)
| QType (t : string)            (** [{"type": t}] *)
| QCategory (c : string)        (** [{"categories": c}] *)
| QTitleRegex (q : string).     (** [{"title": {"$regex": q, "$options": "i"}}] *)

Record Pagination : Type :=
  { page : Z; per_page : Z; total_count : Z }.

(** [math.ceil(self.total_count / self.per_page)]: the true quotient, then
    its ceiling.  The quotient is taken in the rationals; the float of the
    source represents it well enough for [math.ceil] to agree while the
    count stays below 2^53. *)
Definition total_pages (p : Pagination) : Res Z :=
  if per_page p =? 0 then Raise ZeroDivisionError
  else Ok (Qceiling (inject_Z (total_count p) / inject_Z (per_page p))%Q).

Definition has_prev (p : Pagination) : bool := 1 <? page p.

Definition has_next (p : Pagination) : Res bool :=
  match total_pages p with
  | Ok n => Ok (page p <? n)
  | Raise e => Raise e
  end.

Definition prev_num (p : Pagination) : Z := page p - 1.
Definition next_num (p : Pagination) : Z := page p + 1.

Module Cursor.

(** [.sort('_id', -1)]: by insertion, greatest [_id] first. *)
Fixpoint insert_desc (d : Movie.doc) (l : list Movie.doc) : list Movie.doc :=
  match l with
  | [] => [d]
  | x :: l' =>
      if (Movie._id x <=? Movie._id d)%N then d :: l
      else x :: insert_desc d l'
  end.

Definition sort_desc (l : list Movie.doc) : list Movie.doc :=
  fold_right insert_desc [] l.

(** [.skip(n)]: pymongo refuses a negative [n]. *)
Definition skip (n : Z) (l : list Movie.doc) : Res (list Movie.doc) :=
  if n <? 0 then Raise (ValueError "skip must be >= 0")
  else Ok (skipn (Z.to_nat n) l).

(** [.limit(n)]: 0 means no limit; a negative [n] limits to [-n]. *)
Definition limit (n : Z) (l : list Movie.doc) : list Movie.doc :=
  if n =? 0 then l else firstn (Z.abs_nat n) l.

End Cursor.

(** [ObjectId(s)] for a str, as bson builds it: a str of 24 characters
    goes to [bytes.fromhex], any other str is [InvalidId]. *)
Module Oid.

Definition hex_digit (c : ascii) : option N :=
  let n := N_of_ascii c in
  (if (48 <=? n) && (n <=? 57) then Some (n - 48)
   else if (97 <=? n) && (n <=? 102) then Some (n - 87)
   else if (65 <=? n) && (n <=? 70) then Some (n - 55)
   else None)%N.

(** ASCII white space: tab, line feed, vertical tab, form feed,
    carriage return, space. *)
Definition is_ascii_space (c : ascii) : bool :=
  let n := N_of_ascii c in
  ((9 <=? n) && (n <=? 13) || (n =? 32))%N.

(** [bytes.fromhex(s)], as Python 3.7 and later have it: two
    hexadecimal digits for each byte, ASCII white space skipped before a
    byte and at the end.  [None] stands for its [ValueError]: a
    character that is neither, a digit left alone, white space between
    the two digits of a byte. *)
Fixpoint fromhex (s : string) : option (list N) :=
  match s with
  | EmptyString => Some []
  | String c s' =>
      if is_ascii_space c then fromhex s'
      else
        match hex_digit c, s' with
        | Some top, String c' s'' =>
            match hex_digit c', fromhex s'' with
            | Some bot, Some bytes => Some ((16 * top + bot)%N :: bytes)
            | _, _ => None
            end
        | _, _ => None
        end
  end.

(** The number the bytes spell, the first byte highest. *)
Definition number (bytes : list N) : N :=
  fold_left (fun acc b => (256 * acc + b)%N) bytes 0%N.

(** What an [ObjectId] holds.  The [_id] of a document is twelve bytes,
    kept as the number they spell.  A str of 24 characters with white
    space in it gives fewer bytes, and bson keeps them without looking
    at their number: such an identifier is the [_id] of no document. *)
Inductive t : Type :=
| Proper (n : N)
| Short (bytes : list N).

Definition ObjectId (s : string) : Res t :=
  if (String.length s =? 24)%nat then
    match fromhex s with
    | Some bytes =>
        Ok (if (List.length bytes =? 12)%nat then Proper (number bytes)
            else Short bytes)
    | None => Raise (InvalidId s)
    end
  else Raise (InvalidId s).

(** The identifier is the [_id] [n] of a document. *)
Definition is_id (oid : t) (n : N) : bool :=
  match oid with
  | Proper m => (n =? m)%N
  | Short _ => false
  end.

End Oid.

Section Program.

Variable cfg : Config.
Variable env : Env.

(* --------------------------------------------------------------- *)
(** *** Authentication *)

Definition check_auth (username password : option string) : bool :=
  match username, password with
  | Some u, Some p =>
      String.eqb u (ADMIN_USERNAME cfg) && String.eqb p (ADMIN_PASSWORD cfg)
  | _, _ => false
  end.

Definition dquote : string := String (ascii_of_nat 34) EmptyString.

Definition authenticate : Response :=
  {| body := "Could not verify access.";
     status := 401;
     headers :=
       [("WWW-Authenticate",
         "Basic realm=" ++ dquote ++ "Login Required" ++ dquote)] |}.

(** The decorator: [f] is the view it wraps. *)
Definition requires_auth (f : Request -> M Response) : Request -> M Response :=
  fun request =>
    match authorization request with
    | None => ret authenticate
    | Some auth =>
        if negb (check_auth (username auth) (password auth))
        then ret authenticate
        else f request
    end.

(* --------------------------------------------------------------- *)
(** *** Metadata lookup *)

(** [f"{v}"] *)
Definition fmt (v : json) : string :=
  match v with JStr s => s | _ => str_of env v end.

Definition fmt_opt (v : option string) : string :=
  match v with Some s => s | None => "None" end.

Definition requests_get (url : string) : M http_response :=
  extern (RequestsGet url) (requests_get_result env url).

(** [response.raise_for_status()] *)
Definition raise_for_status (r : http_response) : Res unit :=
  if (400 <=? status_code r) && (status_code r <? 600)
  then Raise HTTPError else Ok tt.

(** [r.get('media_type') in ['movie', 'tv']] *)
Definition is_media (r : json) : Res bool :=
  match Py.get r "media_type" JNull with
  | Ok v => Ok (Py.eq_str v "movie" || Py.eq_str v "tv")
  | Raise e => Raise e
  end.

(** [next((r for r in results if ...), None)]: the generator stops at
    the first result it yields, and raises at a result it cannot test
    only if it gets that far. *)
Fixpoint first_media (results : list json) : Res (option json) :=
  match results with
  | [] => Ok None
  | r :: rest =>
      match is_media r with
      | Ok true => Ok (Some r)
      | Ok false => first_media rest
      | Raise e => Raise e
      end
  end.

(** [[g['name'] for g in genres]] *)
Fixpoint genre_names (genres : list json) : Res (list json) :=
  match genres with
  | [] => Ok []
  | g :: rest =>
      match Py.getitem g "name" with
      | Ok n =>
          match genre_names rest with
          | Ok ns => Ok (n :: ns)
          | Raise e => Raise e
          end
      | Raise e => Raise e
      end
  end.

Definition image_url (base : string) (path : json) : option string :=
  if Py.truthy path then Some (base ++ fmt path) else None.

Definition search_url (title : string) (year : option string) : string :=
  "https://api.themoviedb.org/3/search/multi?api_key=" ++ TMDB_API_KEY cfg
  ++ "&query=" ++ quote env title ++ "&year=" ++ fmt_opt year.

Definition detail_url (media_type tmdb_id : json) : string :=
  "https://api.themoviedb.org/3/" ++ fmt media_type ++ "/"
  ++ fmt tmdb_id ++ "?api_key=" ++ TMDB_API_KEY cfg.

Definition search_tmdb_for_bot (title : string) (year : option string)
  : M (option Tmdb.details) :=
  try_except
    (response <- requests_get (search_url title year) ;;
     lift (raise_for_status response) ;;;
     payload <- lift (json_body response) ;;
     results <- lift (Py.get payload "results" (JArr [])) ;;
     items <- lift (Py.iter results) ;;
     first_result <- lift (first_media items) ;;
     match first_result with
     | None => ret None
     | Some r =>
         if negb (Py.truthy r) then ret None else
         media_type <- lift (Py.getitem r "media_type") ;;
         tmdb_id <- lift (Py.getitem r "id") ;;
         detail <- requests_get (detail_url media_type tmdb_id) ;;
         data <- lift (json_body detail) ;;
         t <- lift (Py.get data "title" JNull) ;;
         n <- lift (Py.get data "name" JNull) ;;
         poster_path <- lift (Py.get data "poster_path" JNull) ;;
         backdrop_path <- lift (Py.get data "backdrop_path" JNull) ;;
         ov <- lift (Py.get data "overview" JNull) ;;
         rd <- lift (Py.get data "release_date" JNull) ;;
         fad <- lift (Py.get data "first_air_date" JNull) ;;
         gs <- lift (Py.get data "genres" (JArr [])) ;;
         gl <- lift (Py.iter gs) ;;
         names <- lift (genre_names gl) ;;
         va <- lift (Py.get data "vote_average" JNull) ;;
         ret (Some
                {| Tmdb.title := Py.or_ t n;
                   Tmdb.poster :=
                     image_url "https://image.tmdb.org/t/p/w500" poster_path;
                   Tmdb.backdrop :=
                     image_url "https://image.tmdb.org/t/p/w1280" backdrop_path;
                   Tmdb.overview := ov;
                   Tmdb.release_date := Py.or_ rd fad;
                   Tmdb.genres := names;
                   Tmdb.vote_average := va;
                   Tmdb.type :=
                     if Py.eq_str media_type "tv" then "series" else "movie" |})
     end)
    (fun e => ret None).

(* --------------------------------------------------------------- *)
(** *** Ingestion *)

Definition send_message (chat : Z) (text : bot_text) (reply_to : Z) : M unit :=
  extern (SendMessage chat text reply_to)
         (send_message_result env chat text reply_to).

(** [movies.insert_one(d)]: on success the document is in the
    collection under the [_id] the driver gave it. *)
Definition insert_one (d : Movie.data) : M N :=
  oid <- extern (InsertOne d) (insert_one_result env d) ;;
  modify (fun w =>
            with_movies (movies w ++ [{| Movie._id := oid; Movie.fields := d |}]) w) ;;;
  ret oid.

(** [message.chat_id != TARGET_CHANNEL_ID] *)
Definition other_channel (chat : Z) : bool :=
  match TARGET_CHANNEL_ID cfg with
  | Some target => negb (chat =? target)
  | None => true
  end.

(** [a or b] on two optional attachments. *)
Definition or_file (a b : option tg_file) : option tg_file :=
  match a with Some _ => a | None => b end.

(** [tmdb_details["poster"] or PLACEHOLDER_POSTER] *)
Definition poster_or_placeholder (poster : option string) : string :=
  match poster with
  | Some p => if PyStr.truthy p then p else PLACEHOLDER_POSTER
  | None => PLACEHOLDER_POSTER
  end.

Definition movie_data_of (d : Tmdb.details) (message : tg_message) : Movie.data :=
  {| Movie.title := Tmdb.title d;
     Movie.type := Tmdb.type d;
     Movie.poster := poster_or_placeholder (Tmdb.poster d);
     Movie.backdrop := Tmdb.backdrop d;
     Movie.overview := Tmdb.overview d;
     Movie.release_date := Tmdb.release_date d;
     Movie.genres := Tmdb.genres d;
     Movie.vote_average := Tmdb.vote_average d;
     Movie.categories := [];
     Movie.created_at := utcnow env;
     Movie.telegram_ref :=
       Some {| ref_chat_id := chat_id message;
               ref_message_id := message_id message |};
     Movie.manual_links := None |}.

(** The steps of [handle_new_post] once the filename is parsed; [title]
    is the str the parser gave. *)
Definition post_parsed (message : tg_message) (title : string)
           (year : option string) : M unit :=
  tmdb_details <- search_tmdb_for_bot title year ;;
  match tmdb_details with
  | None =>
      send_message (chat_id message) (NotFoundText title year)
                   (message_id message)
  | Some details =>
      let movie_data := movie_data_of details message in
      try_except
        (inserted_id <- insert_one movie_data ;;
         send_message (chat_id message)
                      (PostSuccessfulText (Tmdb.title details)
                                          (WEBSITE_URL cfg) inserted_id)
                      (message_id message))
        (fun e =>
           send_message (chat_id message) (DbErrorText e) (message_id message))
  end.

Definition handle_new_post (update : tg_update) : M unit :=
  match channel_post update with
  | None => ret tt
  | Some message =>
      if other_channel (chat_id message) then ret tt else
      match or_file (video message) (document message) with
      | None => ret tt
      | Some file =>
          match file_name file with
          | None => ret tt
          | Some name =>
              if negb (PyStr.truthy name) then ret tt else
              match parse_filename name with
              | (Some title, year) =>
                  if negb (PyStr.truthy title) then
                    send_message (chat_id message) FormatErrorText
                                 (message_id message)
                  else post_parsed message title year
              | (None, _) =>
                  send_message (chat_id message) FormatErrorText
                               (message_id message)
              end
          end
      end
  end.

(* --------------------------------------------------------------- *)
(** *** Link resolution *)

(** [pyro_bot.start()] *)
Definition start : M unit :=
  extern PyroStart (start_result env) ;;;
  modify (with_initialized true).

Definition get_download_link (chat msg : Z) : M string :=
  extern (GetDownloadLink chat msg) (get_download_link_result env chat msg).

(** On success the copy exists in the account's own chat. *)
Definition forward_messages (from_chat msg : Z) : M forwarded_message :=
  m <- extern (ForwardMessages "me" from_chat msg)
              (forward_messages_result env from_chat msg) ;;
  modify (fun w => with_saved (saved_messages w ++ [m]) w) ;;;
  ret m.

Definition download (m : forwarded_message) : M string :=
  extern (Download m) (download_result env m).

Definition same_message (a b : forwarded_message) : bool :=
  fwd_message_id a =? fwd_message_id b.

(** On success the copy is gone. *)
Definition delete (m : forwarded_message) : M unit :=
  extern (Delete m) (delete_result env m) ;;;
  modify (fun w =>
            with_saved (filter (fun x => negb (same_message x m))
                               (saved_messages w)) w).

Definition generate_fresh_link_async (chat msg : Z) : M (option fresh_link) :=
  w <- get_world ;;
  (if negb (is_initialized w) then start else ret tt) ;;;
  try_except
    (link <- get_download_link chat msg ;;
     ret (Some (LinkUrl link)))
    (fun e =>
       try_except
         (forwarded <- forward_messages chat msg ;;
          link <- download forwarded ;;
          delete forwarded ;;;
          ret (Some (LinkBuffer link)))
         (fun e2 => ret None)).

(* --------------------------------------------------------------- *)
(** *** Paginated reads *)

Definition matches (q : query_filter) (d : Movie.doc) : bool :=
  match q with
  | QAll => true
  | QType t => String.eqb (Movie.type (Movie.fields d)) t
  | QCategory c => existsb (String.eqb c) (Movie.categories (Movie.fields d))
  | QTitleRegex s => regex_i env s (Movie.title (Movie.fields d))
  end.

(** [movies.find(q)] *)
Definition find (q : query_filter) (w : World) : list Movie.doc :=
  filter (matches q) (movies w).

(** [movies.count_documents(q)] *)
Definition count_documents (q : query_filter) (w : World) : Z :=
  Z.of_nat (List.length (find q w)).

Definition get_paginated_content (q : query_filter) (page : Z)
  : M (list Movie.doc * Pagination) :=
  let skip := (page - 1) * ITEMS_PER_PAGE in
  w <- get_world ;;
  let total_count := count_documents q w in
  skipped <- lift (Cursor.skip skip (Cursor.sort_desc (find q w))) ;;
  let content_list := Cursor.limit ITEMS_PER_PAGE skipped in
  ret (content_list,
       {| page := page; per_page := ITEMS_PER_PAGE; total_count := total_count |}).

(** The pages [first], [first + 1], ... of a query, [n] of them, as a
    visitor following the next-page links receives them. *)
Fixpoint pages_from (q : query_filter) (first : Z) (n : nat)
  : M (list (list Movie.doc)) :=
  match n with
  | O => ret []
  | S k =>
      r <- get_paginated_content q first ;;
      rest <- pages_from q (first + 1) k ;;
      ret (fst r :: rest)
  end.

(* --------------------------------------------------------------- *)
(** *** Routes *)

(** [handle_new_post(update)] on what [Update.de_json] returned.  Its
    first statement reads [update.channel_post], and [None] has no such
    attribute. *)
Definition handle_parsed (update : option tg_update) : M unit :=
  match update with
  | Some update => handle_new_post update
  | None => raise AttributeError
  end.

Definition webhook_handler (request : Request) : M Response :=
  (if is_json request then
     update <- lift (json_update request) ;;
     handle_parsed update
   else ret tt) ;;;
  ret {| body := "ok"; status := 200; headers := [] |}.

Definition not_found : Response :=
  {| body := "Content not found"; status := 404; headers := [] |}.

(** [movies.find_one({"_id": oid})] *)
Definition find_one (oid : N) (w : World) : option Movie.doc :=
  List.find (fun d => (Movie._id d =? oid)%N) (movies w).

(** [movies.find_one({"_id": oid})] with what [ObjectId] made of a str.
    An identifier of fewer than twelve bytes is the [_id] of no
    document: the driver raises on it or the query finds nothing, as
    [short_id_result] says. *)
Definition find_by_id (oid : Oid.t) : M (option Movie.doc) :=
  match oid with
  | Oid.Proper n => w <- get_world ;; ret (find_one n w)
  | Oid.Short bytes => lift (short_id_result env bytes) ;;; ret None
  end.

(** The related titles of the detail page: same type, another [_id],
    newest first, ten at most. *)
Definition related_to (movie : Movie.doc) (w : World) : list Movie.doc :=
  Cursor.limit 10
    (Cursor.sort_desc
       (filter (fun d =>
                  String.eqb (Movie.type (Movie.fields d))
                             (Movie.type (Movie.fields movie))
                  && negb (Movie._id d =? Movie._id movie)%N)
               (movies w))).

Definition render_detail (movie : Movie.doc) (related : list Movie.doc)
  : M string :=
  extern (RenderDetail (Movie._id movie)) (render_detail_result env movie related).

Definition movie_detail (movie_id : string) : M Response :=
  try_except
    (oid <- lift (Oid.ObjectId movie_id) ;;
     movie <- find_by_id oid ;;
     w <- get_world ;;
     match movie with
     | None => ret not_found
     | Some movie =>
         let related_content :=
           if PyStr.truthy (Movie.type (Movie.fields movie))
           then related_to movie w else [] in
         html <- render_detail movie related_content ;;
         ret {| body := html; status := 200; headers := [] |}
     end)
    (fun _ => ret not_found).

End Program.

(* ================================================================= *)
(** ** Sample worlds and environments *)

Module Sample.

Definition cfg : Config :=
  {| TMDB_API_KEY := "k";
     ADMIN_USERNAME := "admin";
     ADMIN_PASSWORD := "password";
     WEBSITE_URL := "https://site.example";
     TARGET_CHANNEL_ID := Some (-1001) |}.

Definition empty_world : World :=
  {| movies := []; settings := []; categories_collection := [];
     requests_collection := []; is_initialized := false;
     saved_messages := []; trace := [] |}.

Definition copy : forwarded_message := {| fwd_message_id := 7 |}.

Definition RPCError : exn := Exception "RPCError" "".
Definition NetworkError : exn := Exception "NetworkError" "".

(** The search answers one person and one movie; the detail request
    answers the movie. *)
Definition search_payload : json :=
  JObj [("results",
         JArr [JObj [("media_type", JStr "person"); ("id", JInt 1)];
               JObj [("media_type", JStr "movie"); ("id", JInt 27205)]])].

Definition detail_payload : json :=
  JObj [("title", JStr "Inception"); ("overview", JStr "A thief.");
        ("release_date", JStr "2010-07-15"); ("genres", JArr [])].

Definition tmdb (url : string) : Res http_response :=
  if String.eqb url "https://api.themoviedb.org/3/movie/27205?api_key=k"
  then Ok {| status_code := 200; json_body := Ok detail_payload |}
  else Ok {| status_code := 200; json_body := Ok search_payload |}.

(** Everything outside answers; the primary link method is the one
    call that raises. *)
Definition env : Env :=
  {| quote := fun s => s;
     str_of := fun v => match v with JInt 27205 => "27205" | _ => "" end;
     utcnow := 0;
     requests_get_result := tmdb;
     start_result := Ok tt;
     get_download_link_result := fun _ _ => Raise AttributeError;
     forward_messages_result := fun _ _ => Ok copy;
     download_result := fun _ => Ok "bytes";
     delete_result := fun _ => Ok tt;
     send_message_result := fun _ _ _ => Ok tt;
     insert_one_result := fun _ => Ok 1%N;
     render_detail_result := fun _ _ => Ok "<html>";
     short_id_result := fun _ => Ok tt;
     regex_i := fun _ _ => false |}.

Definition with_download (r : Res string) (e : Env) : Env :=
  {| quote := quote e; str_of := str_of e; utcnow := utcnow e;
     requests_get_result := requests_get_result e;
     start_result := start_result e;
     get_download_link_result := get_download_link_result e;
     forward_messages_result := forward_messages_result e;
     download_result := fun _ => r;
     delete_result := delete_result e;
     send_message_result := send_message_result e;
     insert_one_result := insert_one_result e;
     render_detail_result := render_detail_result e;
     short_id_result := short_id_result e;
     regex_i := regex_i e |}.

Definition with_send (r : Res unit) (e : Env) : Env :=
  {| quote := quote e; str_of := str_of e; utcnow := utcnow e;
     requests_get_result := requests_get_result e;
     start_result := start_result e;
     get_download_link_result := get_download_link_result e;
     forward_messages_result := forward_messages_result e;
     download_result := download_result e;
     delete_result := delete_result e;
     send_message_result := fun _ _ _ => r;
     insert_one_result := insert_one_result e;
     render_detail_result := render_detail_result e;
     short_id_result := short_id_result e;
     regex_i := regex_i e |}.

Definition with_insert (r : Res N) (e : Env) : Env :=
  {| quote := quote e; str_of := str_of e; utcnow := utcnow e;
     requests_get_result := requests_get_result e;
     start_result := start_result e;
     get_download_link_result := get_download_link_result e;
     forward_messages_result := forward_messages_result e;
     download_result := download_result e;
     delete_result := delete_result e;
     send_message_result := send_message_result e;
     insert_one_result := fun _ => r;
     render_detail_result := render_detail_result e;
     short_id_result := short_id_result e;
     regex_i := regex_i e |}.

(** A catalogue of 45 movies, inserted oldest first. *)
Definition doc (n : nat) : Movie.doc :=
  {| Movie._id := N.of_nat n;
     Movie.fields :=
       {| Movie.title := JStr "t"; Movie.type := "movie";
          Movie.poster := PLACEHOLDER_POSTER; Movie.backdrop := None;
          Movie.overview := JNull; Movie.release_date := JNull;
          Movie.genres := []; Movie.vote_average := JNull;
          Movie.categories := []; Movie.created_at := 0;
          Movie.telegram_ref := None; Movie.manual_links := None |} |}.

Definition library : World := with_movies (map doc (seq 1 45)) empty_world.

(** A channel post in the source channel carrying a document. *)
Definition post (name : string) : tg_update :=
  {| channel_post :=
       Some {| chat_id := -1001; message_id := 42; video := None;
               document := Some {| file_name := Some name |} |} |}.

Definition webhook_request (name : string) : Request :=
  {| authorization := None; is_json := true; json_update := Ok (Some (post name)) |}.

End Sample.

(* ================================================================= *)
(** ** Vocabulary of the statements *)

Local Open Scope list_scope.

(** The three calls of the fallback method. *)
Definition is_fallback_call (c : call) : bool :=
  match c with
  | ForwardMessages _ _ _ | Download _ | Delete _ => true
  | _ => false
  end.

(** The primary method was asked for the link and raised. *)
Definition primary_raised (chat msg : Z) (evs : list event) : Prop :=
  exists e, In (Event (GetDownloadLink chat msg) (Some e)) evs.

(** A call of the fallback method raised. *)
Definition fallback_raised (evs : list event) : Prop :=
  exists c e, is_fallback_call c = true /\ In (Event c (Some e)) evs.

(** The fallback was started right after the primary method raised. *)
Definition fallback_follows (chat msg : Z) (evs : list event) : Prop :=
  exists before e o after,
    evs = before ++ Event (GetDownloadLink chat msg) (Some e)
                 :: Event (ForwardMessages "me" chat msg) o :: after.

(** What the fallback did after the primary method raised, and what the
    resolver returned for it.  The forward raised; or it returned a copy
    and the download from that copy raised; or the download returned
    and the delete of the copy raised; or the three calls returned one
    after the other and the result is what was downloaded.  There is no
    other call after the primary method. *)
Definition fallback_ran (env : Env) (chat msg : Z) (evs : list event)
           (result : Res (option fresh_link)) : Prop :=
  exists before e rest,
    evs = before ++ Event (GetDownloadLink chat msg) (Some e) :: rest
    /\ ((exists e1,
           rest = [Event (ForwardMessages "me" chat msg) (Some e1)]
           /\ result = Ok None)
        \/ exists copy,
             forward_messages_result env chat msg = Ok copy
             /\ ((exists e2,
                    rest = [Event (ForwardMessages "me" chat msg) None;
                            Event (Download copy) (Some e2)]
                    /\ result = Ok None)
                 \/ (exists e3,
                       rest = [Event (ForwardMessages "me" chat msg) None;
                               Event (Download copy) None;
                               Event (Delete copy) (Some e3)]
                       /\ result = Ok None)
                 \/ (exists content,
                       download_result env copy = Ok content
                       /\ rest = [Event (ForwardMessages "me" chat msg) None;
                                  Event (Download copy) None;
                                  Event (Delete copy) None]
                       /\ result = Ok (Some (LinkBuffer content))))).

(** The request carries the configured admin username and password. *)
Definition credentials_match (cfg : Config) (request : Request) : Prop :=
  exists auth,
    authorization request = Some auth
    /\ username auth = Some (ADMIN_USERNAME cfg)
    /\ password auth = Some (ADMIN_PASSWORD cfg).

(** The str spells an [ObjectId]. *)
Definition well_formed_id (s : string) : Prop :=
  exists oid, Oid.ObjectId s = Ok oid.

(** A computation that touches nothing of the world but the trace, to
    which it only appends. *)
Definition appends_only {A} (m : M A) : Prop :=
  forall w, exists evs, snd (m w) = with_trace (trace w ++ evs) w.

(** The results of a search response, as [search_tmdb_for_bot] reads
    them before it looks for a movie or series. *)
Definition search_results (response : http_response) : Res (list json) :=
  match raise_for_status response with
  | Raise e => Raise e
  | Ok _ =>
      match json_body response with
      | Raise e => Raise e
      | Ok payload =>
          match Py.get payload "results" (JArr []) with
          | Raise e => Raise e
          | Ok results => Py.iter results
          end
      end
  end.

(** A result of another kind than movie or series, a person say. *)
Definition other_kind (r : json) : Prop := is_media r = Ok false.

(** The post comes from the configured source channel. *)
Definition from_source (cfg : Config) (m : tg_message) : Prop :=
  TARGET_CHANNEL_ID cfg = Some (chat_id m).

(** The post carries a video or a document whose filename is [name]. *)
Definition named_attachment (m : tg_message) (name : string) : Prop :=
  exists file,
    or_file (video m) (document m) = Some file
    /\ file_name file = Some name
    /\ name <> EmptyString.

(** The parser gave no title for the filename. *)
Definition parse_failed (name : string) : Prop :=
  fst (parse_filename name) = None
  \/ fst (parse_filename name) = Some EmptyString.

(** The last case of C4 as the specification words it: a filename that
    parses and a title that is found always end in one more record, with
    the post's channel reference, and in a confirmation. *)
Definition found_title_always_stored : Prop :=
  forall cfg env update w m name title year details,
    channel_post update = Some m -> from_source cfg m ->
    named_attachment m name ->
    parse_filename name = (Some title, year) -> title <> EmptyString ->
    fst (search_tmdb_for_bot cfg env title year w) = Ok (Some details) ->
    let w' := snd (handle_new_post cfg env update w) in
    exists oid o,
      movies w'
      = movies w
        ++ [{| Movie._id := oid; Movie.fields := movie_data_of env details m |}]
      /\ In (Event (SendMessage (chat_id m)
                      (PostSuccessfulText (Tmdb.title details)
                                          (WEBSITE_URL cfg) oid)
                      (message_id m)) o)
            (trace w').

(** The payload of a JSON request was parsed into an update. *)
Definition parsed_update (request : Request) : Prop :=
  is_json request = true -> exists update, json_update request = Ok (Some update).

(** C8 as the specification words it: once the payload is parsed the
    route answers 200 [ok], whatever the handler does. *)
Definition webhook_always_ok : Prop :=
  forall cfg env request w,
    parsed_update request ->
    fst (webhook_handler cfg env request w)
    = Ok {| body := "ok"; status := 200; headers := [] |}.

(** [a] comes before [b] when newest goes first: the [_id] of [a] is not
    below the one of [b]. *)
Definition newest_first (a b : Movie.doc) : Prop :=
  (Movie._id b <= Movie._id a)%N.

(** [.] takes the character. *)
Definition no_break (c : ascii) : bool := negb (PyStr.is_linebreak c).

(** What the pattern of [parse_filename] asks of a filename: a first
    group without line break, white space, then a parenthesised group of
    four digits, and anything after. *)
Definition splits (filename group1 year : string) : Prop :=
  exists ws rest,
    filename = (group1 ++ ws ++ "(" ++ year ++ ")" ++ rest)%string
    /\ PyStr.forallb no_break group1 = true
    /\ PyStr.forallb PyStr.is_space ws = true
    /\ String.length year = 4%nat
    /\ PyStr.forallb PyStr.is_digit year = true.

(* ================================================================= *)
(** ** The other views of the site and the helpers of the admin panel *)

(** The calls these views make to the store and to Telegram are not
    traced: they return or raise as [Outside] says, and a write that
    returns is done. *)
Module Site.

(** What these views need from outside beyond [Env]. *)
Record Outside : Type :=
  { BOT_TOKEN : string;
    (** [bot.set_webhook(url=...)] *)
    set_webhook_result : string -> Res bool;
    (** [redirect(fresh_link)] *)
    redirect_result : fresh_link -> Res Response;
    (** [render_template_string(t, ...)], by the name of the template *)
    render_template_string_result : string -> Res string;
    (** [requests_collection.insert_one(d)] *)
    insert_request_result : request_doc -> Res unit;
    (** [categories_collection.update_one(..., upsert=True)] *)
    upsert_category_result : string -> Res unit;
    (** [movies.update_one({"_id": oid}, ...)] *)
    update_movie_result : Oid.t -> Res unit;
    (** [movies.delete_one] and [movies.delete_many], by the identifiers *)
    delete_movies_result : list Oid.t -> Res unit }.

(** [request.form] and [request.args]: the pairs in the order sent. *)
Definition Form : Type := list (string * string).

(** [form.get(k)] *)
Fixpoint get (form : Form) (k : string) : option string :=
  match form with
  | [] => None
  | (k', v) :: rest => if String.eqb k' k then Some v else get rest k
  end.

(** [form.get(k, default)] *)
Definition get_default (form : Form) (k default : string) : string :=
  match get form k with Some v => v | None => default end.

(** [form.getlist(k)] *)
Definition getlist (form : Form) (k : string) : list string :=
  map snd (filter (fun kv => String.eqb (fst kv) k) form).

(** [form.get(k).strip()]: a missing field is [None], which has no
    [strip]. *)
Definition get_strip (form : Form) (k : string) : Res string :=
  match get form k with
  | Some v => Ok (PyStr.strip v)
  | None => Raise AttributeError
  end.

(** What a view returns. *)
Inductive Reply : Type :=
| Tuple (body : string) (status : Z)              (** [return body, status] *)
| NestedTuple (body : string) (rest : string * Z) (** [return body, (text, status)] *)
| Html (body : string)                            (** a rendered template *)
| RedirectFor (endpoint : string)                 (** [redirect(url_for(endpoint))] *)
| Made (r : Response).                            (** a response object *)

(** The argument of the [time_ago] filter. *)
Inductive filter_arg : Type :=
| AnObjectId (oid : N)
| NotAnObjectId.

(** [oid.generation_time], in seconds since the epoch: the first four
    of the twelve bytes. *)
Definition generation_time (oid : N) : Z := Z.of_N (oid / 2 ^ 64).

(** [str(n)] *)
Definition str_int (n : Z) : string := NilZero.string_of_int (Z.to_int n).

(** ['s' if n > 1 else ''] *)
Definition plural (n : Z) : string := if 1 <? n then "s" else "".

(** [s.rstrip(c)] for a one-character [c]. *)
Fixpoint rstrip_char (c : ascii) (s : string) : string :=
  match s with
  | EmptyString => EmptyString
  | String x s' =>
      match rstrip_char c s' with
      | EmptyString => if Ascii.eqb x c then EmptyString else String x EmptyString
      | r => String x r
      end
  end.

(** [s.split(sep)] for a one-character [sep]. *)
Fixpoint split (sep : ascii) (s : string) : list string :=
  match s with
  | EmptyString => [EmptyString]
  | String c s' =>
      if Ascii.eqb c sep then EmptyString :: split sep s'
      else match split sep s' with
           | [] => [String c EmptyString]
           | piece :: pieces => String c piece :: pieces
           end
  end.

(** [[g.strip() for g in genres.split(',') if g.strip()]] *)
Definition genres_of (genres : string) : list string :=
  map PyStr.strip
      (filter (fun g => PyStr.truthy (PyStr.strip g)) (split "," genres)).

(** [[{"name": n.strip(), "url": u.strip()}
      for n, u in zip(names, urls) if n and u]] *)
Definition manual_links_of (names urls : list string) : list (string * string) :=
  map (fun nu => (PyStr.strip (fst nu), PyStr.strip (snd nu)))
      (filter (fun nu => PyStr.truthy (fst nu) && PyStr.truthy (snd nu))
              (combine names urls)).

(** [fresh_link] as a condition: [None] and the empty str are false. *)
Definition link_truthy (l : option fresh_link) : bool :=
  match l with
  | None => false
  | Some (LinkUrl url) => PyStr.truthy url
  | Some (LinkBuffer _) => true
  end.

Definition with_requests (rs : list request_doc) (w : World) : World :=
  {| movies := movies w; settings := settings w;
     categories_collection := categories_collection w;
     requests_collection := rs;
     is_initialized := is_initialized w;
     saved_messages := saved_messages w; trace := trace w |}.

Definition with_categories (cs : list string) (w : World) : World :=
  {| movies := movies w; settings := settings w;
     categories_collection := cs;
     requests_collection := requests_collection w;
     is_initialized := is_initialized w;
     saved_messages := saved_messages w; trace := trace w |}.

(** [delete_one]: the first document of that [_id] goes. *)
Fixpoint remove_first (oid : N) (l : list Movie.doc) : list Movie.doc :=
  match l with
  | [] => []
  | d :: rest =>
      if (Movie._id d =? oid)%N then rest else d :: remove_first oid rest
  end.

(** [update_one] with [$set]: the first document of that [_id] changes. *)
Fixpoint update_first (oid : N) (f : Movie.data -> Movie.data)
         (l : list Movie.doc) : list Movie.doc :=
  match l with
  | [] => []
  | d :: rest =>
      if (Movie._id d =? oid)%N
      then {| Movie._id := Movie._id d; Movie.fields := f (Movie.fields d) |} :: rest
      else d :: update_first oid f rest
  end.

(** [delete_one({"_id": oid})] and [update_one({"_id": oid}, {"$set": ...})]
    with what [ObjectId] made of a str: an identifier of fewer than
    twelve bytes matches no document. *)
Definition delete_one (oid : Oid.t) (l : list Movie.doc) : list Movie.doc :=
  match oid with
  | Oid.Proper n => remove_first n l
  | Oid.Short _ => l
  end.

Definition update_one (oid : Oid.t) (f : Movie.data -> Movie.data)
           (l : list Movie.doc) : list Movie.doc :=
  match oid with
  | Oid.Proper n => update_first n f l
  | Oid.Short _ => l
  end.

(** [delete_many({"_id": {"$in": ids}})]: the documents whose [_id] is
    none of [ids] stay. *)
Definition delete_many (ids : list Oid.t) (l : list Movie.doc) : list Movie.doc :=
  filter (fun d => negb (existsb (fun oid => Oid.is_id oid (Movie._id d)) ids)) l.

(** [[ObjectId(s) for s in ids]]: the first str that is no identifier
    raises. *)
Fixpoint object_ids (ids : list string) : Res (list Oid.t) :=
  match ids with
  | [] => Ok []
  | s :: rest =>
      match Oid.ObjectId s with
      | Raise e => Raise e
      | Ok oid =>
          match object_ids rest with
          | Raise e => Raise e
          | Ok oids => Ok (oid :: oids)
          end
      end
  end.

(** The fields [edit_movie] sets, on the fields the document has. *)
Definition edited (title poster backdrop overview : string)
           (categories : list string) (links : list (string * string))
           (d : Movie.data) : Movie.data :=
  {| Movie.title := JStr title;
     Movie.type := Movie.type d;
     Movie.poster := if PyStr.truthy poster then poster else PLACEHOLDER_POSTER;
     Movie.backdrop := Some backdrop;
     Movie.overview := JStr overview;
     Movie.release_date := Movie.release_date d;
     Movie.genres := Movie.genres d;
     Movie.vote_average := Movie.vote_average d;
     Movie.categories := categories;
     Movie.created_at := Movie.created_at d;
     Movie.telegram_ref := Movie.telegram_ref d;
     Movie.manual_links :=
       match Movie.manual_links d with
       | Some _ => Some links
       | None => None
       end |}.

Section Views.

Variable cfg : Config.
Variable env : Env.
Variable out : Outside.

(** A write to the store: when it returns, [change] is done. *)
Definition store_write (r : Res unit) (change : World -> World) : M unit :=
  fun w =>
    match r with
    | Ok _ => (Ok tt, change w)
    | Raise e => (Raise e, w)
    end.

(** [run_async_from_sync(coro)]: the coroutine is run to its end. *)
Definition run_async_from_sync {A} (coro : M A) : M A := coro.

(** The [time_ago] filter.  [utcnow env] counts microseconds; the age is
    kept exact where the source goes through floats. *)
Definition time_ago (obj_id : filter_arg) : string :=
  match obj_id with
  | NotAnObjectId => EmptyString
  | AnObjectId oid =>
      let microseconds := utcnow env - generation_time oid * 1000000 in
      if microseconds <? 60 * 1000000 then "just now"
      else if microseconds <? 3600 * 1000000 then
        let minutes := Z.quot microseconds (60 * 1000000) in
        (str_int minutes ++ " minute" ++ plural minutes ++ " ago")%string
      else if microseconds <? 86400 * 1000000 then
        let hours := Z.quot microseconds (3600 * 1000000) in
        (str_int hours ++ " hour" ++ plural hours ++ " ago")%string
      else
        let days := Z.quot microseconds (86400 * 1000000) in
        (str_int days ++ " day" ++ plural days ++ " ago")%string
  end.

Definition webhook_url : string :=
  (rstrip_char "/" (WEBSITE_URL cfg) ++ "/webhook/" ++ BOT_TOKEN out)%string.

(** [set_webhook]: the conditional of its [return] binds tighter than
    the comma, so it picks the second member of the pair. *)
Definition set_webhook : M Reply :=
  try_except
    (is_set <- lift (set_webhook_result out webhook_url) ;;
     ret (if is_set : bool
          then Tuple ("Webhook successfully set to: " ++ webhook_url)%string 200
          else NestedTuple ("Webhook successfully set to: " ++ webhook_url)%string
                           ("Failed to set webhook.", 500)))
    (fun e => ret (Tuple ("Error setting webhook: " ++ exn_msg e)%string 500)).

Definition request_content (method : string) (form : Form) : M Reply :=
  if String.eqb method "POST" then
    (match get form "content_name" with
     | Some name =>
         if PyStr.truthy name then
           let d := {| req_name := PyStr.strip name;
                       req_info := PyStr.strip (get_default form "extra_info" "");
                       req_status := "Pending";
                       req_created_at := utcnow env |} in
           store_write (insert_request_result out d)
                       (fun w => with_requests (requests_collection w ++ [d]) w)
         else ret tt
     | None => ret tt
     end) ;;;
    ret (RedirectFor "request_content")
  else
    html <- lift (render_template_string_result out "request_html") ;;
    ret (Html html).

Definition file_reference_not_found : Reply :=
  Tuple "File reference not found." 404.

Definition download_file (movie_id : string) : M Reply :=
  oid <- lift (Oid.ObjectId movie_id) ;;
  movie <- find_by_id env oid ;;
  match movie with
  | None => ret file_reference_not_found
  | Some movie =>
      match Movie.telegram_ref (Movie.fields movie) with
      | None => ret file_reference_not_found
      | Some ref =>
          fresh_link <-
            run_async_from_sync
              (generate_fresh_link_async env (ref_chat_id ref) (ref_message_id ref)) ;;
          match fresh_link with
          | Some link =>
              if link_truthy fresh_link then
                r <- lift (redirect_result out link) ;;
                ret (Made r)
              else ret (Tuple "Could not generate download link." 500)
          | None => ret (Tuple "Could not generate download link." 500)
          end
      end
  end.

Definition stream_page (movie_id : string) : M Reply :=
  oid <- lift (Oid.ObjectId movie_id) ;;
  movie <- find_by_id env oid ;;
  match movie with
  | None => ret file_reference_not_found
  | Some movie =>
      match Movie.telegram_ref (Movie.fields movie) with
      | None => ret file_reference_not_found
      | Some ref =>
          stream_link <-
            run_async_from_sync
              (generate_fresh_link_async env (ref_chat_id ref) (ref_message_id ref)) ;;
          html <- lift (render_template_string_result out "stream_html") ;;
          ret (Html html)
      end
  end.

(** The [add_category] branch of [admin]. *)
Definition add_category (form : Form) : M Reply :=
  (match get form "category_name" with
   | Some name =>
       if PyStr.truthy name then
         let n := PyStr.strip name in
         store_write (upsert_category_result out n)
                     (fun w =>
                        if existsb (String.eqb n) (categories_collection w) then w
                        else with_categories (categories_collection w ++ [n]) w)
       else ret tt
   | None => ret tt
   end) ;;;
  ret (RedirectFor "admin").

(** The [bulk_delete] branch of [admin]. *)
Definition bulk_delete (form : Form) : M Reply :=
  ids <- lift (object_ids (getlist form "selected_ids")) ;;
  (match ids with
   | [] => ret tt
   | _ =>
       store_write (delete_movies_result out ids)
                   (fun w => with_movies (delete_many ids (movies w)) w)
   end) ;;;
  ret (RedirectFor "admin").

Definition delete_movie (movie_id : string) : M Reply :=
  oid <- lift (Oid.ObjectId movie_id) ;;
  store_write (delete_movies_result out [oid])
              (fun w => with_movies (delete_one oid (movies w)) w) ;;;
  ret (RedirectFor "admin").

Definition edit_movie (movie_id : string) (method : string) (form : Form)
  : M Reply :=
  obj_id <- lift (Oid.ObjectId movie_id) ;;
  movie_obj <- find_by_id env obj_id ;;
  match movie_obj with
  | None => ret (Tuple "Movie not found" 404)
  | Some movie_obj =>
      if String.eqb method "POST" then
        title <- lift (get_strip form "title") ;;
        poster <- lift (get_strip form "poster") ;;
        backdrop <- lift (get_strip form "backdrop") ;;
        overview <- lift (get_strip form "overview") ;;
        let links :=
          manual_links_of (getlist form "manual_link_name[]")
                          (getlist form "manual_link_url[]") in
        store_write (update_movie_result out obj_id)
                    (fun w =>
                       with_movies
                         (update_one obj_id
                            (edited title poster backdrop overview
                                    (getlist form "categories") links)
                            (movies w)) w) ;;;
        ret (RedirectFor "admin")
      else
        html <- lift (render_template_string_result out "edit_html") ;;
        ret (Html html)
  end.

(** [get_tmdb_details(tmdb_id, media_type)]: the identifier it was
    given and the record, or [None]. *)
Definition get_tmdb_details (tmdb_id media_type : option string)
  : M (option (option string * Tmdb.details)) :=
  let search_type :=
    match media_type with
    | Some t => if String.eqb t "tv" then "tv" else "movie"
    | None => "movie"
    end in
  try_except
    (response <-
       requests_get env
         ("https://api.themoviedb.org/3/" ++ search_type ++ "/"
          ++ fmt_opt tmdb_id ++ "?api_key=" ++ TMDB_API_KEY cfg)%string ;;
     res <- lift (json_body response) ;;
     t <- lift (Py.get res "title" JNull) ;;
     n <- lift (Py.get res "name" JNull) ;;
     poster_path <- lift (Py.get res "poster_path" JNull) ;;
     backdrop_path <- lift (Py.get res "backdrop_path" JNull) ;;
     ov <- lift (Py.get res "overview" JNull) ;;
     rd <- lift (Py.get res "release_date" JNull) ;;
     fad <- lift (Py.get res "first_air_date" JNull) ;;
     gs <- lift (Py.get res "genres" (JArr [])) ;;
     gl <- lift (Py.iter gs) ;;
     names <- lift (genre_names gl) ;;
     va <- lift (Py.get res "vote_average" JNull) ;;
     ret (Some
            (tmdb_id,
             {| Tmdb.title := Py.or_ t n;
                Tmdb.poster :=
                  Some ("https://image.tmdb.org/t/p/w500" ++ fmt env poster_path)%string;
                Tmdb.backdrop :=
                  Some ("https://image.tmdb.org/t/p/w1280" ++ fmt env backdrop_path)%string;
                Tmdb.overview := ov;
                Tmdb.release_date := Py.or_ rd fad;
                Tmdb.genres := names;
                Tmdb.vote_average := va;
                Tmdb.type :=
                  if String.eqb search_type "tv" then "series" else "movie" |})))
    (fun e => ret None).

End Views.

End Site.

(** More sample environments. *)
Module Sample2.

(** The configuration of a deployment whose [TARGET_CHANNEL_ID] is
    missing or no number. *)
Definition cfg_no_target : Config :=
  {| TMDB_API_KEY := "k"; ADMIN_USERNAME := "admin";
     ADMIN_PASSWORD := "password"; WEBSITE_URL := "https://site.example/";
     TARGET_CHANNEL_ID := None |}.

(** The store takes the record, the confirmation cannot be sent. *)
Definition env_confirmation_fails : Env :=
  {| quote := quote Sample.env; str_of := str_of Sample.env;
     utcnow := utcnow Sample.env;
     requests_get_result := requests_get_result Sample.env;
     start_result := start_result Sample.env;
     get_download_link_result := get_download_link_result Sample.env;
     forward_messages_result := forward_messages_result Sample.env;
     download_result := download_result Sample.env;
     delete_result := delete_result Sample.env;
     send_message_result :=
       fun _ text _ =>
         match text with
         | PostSuccessfulText _ _ _ => Raise Sample.NetworkError
         | _ => Ok tt
         end;
     insert_one_result := insert_one_result Sample.env;
     render_detail_result := render_detail_result Sample.env;
     short_id_result := short_id_result Sample.env;
     regex_i := regex_i Sample.env |}.

(** TMDB answers the detail request with status 404 and its error
    object. *)
Definition error_payload : json :=
  JObj [("success", JBool false); ("status_code", JInt 34);
        ("status_message", JStr "The resource you requested could not be found.")].

Definition tmdb_detail_missing (url : string) : Res http_response :=
  if String.eqb url "https://api.themoviedb.org/3/movie/27205?api_key=k"
  then Ok {| status_code := 404; json_body := Ok error_payload |}
  else Ok {| status_code := 200; json_body := Ok Sample.search_payload |}.

Definition env_detail_missing : Env :=
  {| quote := quote Sample.env; str_of := str_of Sample.env;
     utcnow := utcnow Sample.env;
     requests_get_result := tmdb_detail_missing;
     start_result := start_result Sample.env;
     get_download_link_result := get_download_link_result Sample.env;
     forward_messages_result := forward_messages_result Sample.env;
     download_result := download_result Sample.env;
     delete_result := delete_result Sample.env;
     send_message_result := send_message_result Sample.env;
     insert_one_result := insert_one_result Sample.env;
     render_detail_result := render_detail_result Sample.env;
     short_id_result := short_id_result Sample.env;
     regex_i := regex_i Sample.env |}.

(** The primary link method answers. *)
Definition env_link : Env :=
  {| quote := quote Sample.env; str_of := str_of Sample.env;
     utcnow := utcnow Sample.env;
     requests_get_result := requests_get_result Sample.env;
     start_result := start_result Sample.env;
     get_download_link_result := fun _ _ => Ok "https://cdn.example/file";
     forward_messages_result := forward_messages_result Sample.env;
     download_result := download_result Sample.env;
     delete_result := delete_result Sample.env;
     send_message_result := send_message_result Sample.env;
     insert_one_result := insert_one_result Sample.env;
     render_detail_result := render_detail_result Sample.env;
     short_id_result := short_id_result Sample.env;
     regex_i := regex_i Sample.env |}.

(** Both link methods raise. *)
Definition env_no_link : Env :=
  {| quote := quote Sample.env; str_of := str_of Sample.env;
     utcnow := utcnow Sample.env;
     requests_get_result := requests_get_result Sample.env;
     start_result := start_result Sample.env;
     get_download_link_result := get_download_link_result Sample.env;
     forward_messages_result := fun _ _ => Raise Sample.RPCError;
     download_result := download_result Sample.env;
     delete_result := delete_result Sample.env;
     send_message_result := send_message_result Sample.env;
     insert_one_result := insert_one_result Sample.env;
     render_detail_result := render_detail_result Sample.env;
     short_id_result := short_id_result Sample.env;
     regex_i := regex_i Sample.env |}.

(** Everything the views ask of the outside is granted. *)
Definition out : Site.Outside :=
  {| Site.BOT_TOKEN := "123:abc";
     Site.set_webhook_result := fun _ => Ok true;
     Site.redirect_result :=
       fun l =>
         match l with
         | LinkUrl url =>
             Ok {| body := ""; status := 302; headers := [("Location", url)] |}
         | LinkBuffer _ => Raise TypeError
         end;
     Site.render_template_string_result := fun _ => Ok "<html>";
     Site.insert_request_result := fun _ => Ok tt;
     Site.upsert_category_result := fun _ => Ok tt;
     Site.update_movie_result := fun _ => Ok tt;
     Site.delete_movies_result := fun _ => Ok tt |}.

(** Telegram refuses the webhook. *)
Definition out_refused : Site.Outside :=
  {| Site.BOT_TOKEN := "123:abc";
     Site.set_webhook_result := fun _ => Ok false;
     Site.redirect_result := Site.redirect_result out;
     Site.render_template_string_result := Site.render_template_string_result out;
     Site.insert_request_result := Site.insert_request_result out;
     Site.upsert_category_result := Site.upsert_category_result out;
     Site.update_movie_result := Site.update_movie_result out;
     Site.delete_movies_result := Site.delete_movies_result out |}.

(** The identifier the documents of the sample store are reached by:
    twenty-four digits for the number 1, and for the number 2. *)
Definition id1 : string := "000000000000000000000001".
Definition id2 : string := "000000000000000000000002".

(** A store of two titles: the first linked from the channel, the
    second with manual links. *)
Definition channel_doc : Movie.doc :=
  {| Movie._id := 1%N;
     Movie.fields :=
       {| Movie.title := JStr "Inception"; Movie.type := "movie";
          Movie.poster := PLACEHOLDER_POSTER; Movie.backdrop := None;
          Movie.overview := JNull; Movie.release_date := JNull;
          Movie.genres := []; Movie.vote_average := JNull;
          Movie.categories := []; Movie.created_at := 0;
          Movie.telegram_ref :=
            Some {| ref_chat_id := -1001; ref_message_id := 42 |};
          Movie.manual_links := None |} |}.

Definition manual_doc : Movie.doc :=
  {| Movie._id := 2%N;
     Movie.fields :=
       {| Movie.title := JStr "Heat"; Movie.type := "movie";
          Movie.poster := PLACEHOLDER_POSTER; Movie.backdrop := Some ""%string;
          Movie.overview := JStr ""; Movie.release_date := JNull;
          Movie.genres := []; Movie.vote_average := JNull;
          Movie.categories := ["English"%string]; Movie.created_at := 0;
          Movie.telegram_ref := None;
          Movie.manual_links := Some [("720p"%string, "https://x.example/h"%string)] |} |}.

Definition shelf : World :=
  with_movies [channel_doc; manual_doc] Sample.empty_world.

End Sample2.

(* ================================================================= *)
(** ** Vocabulary of the further statements *)

(** A character a parsed title can hold: no line break, no dot, no
    underscore. *)
Definition title_char (c : ascii) : bool :=
  no_break c && negb (Ascii.eqb c ".") && negb (Ascii.eqb c "_").

(** Four decimal digits. *)
Definition four_digits (year : string) : Prop :=
  String.length year = 4%nat /\ PyStr.forallb PyStr.is_digit year = true.

(** The last character of a str. *)
Fixpoint last_char (s : string) : option ascii :=
  match s with
  | EmptyString => None
  | String c s' =>
      match s' with
      | EmptyString => Some c
      | String _ _ => last_char s'
      end
  end.

(** The request document [request_content] stores for a form. *)
Definition pending_request (env : Env) (form : Site.Form) (name : string)
  : request_doc :=
  {| req_name := PyStr.strip name;
     req_info := PyStr.strip (Site.get_default form "extra_info" "");
     req_status := "Pending";
     req_created_at := utcnow env |}.

(** Whether a document has manual links. *)
Definition has_manual_links (d : Movie.doc) : bool :=
  match Movie.manual_links (Movie.fields d) with
  | Some _ => true
  | None => false
  end.

(** The address [get_tmdb_details] asks: the series endpoint for the
    media type [tv], the movie endpoint for every other one and for
    none. *)
Definition details_url (cfg : Config) (tmdb_id media_type : option string)
  : string :=
  ("https://api.themoviedb.org/3/"
   ++ match media_type with
      | Some t => if String.eqb t "tv" then "tv" else "movie"
      | None => "movie"
      end
   ++ "/" ++ fmt_opt tmdb_id ++ "?api_key=" ++ TMDB_API_KEY cfg)%string.

(* ================================================================= *)
(** ** Running the monad *)

Lemma skipn_length_app {A} (l l' : list A) :
  skipn (List.length l) (l ++ l') = l'.
Proof.
  induction l as [|x l IH]; cbn; auto.
Qed.

Lemma new_events_app (w w' : World) (evs : list event) :
  trace w' = trace w ++ evs -> new_events w w' = evs.
Proof.
  unfold new_events. intros ->. apply skipn_length_app.
Qed.

Lemma new_events_refl (w : World) : new_events w w = [].
Proof.
  apply new_events_app. now rewrite app_nil_r.
Qed.

(** Unfold the primitives of the monad and the calls of the resolver. *)
Ltac run_resolver :=
  unfold generate_fresh_link_async, start, get_download_link,
    forward_messages, download, delete, bind, try_except, get_world,
    modify, extern, ret; cbn.

(** Split on what the environment answers to the calls of the resolver. *)
Ltac case_outcomes env chat msg w :=
  let fwd := fresh "fwd" in
  destruct (is_initialized w); cbn;
  [| destruct (start_result env) as [[]|]; cbn ];
  try (destruct (get_download_link_result env chat msg); cbn;
       [| destruct (forward_messages_result env chat msg) as [fwd|]; cbn;
          [ destruct (download_result env fwd); cbn;
            [ destruct (delete_result env fwd) as [[]|]; cbn | ] | ] ]).

(** Read the new events off a trace that was only appended to. *)
Ltac read_events :=
  unfold new_events; cbn; rewrite <- ?app_assoc; cbn;
  rewrite ?skipn_length_app.

(* ================================================================= *)
(** ** The link resolver *)

(** Split on what the environment answers, keeping the answers of the
    forward and of the download. *)
Ltac case_answers env chat msg w :=
  let fwd := fresh "fwd" in
  let Hfwd := fresh "Hfwd" in
  let Hdl := fresh "Hdl" in
  destruct (is_initialized w); cbn;
  [| destruct (start_result env) as [[]|]; cbn ];
  try (destruct (get_download_link_result env chat msg); cbn;
       [| destruct (forward_messages_result env chat msg) as [fwd|] eqn:Hfwd; cbn;
          [ destruct (download_result env fwd) eqn:Hdl; cbn;
            [ destruct (delete_result env fwd) as [[]|]; cbn | ] | ] ]).

(** Name the case of [fallback_ran] the run is in. *)
Ltac name_fallback :=
  do 2 eexists; split; [reflexivity |];
  first
    [ left; eexists; split; reflexivity
    | right; eexists; split; [first [eassumption | reflexivity] |];
      first
        [ left; eexists; split; reflexivity
        | right; left; eexists; split; reflexivity
        | right; right; eexists; split; [eassumption |]; split; reflexivity ] ].

(** C1.  Whenever the primary method ([get_download_link]) raises, the
    next call of the resolver is the forward that starts the fallback,
    and the fallback is carried through: the copy the forward returned
    is downloaded into memory, the copy is deleted once the download
    returned, and when the delete returned too the resolver returns what
    was downloaded.  No exception leaves the resolver; and when a call
    of the fallback raises as well, no further call is made and the
    resolver returns [None]. *)
Theorem resolver_falls_back_then_unavailable
  (env : Env) (chat msg : Z) (w : World) :
  let run := generate_fresh_link_async env chat msg w in
  let evs := new_events w (snd run) in
  primary_raised chat msg evs ->
  fallback_follows chat msg evs
  /\ (exists v, fst run = Ok v)
  /\ (fallback_raised evs -> fst run = Ok None)
  /\ fallback_ran env chat msg evs (fst run).
Proof.
  cbv zeta.
  unfold primary_raised, fallback_follows, fallback_raised, fallback_ran.
  run_resolver. case_answers env chat msg w; read_events;
    intros [ePrim Hin]; cbn in Hin;
    repeat (destruct Hin as [Hin | Hin]; try discriminate);
    try contradiction;
    (split; [| split; [eauto | split]]).
  all: try (first [ exists []; do 3 eexists; reflexivity
                  | exists [Event PyroStart None]; do 3 eexists; reflexivity ]).
  all: try (first [ exists []; name_fallback
                  | exists [Event PyroStart None]; name_fallback ]).
  all: try (intros _; reflexivity).
  all: intros (cFb & eFb & Hc & Hin'); cbn in Hin';
    repeat (destruct Hin' as [Hin' | Hin']; try discriminate);
    try contradiction;
    inversion Hin'; subst; discriminate.
Qed.

Lemma resolver_falls_back_witness :
  let run := generate_fresh_link_async Sample.env 1 2 Sample.empty_world in
  let evs := new_events Sample.empty_world (snd run) in
  primary_raised 1 2 evs
  /\ fallback_follows 1 2 evs
  /\ (exists v, fst run = Ok v)
  /\ (fallback_raised evs -> fst run = Ok None)
  /\ fallback_ran Sample.env 1 2 evs (fst run).
Proof.
  assert (H : primary_raised 1 2
                (new_events Sample.empty_world
                   (snd (generate_fresh_link_async Sample.env
                           1 2 Sample.empty_world)))).
  { exists AttributeError. vm_compute. auto. }
  split; [exact H |].
  exact (resolver_falls_back_then_unavailable
           Sample.env 1 2 Sample.empty_world H).
Defined.

(** With the sample environment, whose primary method raises and whose
    fallback goes through, the resolver makes the four calls in order
    and returns the downloaded content. *)
Example resolver_fallback_buffer :
  let run := generate_fresh_link_async Sample.env 1 2 Sample.empty_world in
  fst run = Ok (Some (LinkBuffer "bytes"))
  /\ new_events Sample.empty_world (snd run)
     = [Event PyroStart None;
        Event (GetDownloadLink 1 2) (Some AttributeError);
        Event (ForwardMessages "me" 1 2) None;
        Event (Download Sample.copy) None;
        Event (Delete Sample.copy) None].
Proof.
  cbv zeta. split; reflexivity.
Qed.

(** C6.  A call of the resolver, however it ends, leaves the four
    collections (catalogue, categories, settings, requests) as they
    were. *)
Theorem resolver_leaves_store (env : Env) (chat msg : Z) (w : World) :
  store (snd (generate_fresh_link_async env chat msg w)) = store w.
Proof.
  run_resolver. case_outcomes env chat msg w; reflexivity.
Qed.

(** When the download returns, the very next call deletes the forwarded
    copy, and a delete that returns leaves no such copy behind. *)
Lemma delete_follows_download
  (env : Env) (chat msg : Z) (w : World) (copy : forwarded_message) :
  let run := generate_fresh_link_async env chat msg w in
  let evs := new_events w (snd run) in
  In (Event (Download copy) None) evs ->
  (exists before o,
     evs = before ++ [Event (Download copy) None; Event (Delete copy) o])
  /\ (In (Event (Delete copy) None) evs ->
      ~ In copy (saved_messages (snd run))).
Proof.
  cbv zeta. run_resolver. case_outcomes env chat msg w; read_events;
    intros Hin; cbn in Hin;
    repeat (destruct Hin as [Hin | Hin]; try discriminate);
    try contradiction;
    injection Hin as <-.
  all: split;
    [ first [ eexists [_; _], _; reflexivity
            | eexists [_; _; _], _; reflexivity ] |].
  all: intros Hdel; cbn in Hdel;
    repeat (destruct Hdel as [Hdel | Hdel]; try discriminate);
    try contradiction.
  all: rewrite filter_In; intros [_ Hneq];
    unfold same_message in Hneq; rewrite Z.eqb_refl in Hneq; discriminate.
Qed.

(** C7.  With a reference whose primary method raises, whose forward
    returns and whose download raises, the resolver returns [None], never
    calls delete, and the forwarded copy is still in the account's chat
    when the call is over. *)
Theorem forwarded_copy_outlives_failed_download :
  let env := Sample.with_download (Raise Sample.RPCError) Sample.env in
  let run := generate_fresh_link_async env 1 2 Sample.empty_world in
  fst run = Ok None
  /\ saved_messages (snd run) = [Sample.copy]
  /\ forall o, ~ In (Event (Delete Sample.copy) o) (trace (snd run)).
Proof.
  cbv zeta. vm_compute. repeat split.
  intros o H. repeat (destruct H as [H | H]; try discriminate). exact H.
Qed.

(* ================================================================= *)
(** ** The basic-auth gate *)

Lemma check_auth_true (cfg : Config) (u p : option string) :
  check_auth cfg u p = true
  <-> u = Some (ADMIN_USERNAME cfg) /\ p = Some (ADMIN_PASSWORD cfg).
Proof.
  unfold check_auth. destruct u as [u|], p as [p|];
    try (split; [discriminate | intros [? ?]; discriminate]).
  rewrite andb_true_iff, !String.eqb_eq.
  split; intros [-> ->] || intros [[= ->] [= ->]]; auto.
Qed.

(** C9.  A request whose credentials are absent or differ from the
    configured admin username and password gets the 401 response with
    its [WWW-Authenticate] challenge; the answer is the same whatever
    view [f] the decorator wraps and the world is untouched, so the view
    did not run. *)
Theorem requires_auth_rejects
  (cfg : Config) (f : Request -> M Response) (request : Request) (w : World) :
  ~ credentials_match cfg request ->
  requires_auth cfg f request w = (Ok authenticate, w)
  /\ status authenticate = 401
  /\ exists challenge, In ("WWW-Authenticate"%string, challenge) (headers authenticate).
Proof.
  intros Hno. split; [| split; [reflexivity | eexists; left; reflexivity]].
  unfold requires_auth. destruct (authorization request) as [auth|] eqn:Ha;
    [| reflexivity].
  destruct (check_auth cfg (username auth) (password auth)) eqn:Hc;
    [| reflexivity].
  apply check_auth_true in Hc. destruct Hno. exists auth. tauto.
Qed.

Lemma requires_auth_rejects_witness :
  let request :=
    {| authorization := None; is_json := false;
       json_update := Raise (ValueError "") |} in
  ~ credentials_match Sample.cfg request
  /\ requires_auth Sample.cfg (fun _ => raise TypeError) request Sample.empty_world
     = (Ok authenticate, Sample.empty_world).
Proof.
  assert (H : ~ credentials_match Sample.cfg
                {| authorization := None; is_json := false;
                   json_update := Raise (ValueError "") |}).
  { intros (auth & Ha & _). discriminate. }
  split; [exact H |].
  exact (proj1 (requires_auth_rejects Sample.cfg (fun _ => raise TypeError)
                  _ Sample.empty_world H)).
Defined.

(* ================================================================= *)
(** ** The detail route *)

(** Whatever the identifier, the route answers, and with 200 or 404. *)
Lemma movie_detail_answers (env : Env) (movie_id : string) (w : World) :
  exists resp,
    fst (movie_detail env movie_id w) = Ok resp
    /\ (status resp = 200 \/ status resp = 404).
Proof.
  unfold movie_detail, try_except, bind, lift, find_by_id, get_world,
    render_detail, extern, ret.
  destruct (Oid.ObjectId movie_id) as [[oid|bytes]|]; cbn; [| | eauto].
  - destruct (find_one oid w) as [movie|]; cbn; [| eauto].
    destruct (render_detail_result env movie _); cbn; eauto.
  - destruct (short_id_result env bytes) as [[]|]; cbn; eauto.
Qed.

(** C10.  An identifier that does not spell an [ObjectId] gets the 404
    response, the world untouched: the very answer a well-formed
    identifier of no document gets, be it one of twelve bytes that no
    document has or one of fewer bytes. *)
Theorem movie_detail_malformed_id
  (env : Env) (movie_id : string) (w : World) :
  ~ well_formed_id movie_id ->
  movie_detail env movie_id w = (Ok not_found, w)
  /\ status not_found = 404
  /\ (forall other oid,
        Oid.ObjectId other = Ok (Oid.Proper oid) -> find_one oid w = None ->
        movie_detail env other w = movie_detail env movie_id w)
  /\ (forall other bytes,
        Oid.ObjectId other = Ok (Oid.Short bytes) ->
        movie_detail env other w = movie_detail env movie_id w).
Proof.
  intros Hbad.
  assert (Hrun : movie_detail env movie_id w = (Ok not_found, w)).
  { unfold movie_detail, try_except, bind, lift.
    destruct (Oid.ObjectId movie_id) as [oid|] eqn:Hoid; [| reflexivity].
    destruct Hbad. now exists oid. }
  split; [exact Hrun | split; [reflexivity |]]. split.
  - intros other oid Hoid Hnone. rewrite Hrun.
    unfold movie_detail, try_except, bind, lift, find_by_id, get_world.
    rewrite Hoid. cbn. now rewrite Hnone.
  - intros other bytes Hoid. rewrite Hrun.
    unfold movie_detail, try_except, bind, lift, find_by_id, get_world.
    rewrite Hoid. cbn.
    destruct (short_id_result env bytes) as [[]|]; reflexivity.
Qed.

Lemma movie_detail_malformed_id_witness :
  ~ well_formed_id "not-an-id"
  /\ movie_detail Sample.env "not-an-id" Sample.empty_world
     = (Ok not_found, Sample.empty_world).
Proof.
  assert (H : ~ well_formed_id "not-an-id").
  { intros [oid Hoid]. vm_compute in Hoid. discriminate. }
  split; [exact H |].
  exact (proj1 (movie_detail_malformed_id Sample.env "not-an-id"
                  Sample.empty_world H)).
Defined.

(* ================================================================= *)
(** ** The metadata lookup *)

Lemma with_trace_nil (w : World) : with_trace (trace w ++ []) w = w.
Proof.
  destruct w; unfold with_trace; cbn. now rewrite app_nil_r.
Qed.

Lemma appends_ret {A} (a : A) : appends_only (ret a).
Proof.
  intros w. exists []. cbn. now rewrite with_trace_nil.
Qed.

Lemma appends_lift {A} (r : Res A) : appends_only (lift r).
Proof.
  intros w. exists []. cbn. now rewrite with_trace_nil.
Qed.

Lemma appends_extern {A} (c : call) (r : Res A) : appends_only (extern c r).
Proof.
  intros w. now exists [Event c (raised r)].
Qed.

Lemma appends_bind {A B} (m : M A) (k : A -> M B) :
  appends_only m -> (forall a, appends_only (k a)) -> appends_only (bind m k).
Proof.
  intros Hm Hk w. unfold bind. destruct (Hm w) as [evs Hw].
  destruct (m w) as [[a|e] w1]; cbn in *; subst w1.
  - destruct (Hk a (with_trace (trace w ++ evs) w)) as [evs' ->].
    exists (evs ++ evs'). unfold with_trace; cbn. now rewrite app_assoc.
  - now exists evs.
Qed.

Lemma appends_try {A} (m : M A) (h : exn -> M A) :
  appends_only m -> (forall e, appends_only (h e)) ->
  appends_only (try_except m h).
Proof.
  intros Hm Hh w. unfold try_except. destruct (Hm w) as [evs Hw].
  destruct (m w) as [[a|e] w1]; cbn in *; subst w1.
  - now exists evs.
  - destruct (Hh e (with_trace (trace w ++ evs) w)) as [evs' ->].
    exists (evs ++ evs'). unfold with_trace; cbn. now rewrite app_assoc.
Qed.

Ltac appends :=
  repeat first
    [ apply appends_ret | apply appends_lift | apply appends_extern
    | apply appends_try; [| intros ?]
    | apply appends_bind; [| intros ?]
    | match goal with
      | |- appends_only (match ?x with _ => _ end) => destruct x
      end ].

Lemma search_tmdb_appends (cfg : Config) (env : Env) title year :
  appends_only (search_tmdb_for_bot cfg env title year).
Proof.
  unfold search_tmdb_for_bot, requests_get. appends.
Qed.

(** A handler that returns lets no exception through. *)
Lemma try_except_returns {A} (m : M A) (a : A) (w : World) :
  exists v, fst (try_except m (fun _ => ret a) w) = Ok v.
Proof.
  unfold try_except. destruct (m w) as [[v|e] w1]; cbn; eauto.
Qed.

Lemma search_tmdb_returns (cfg : Config) (env : Env) title year w :
  exists found, fst (search_tmdb_for_bot cfg env title year w) = Ok found.
Proof.
  apply try_except_returns.
Qed.

Lemma first_media_none (items : list json) :
  Forall other_kind items -> first_media items = Ok None.
Proof.
  induction 1 as [|r rest Hr _ IH]; cbn; [reflexivity |].
  now rewrite Hr.
Qed.

Lemma first_media_first (before : list json) (r : json) (after : list json) :
  Forall other_kind before -> is_media r = Ok true ->
  first_media (before ++ r :: after) = Ok (Some r).
Proof.
  intros Hb Hr. induction Hb as [|x rest Hx _ IH]; cbn.
  - now rewrite Hr.
  - now rewrite Hx.
Qed.

(** A result of kind movie or series is a non-empty dict whose
    [media_type] is one of the two strs. *)
Lemma is_media_true (r : json) :
  is_media r = Ok true ->
  Py.truthy r = true
  /\ exists media_type,
       Py.getitem r "media_type" = Ok media_type
       /\ (media_type = JStr "movie" \/ media_type = JStr "tv").
Proof.
  unfold is_media, Py.get, Py.getitem.
  destruct r as [| | | | |items|fields]; try discriminate.
  destruct (Py.assoc "media_type" fields) as [v|] eqn:Hv;
    [| cbn; discriminate].
  intros [= H]. split.
  - destruct fields; [discriminate | reflexivity].
  - exists v. split; [reflexivity |].
    apply orb_true_iff in H. unfold Py.eq_str in H.
    destruct v; try (destruct H; discriminate).
    destruct H as [H | H]; apply String.eqb_eq in H; subst; auto.
Qed.

Arguments search_url : simpl never.
Arguments detail_url : simpl never.

Ltac run_search :=
  unfold search_tmdb_for_bot, try_except, bind, requests_get, extern, lift,
    ret; cbn.

(** Split on the innermost scrutinee the goal is stuck on. *)
Ltac split_step :=
  match goal with
  | |- context [match ?x with _ => _ end] =>
      lazymatch x with
      | context [match _ with _ => _ end] => fail
      | _ => destruct x eqn:?
      end
  end; cbn.

(** A request that raised makes the lookup return [None]. *)
Lemma search_tmdb_raise_none (cfg : Config) (env : Env) title year w :
  let run := search_tmdb_for_bot cfg env title year w in
  forall c e, In (Event c (Some e)) (new_events w (snd run)) ->
              fst run = Ok None.
Proof.
  cbv zeta. run_search. repeat split_step; try reflexivity.
  all: read_events; intros c e Hin; cbn in Hin;
    repeat (destruct Hin as [Hin | Hin]; try discriminate);
    try contradiction.
  all: match goal with
       | H : requests_get_result _ _ = Ok _ |- _ =>
           rewrite H in Hin; discriminate
       end.
Qed.

Ltac read_results H :=
  unfold search_results in H;
  repeat match type of H with
         | context [match ?x with _ => _ end] =>
             lazymatch x with
             | context [match _ with _ => _ end] => fail
             | _ => destruct x eqn:?; try discriminate H
             end
         end.

(** Without a movie or a series among the results the lookup returns
    [None]. *)
Lemma search_tmdb_no_media (cfg : Config) (env : Env) title year w
  (response : http_response) (items : list json) :
  requests_get_result env (search_url cfg env title year) = Ok response ->
  search_results response = Ok items ->
  Forall other_kind items ->
  fst (search_tmdb_for_bot cfg env title year w) = Ok None.
Proof.
  intros Hget Hres Hnone. run_search. rewrite Hget. cbn.
  read_results Hres. cbn. rewrite Hres. cbn.
  now rewrite (first_media_none _ Hnone).
Qed.

(** With [r] the first movie or series among the results, the lookup
    goes on with [r]: its next request asks for the details of [r], and
    the kind of what it returns is the kind of [r]. *)
Lemma search_tmdb_first_media (cfg : Config) (env : Env) title year w
  (response : http_response) (before : list json) (r : json)
  (after : list json) :
  requests_get_result env (search_url cfg env title year) = Ok response ->
  search_results response = Ok (before ++ r :: after) ->
  Forall other_kind before ->
  is_media r = Ok true ->
  let run := search_tmdb_for_bot cfg env title year w in
  exists media_type,
    Py.getitem r "media_type" = Ok media_type
    /\ (forall tmdb_id,
          Py.getitem r "id" = Ok tmdb_id ->
          exists o,
            new_events w (snd run)
            = [Event (RequestsGet (search_url cfg env title year)) None;
               Event (RequestsGet (detail_url cfg env media_type tmdb_id)) o])
    /\ (forall details,
          fst run = Ok (Some details) ->
          Tmdb.type details
          = if Py.eq_str media_type "tv" then "series"%string
            else "movie"%string).
Proof.
  intros Hget Hres Hbefore Hr. cbv zeta.
  destruct (is_media_true r Hr) as (Htruthy & media_type & Hmt & _).
  exists media_type. split; [exact Hmt |].
  run_search. rewrite Hget. cbn.
  read_results Hres. cbn. rewrite Hres. cbn.
  rewrite (first_media_first _ _ after Hbefore Hr). cbn.
  rewrite Htruthy, Hmt. cbn. split.
  - intros tmdb_id Hid. rewrite Hid. cbn.
    exists (raised (requests_get_result env (detail_url cfg env media_type tmdb_id))).
    repeat split_step; read_events; reflexivity.
  - intros details. repeat split_step; intros Hd; try discriminate Hd.
    all: now injection Hd as <-.
Qed.

(** A search that answered with an HTTP error status, 4xx or 5xx, or
    with a body from which no list of results can be read, ends the
    lookup there: it returns [None] and asks for no details. *)
Lemma search_tmdb_search_failed (cfg : Config) (env : Env) title year w
  (response : http_response) (e : exn) :
  requests_get_result env (search_url cfg env title year) = Ok response ->
  search_results response = Raise e ->
  let run := search_tmdb_for_bot cfg env title year w in
  fst run = Ok None
  /\ new_events w (snd run)
     = [Event (RequestsGet (search_url cfg env title year)) None].
Proof.
  intros Hget Hres. cbv zeta. run_search. rewrite Hget. cbn.
  unfold search_results in Hres.
  destruct (raise_for_status response) as [[]|]; cbn;
    [| split; [reflexivity | read_events; reflexivity]].
  destruct (json_body response) as [payload|]; cbn;
    [| split; [reflexivity | read_events; reflexivity]].
  destruct (Py.get payload "results" (JArr [])) as [results|]; cbn;
    [| split; [reflexivity | read_events; reflexivity]].
  rewrite Hres. cbn. split; [reflexivity | read_events; reflexivity].
Qed.

Lemma raise_for_status_error (response : http_response) :
  400 <= status_code response < 600 ->
  search_results response = Raise HTTPError.
Proof.
  intros [Hlo Hhi]. unfold search_results, raise_for_status.
  apply Z.leb_le in Hlo. apply Z.ltb_lt in Hhi. now rewrite Hlo, Hhi.
Qed.

(** C5.  The lookup never raises.  It returns [None] whenever a request
    raised, and whenever the search answered without a movie or a series
    among its results.  When the search answered, the results before the
    first movie or series [r], persons say, are passed over: the detail
    request is the one for [r] and the kind returned is the kind of
    [r].  A search answered with an HTTP error status, 4xx or 5xx, or
    with a body that holds no readable list of results, is a failed
    request as well: the lookup returns [None] and asks for no
    details. *)
Theorem search_tmdb_first_media_or_none
  (cfg : Config) (env : Env) (title : string) (year : option string)
  (w : World) :
  let run := search_tmdb_for_bot cfg env title year w in
  let evs := new_events w (snd run) in
  (exists found, fst run = Ok found)
  /\ (forall c e, In (Event c (Some e)) evs -> fst run = Ok None)
  /\ (forall response items,
        requests_get_result env (search_url cfg env title year) = Ok response ->
        search_results response = Ok items ->
        (Forall other_kind items -> fst run = Ok None)
        /\ (forall before r after,
              items = before ++ r :: after ->
              Forall other_kind before ->
              is_media r = Ok true ->
              exists media_type,
                Py.getitem r "media_type" = Ok media_type
                /\ (forall tmdb_id,
                      Py.getitem r "id" = Ok tmdb_id ->
                      exists o,
                        evs
                        = [Event (RequestsGet (search_url cfg env title year)) None;
                           Event (RequestsGet
                                    (detail_url cfg env media_type tmdb_id)) o])
                /\ (forall details,
                      fst run = Ok (Some details) ->
                      Tmdb.type details
                      = if Py.eq_str media_type "tv" then "series"%string
                        else "movie"%string)))
  /\ (forall response,
        requests_get_result env (search_url cfg env title year) = Ok response ->
        (400 <= status_code response < 600
         \/ exists e, search_results response = Raise e) ->
        fst run = Ok None
        /\ evs = [Event (RequestsGet (search_url cfg env title year)) None]).
Proof.
  cbv zeta. split; [apply search_tmdb_returns |].
  split; [apply search_tmdb_raise_none |]. split.
  - intros response items Hget Hres. split.
    + exact (search_tmdb_no_media cfg env title year w response items Hget Hres).
    + intros before r after -> Hbefore Hr.
      exact (search_tmdb_first_media cfg env title year w response before r after
               Hget Hres Hbefore Hr).
  - intros response Hget [Hstatus | [e Hres]].
    + exact (search_tmdb_search_failed cfg env title year w response HTTPError
               Hget (raise_for_status_error response Hstatus)).
    + exact (search_tmdb_search_failed cfg env title year w response e Hget Hres).
Qed.

Lemma search_tmdb_first_media_or_none_witness :
  let person := JObj [("media_type"%string, JStr "person"); ("id"%string, JInt 1)] in
  let movie := JObj [("media_type"%string, JStr "movie"); ("id"%string, JInt 27205)] in
  let run :=
    search_tmdb_for_bot Sample.cfg Sample.env "Inception" (Some "2010"%string)
                        Sample.empty_world in
  Sample.tmdb (search_url Sample.cfg Sample.env "Inception" (Some "2010"%string))
  = Ok {| status_code := 200; json_body := Ok Sample.search_payload |}
  /\ other_kind person
  /\ is_media movie = Ok true
  /\ exists o,
       new_events Sample.empty_world (snd run)
       = [Event (RequestsGet
                   (search_url Sample.cfg Sample.env "Inception"
                               (Some "2010"%string))) None;
          Event (RequestsGet
                   (detail_url Sample.cfg Sample.env (JStr "movie") (JInt 27205)))
                o].
Proof.
  cbv zeta. split; [reflexivity |]. split; [reflexivity |].
  split; [reflexivity |].
  destruct (search_tmdb_first_media_or_none Sample.cfg Sample.env "Inception"
              (Some "2010"%string) Sample.empty_world)
    as (_ & _ & Hsel & _).
  destruct (Hsel {| status_code := 200; json_body := Ok Sample.search_payload |}
                 [JObj [("media_type"%string, JStr "person"); ("id"%string, JInt 1)];
                  JObj [("media_type"%string, JStr "movie"); ("id"%string, JInt 27205)]])
    as [_ Hfirst]; [reflexivity | reflexivity |].
  destruct (Hfirst [JObj [("media_type"%string, JStr "person"); ("id"%string, JInt 1)]]
                   (JObj [("media_type"%string, JStr "movie"); ("id"%string, JInt 27205)])
                   [])
    as (media_type & Hmt & Hev & _);
    [reflexivity | constructor; [reflexivity | constructor] | reflexivity |].
  injection Hmt as <-.
  exact (Hev (JInt 27205) eq_refl).
Defined.

(* ================================================================= *)
(** ** The ingestion handler *)

Lemma other_channel_false (cfg : Config) (m : tg_message) :
  other_channel cfg (chat_id m) = false <-> from_source cfg m.
Proof.
  unfold other_channel, from_source.
  destruct (TARGET_CHANNEL_ID cfg) as [target|]; [| split; discriminate].
  rewrite negb_false_iff, Z.eqb_eq. split; [now intros -> | now intros [= ->]].
Qed.

Lemma truthy_nonempty (s : string) : PyStr.truthy s = true <-> s <> EmptyString.
Proof.
  destruct s; cbn; split; congruence.
Qed.

(** A post that is not from the source channel, or has no named
    attachment, is dropped: nothing is sent, nothing is stored. *)
Lemma handle_new_post_ignores (cfg : Config) (env : Env) update w :
  (forall m, channel_post update = Some m -> from_source cfg m ->
             forall name, ~ named_attachment m name) ->
  handle_new_post cfg env update w = (Ok tt, w).
Proof.
  intros Hign. unfold handle_new_post.
  destruct (channel_post update) as [m|]; [| reflexivity].
  destruct (other_channel cfg (chat_id m)) eqn:Hch; [reflexivity |].
  apply other_channel_false in Hch.
  destruct (or_file (video m) (document m)) as [file|] eqn:Hfile;
    [| reflexivity].
  destruct (file_name file) as [name|] eqn:Hname; [| reflexivity].
  destruct (PyStr.truthy name) eqn:Htr; [| reflexivity].
  destruct (Hign m eq_refl Hch name). exists file.
  now rewrite <- truthy_nonempty.
Qed.

(** A post from the source channel with a named attachment goes to the
    parser. *)
Lemma handle_new_post_named (cfg : Config) (env : Env) update m name :
  channel_post update = Some m -> from_source cfg m -> named_attachment m name ->
  handle_new_post cfg env update
  = match parse_filename name with
    | (Some title, year) =>
        if negb (PyStr.truthy title) then
          send_message env (chat_id m) FormatErrorText (message_id m)
        else post_parsed cfg env m title year
    | (None, _) => send_message env (chat_id m) FormatErrorText (message_id m)
    end.
Proof.
  intros Hpost Hsrc (file & Hfile & Hname & Hne). unfold handle_new_post.
  rewrite Hpost. apply other_channel_false in Hsrc. rewrite Hsrc.
  rewrite Hfile, Hname. apply truthy_nonempty in Hne. now rewrite Hne.
Qed.

Lemma bind_run {A B} (m : M A) (k : A -> M B) (w : World) :
  bind m k w
  = match m w with
    | (Ok a, w') => k a w'
    | (Raise e, w') => (Raise e, w')
    end.
Proof.
  reflexivity.
Qed.

Lemma search_tmdb_world (cfg : Config) (env : Env) title year w :
  exists evs,
    snd (search_tmdb_for_bot cfg env title year w)
    = with_trace (trace w ++ evs) w.
Proof.
  apply search_tmdb_appends.
Qed.

(** C4, as the code has it.  A post that is not from the source channel
    or carries no named video or document is dropped without a trace.
    For a post that is and does: when the parser gives no title, the
    format-error text is sent and nothing is stored; when the lookup
    finds nothing, the not-found text is sent and nothing is stored;
    when the lookup finds the title, one insert is made, of a record
    whose channel reference is the post's chat and message identifiers,
    and then either the store took it, the catalogue has grown by that
    one record and the confirmation is sent next, or the store raised,
    the catalogue is as it was and the error text is sent. *)
Theorem handle_new_post_cases
  (cfg : Config) (env : Env) (update : tg_update) (w : World) :
  let run := handle_new_post cfg env update w in
  let w' := snd run in
  ((forall m, channel_post update = Some m -> from_source cfg m ->
              forall name, ~ named_attachment m name) ->
   run = (Ok tt, w))
  /\ forall m name,
      channel_post update = Some m -> from_source cfg m ->
      named_attachment m name ->
      let chat := chat_id m in
      let reply := message_id m in
      (parse_failed name ->
       movies w' = movies w
       /\ exists o,
           new_events w w' = [Event (SendMessage chat FormatErrorText reply) o])
      /\ forall title year,
          parse_filename name = (Some title, year) -> title <> EmptyString ->
          let lookup := search_tmdb_for_bot cfg env title year w in
          let rest := new_events (snd lookup) w' in
          (fst lookup = Ok None ->
           movies w' = movies w
           /\ exists o,
               rest = [Event (SendMessage chat (NotFoundText title year) reply) o])
          /\ forall details,
              fst lookup = Ok (Some details) ->
              let d := movie_data_of env details m in
              Movie.telegram_ref d
              = Some {| ref_chat_id := chat; ref_message_id := reply |}
              /\ (forall oid,
                    insert_one_result env d = Ok oid ->
                    movies w'
                    = movies w ++ [{| Movie._id := oid; Movie.fields := d |}]
                    /\ exists o more,
                        rest
                        = Event (InsertOne d) None
                          :: Event (SendMessage chat
                                      (PostSuccessfulText (Tmdb.title details)
                                                          (WEBSITE_URL cfg) oid)
                                      reply) o
                          :: more)
              /\ (forall e,
                    insert_one_result env d = Raise e ->
                    movies w' = movies w
                    /\ exists o,
                        rest
                        = [Event (InsertOne d) (Some e);
                           Event (SendMessage chat (DbErrorText e) reply) o]).
Proof.
  cbv zeta. split; [apply handle_new_post_ignores |].
  intros m name Hpost Hsrc Hatt.
  rewrite (handle_new_post_named cfg env update m name Hpost Hsrc Hatt).
  split.
  - intros Hfail. unfold parse_failed in Hfail.
    destruct (parse_filename name) as [[title|] year]; cbn in Hfail.
    + destruct Hfail as [Hfail | Hfail]; [discriminate |].
      injection Hfail as ->. unfold send_message, extern. cbn.
      split; [reflexivity |].
      eexists. apply new_events_app. reflexivity.
    + unfold send_message, extern. cbn. split; [reflexivity |].
      eexists. apply new_events_app. reflexivity.
  - intros title year Hparse Hne. rewrite Hparse.
    apply truthy_nonempty in Hne. rewrite Hne. cbn [negb].
    unfold post_parsed. rewrite !bind_run.
    destruct (search_tmdb_world cfg env title year w) as [evs Hw1].
    destruct (search_tmdb_for_bot cfg env title year w) as [found w1].
    cbn [fst snd] in *. subst w1. split.
    + intros ->. unfold send_message, extern, new_events. cbn.
      split; [reflexivity |]. eexists. apply skipn_length_app.
    + intros details ->. split; [reflexivity |].
      unfold try_except, bind, insert_one, send_message, extern, modify, ret,
        new_events.
      cbn. set (t1 := trace w ++ evs). split.
      * intros oid ->. cbn.
        destruct (send_message_result env (chat_id m) _ (message_id m));
          cbn; (split; [reflexivity |]); do 2 eexists;
          rewrite <- ?app_assoc; apply skipn_length_app.
      * intros e ->. cbn. split; [reflexivity |].
        eexists. rewrite <- ?app_assoc. apply skipn_length_app.
Qed.

Lemma handle_new_post_cases_witness :
  let update := Sample.post "Inception (2010).mkv" in
  let run := handle_new_post Sample.cfg Sample.env update Sample.empty_world in
  exists d,
    movies (snd run) = [{| Movie._id := 1%N; Movie.fields := d |}]
    /\ Movie.telegram_ref d
       = Some {| ref_chat_id := -1001; ref_message_id := 42 |}.
Proof.
  cbv zeta.
  destruct (handle_new_post_cases Sample.cfg Sample.env
              (Sample.post "Inception (2010).mkv") Sample.empty_world)
    as [_ H].
  assert (Hatt : named_attachment
                   {| chat_id := -1001; message_id := 42; video := None;
                      document := Some {| file_name := Some "Inception (2010).mkv"%string |} |}
                   "Inception (2010).mkv").
  { eexists. split; [reflexivity |]. split; [reflexivity | discriminate]. }
  destruct (H _ "Inception (2010).mkv"%string eq_refl eq_refl Hatt) as [_ H1].
  assert (Hne : "Inception"%string <> EmptyString) by discriminate.
  destruct (H1 "Inception"%string (Some "2010"%string) eq_refl Hne) as [_ H2].
  assert (Hfound : exists details,
             fst (search_tmdb_for_bot Sample.cfg Sample.env "Inception"
                    (Some "2010"%string) Sample.empty_world)
             = Ok (Some details)).
  { vm_compute. eauto. }
  destruct Hfound as [details Hd].
  destruct (H2 details Hd) as (Href & Hok & _).
  destruct (Hok 1%N eq_refl) as [Hmovies _].
  eexists. split; [exact Hmovies | exact Href].
Defined.

(** The claim of C4 fails where the store refuses the insert: the
    filename parses and the lookup finds the title, yet no record is
    stored and no confirmation is sent. *)
Lemma insert_failure_stores_nothing :
  let env := Sample.with_insert (Raise Sample.NetworkError) Sample.env in
  let update := Sample.post "Inception (2010).mkv" in
  let run := handle_new_post Sample.cfg env update Sample.empty_world in
  (parse_filename "Inception (2010).mkv"
   = (Some "Inception"%string, Some "2010"%string)
   /\ (exists details,
         fst (search_tmdb_for_bot Sample.cfg env "Inception" (Some "2010"%string)
                                  Sample.empty_world)
         = Ok (Some details))
   /\ movies (snd run) = []
   /\ forall title site oid o,
        ~ In (Event (SendMessage (-1001) (PostSuccessfulText title site oid) 42) o)
             (trace (snd run)))
  /\ ~ found_title_always_stored.
Proof.
  cbv zeta.
  assert (Hfound : exists details,
             fst (search_tmdb_for_bot Sample.cfg
                    (Sample.with_insert (Raise Sample.NetworkError) Sample.env)
                    "Inception" (Some "2010"%string) Sample.empty_world)
             = Ok (Some details)).
  { vm_compute. eauto. }
  split.
  - split; [reflexivity |]. split; [exact Hfound |].
    split; [reflexivity |].
    intros title site oid o H. vm_compute in H.
    repeat (destruct H as [H | H]; try discriminate). exact H.
  - intros Hclaim. destruct Hfound as [details Hd].
    assert (Hatt : named_attachment
                     {| chat_id := -1001; message_id := 42; video := None;
                        document := Some {| file_name := Some "Inception (2010).mkv"%string |} |}
                     "Inception (2010).mkv").
    { eexists. split; [reflexivity |]. split; [reflexivity | discriminate]. }
    assert (Hne : "Inception"%string <> EmptyString) by discriminate.
    destruct (Hclaim Sample.cfg
                (Sample.with_insert (Raise Sample.NetworkError) Sample.env)
                (Sample.post "Inception (2010).mkv") Sample.empty_world
                _ _ _ _ details eq_refl eq_refl Hatt eq_refl Hne Hd)
      as (oid & o & Hmovies & _).
    discriminate Hmovies.
Qed.

(* ================================================================= *)
(** ** The webhook route *)

(** While the notifications get through, the handler returns whatever
    the parser, the lookup and the store did. *)
Lemma handle_new_post_returns (cfg : Config) (env : Env) update w :
  (forall chat text reply, send_message_result env chat text reply = Ok tt) ->
  fst (handle_new_post cfg env update w) = Ok tt.
Proof.
  intros Hsend. unfold handle_new_post.
  destruct (channel_post update) as [m|]; [| reflexivity].
  destruct (other_channel cfg (chat_id m)); [reflexivity |].
  destruct (or_file (video m) (document m)) as [file|]; [| reflexivity].
  destruct (file_name file) as [name|]; [| reflexivity].
  destruct (PyStr.truthy name); [| reflexivity]. cbn [negb].
  assert (Hfmt : forall w0,
             fst (send_message env (chat_id m) FormatErrorText (message_id m) w0)
             = Ok tt).
  { intros w0. unfold send_message, extern. cbn. apply Hsend. }
  destruct (parse_filename name) as [[title|] year]; [| apply Hfmt].
  destruct (PyStr.truthy title); cbn [negb]; [| apply Hfmt].
  unfold post_parsed. rewrite bind_run.
  destruct (search_tmdb_returns cfg env title year w) as [found Hfound].
  destruct (search_tmdb_for_bot cfg env title year w) as [r w1].
  cbn in Hfound. subst r.
  unfold try_except, bind, insert_one, send_message, extern, modify, ret.
  destruct found as [details|]; cbn; [| apply Hsend].
  destruct (insert_one_result env (movie_data_of env details m)); cbn;
    rewrite ?Hsend; cbn; try apply Hsend; reflexivity.
Qed.

(** C8, as the code has it.  Once the payload is parsed into an update,
    and while the notifications to the channel get through, the webhook
    answers 200 [ok], whichever way the ingestion went; a request that
    is not JSON gets the same answer. *)
Theorem webhook_ok_when_notifications_return
  (cfg : Config) (env : Env) (request : Request) (w : World) :
  (forall chat text reply, send_message_result env chat text reply = Ok tt) ->
  parsed_update request ->
  fst (webhook_handler cfg env request w)
  = Ok {| body := "ok"; status := 200; headers := [] |}.
Proof.
  intros Hsend Hparsed. unfold webhook_handler. rewrite bind_run.
  unfold parsed_update in Hparsed.
  destruct (is_json request); [| reflexivity].
  destruct (Hparsed eq_refl) as [update Hupdate]. rewrite Hupdate.
  rewrite bind_run. unfold lift, handle_parsed.
  pose proof (handle_new_post_returns cfg env update w Hsend) as Hret.
  destruct (handle_new_post cfg env update w) as [r w1]. cbn in Hret.
  now subst r.
Qed.

Lemma webhook_ok_witness :
  (forall chat text reply,
      send_message_result Sample.env chat text reply = Ok tt)
  /\ parsed_update (Sample.webhook_request "randomfile.mkv")
  /\ fst (webhook_handler Sample.cfg Sample.env
            (Sample.webhook_request "randomfile.mkv") Sample.empty_world)
     = Ok {| body := "ok"; status := 200; headers := [] |}.
Proof.
  assert (Hsend : forall chat text reply,
             send_message_result Sample.env chat text reply = Ok tt)
    by reflexivity.
  assert (Hparsed : parsed_update (Sample.webhook_request "randomfile.mkv")).
  { intros _. eexists. reflexivity. }
  split; [exact Hsend |]. split; [exact Hparsed |].
  exact (webhook_ok_when_notifications_return Sample.cfg Sample.env
           (Sample.webhook_request "randomfile.mkv") Sample.empty_world
           Hsend Hparsed).
Defined.

(** An empty payload, [{}] say, is JSON of which [Update.de_json] makes
    [None]: the handler raises on its first line and the exception
    leaves the route, though every notification would get through. *)
Example webhook_raises_on_empty_payload :
  let request :=
    {| authorization := None; is_json := true; json_update := Ok None |} in
  (forall chat text reply,
      send_message_result Sample.env chat text reply = Ok tt)
  /\ webhook_handler Sample.cfg Sample.env request Sample.empty_world
     = (Raise AttributeError, Sample.empty_world).
Proof.
  cbv zeta. split; reflexivity.
Qed.

(** The claim of C8 fails where the notification itself raises: the
    payload is parsed into an update, the filename has no year, the format-error text
    cannot be sent, and the exception leaves the route instead of the
    200 answer. *)
Lemma webhook_raises_with_notification :
  let env := Sample.with_send (Raise Sample.NetworkError) Sample.env in
  let request := Sample.webhook_request "randomfile.mkv" in
  (parsed_update request
   /\ fst (webhook_handler Sample.cfg env request Sample.empty_world)
      = Raise Sample.NetworkError)
  /\ ~ webhook_always_ok.
Proof.
  cbv zeta. split; [split; [intros _; eexists; reflexivity | reflexivity] |].
  intros Hclaim.
  specialize (Hclaim Sample.cfg
                (Sample.with_send (Raise Sample.NetworkError) Sample.env)
                (Sample.webhook_request "randomfile.mkv") Sample.empty_world).
  discriminate Hclaim. intros _. eexists. reflexivity.
Qed.

(* ================================================================= *)
(** ** Pagination *)

Section Sorting.

Lemma insert_desc_perm (d : Movie.doc) (l : list Movie.doc) :
  Permutation (Cursor.insert_desc d l) (d :: l).
Proof.
  induction l as [|x l IH]; cbn; [reflexivity |].
  destruct (Movie._id x <=? Movie._id d)%N; [reflexivity |].
  rewrite IH. apply perm_swap.
Qed.

Lemma sort_desc_perm (l : list Movie.doc) :
  Permutation (Cursor.sort_desc l) l.
Proof.
  induction l as [|x l IH]; cbn; [reflexivity |].
  rewrite insert_desc_perm. now constructor.
Qed.

Lemma insert_desc_sorted (d : Movie.doc) (l : list Movie.doc) :
  StronglySorted newest_first l ->
  StronglySorted newest_first (Cursor.insert_desc d l).
Proof.
  induction 1 as [|x l Hs IH Hx]; cbn.
  - repeat constructor.
  - destruct (Movie._id x <=? Movie._id d)%N eqn:Hcmp.
    + apply N.leb_le in Hcmp. constructor; [now constructor |].
      constructor; [exact Hcmp |].
      eapply Forall_impl; [| exact Hx].
      unfold newest_first. intros y Hy. lia.
    + apply N.leb_gt in Hcmp. constructor; [exact IH |].
      eapply Permutation_Forall;
        [symmetry; apply insert_desc_perm |].
      constructor; [unfold newest_first; lia | exact Hx].
Qed.

Lemma sort_desc_sorted (l : list Movie.doc) :
  StronglySorted newest_first (Cursor.sort_desc l).
Proof.
  induction l as [|x l IH]; cbn; [constructor |].
  now apply insert_desc_sorted.
Qed.

End Sorting.

Section Slices.

Context {A : Type}.

Lemma firstn_then_next (a b : nat) (l : list A) :
  firstn a l ++ firstn b (skipn a l) = firstn (a + b) l.
Proof.
  revert l. induction a as [|a IH]; intros l; [reflexivity |].
  destruct l as [|x l]; cbn.
  - now rewrite firstn_nil.
  - now rewrite IH.
Qed.

(** The slices of length [n] at offsets [0], [n], ..., one after the
    other, are the prefix they cut. *)
Lemma concat_slices (n k : nat) (l : list A) :
  List.concat (map (fun i => firstn n (skipn (i * n) l)) (seq 0 k))
  = firstn (k * n) l.
Proof.
  induction k as [|k IH]; [reflexivity |].
  rewrite seq_S, map_app, concat_app, IH. cbn.
  rewrite app_nil_r, firstn_then_next. f_equal. lia.
Qed.

End Slices.

(** The ceiling of the quotient, by what it is bounded with. *)
Lemma ceiling_bounds (a b : Z) :
  0 < b ->
  let n := Qceiling (inject_Z a / inject_Z b)%Q in
  (n - 1) * b < a <= n * b.
Proof.
  intros Hb. destruct b as [|p|p]; try lia.
  unfold Qceiling, Qfloor, Qdiv, Qinv, Qmult, Qopp, inject_Z. cbn.
  rewrite Z.mul_1_r.
  pose proof (Z.mul_div_le (- a) (Z.pos p) eq_refl).
  pose proof (Z.mul_succ_div_gt (- a) (Z.pos p) eq_refl).
  lia.
Qed.

Lemma total_pages_spec (p per total : Z) :
  0 < per ->
  exists n,
    total_pages {| page := p; per_page := per; total_count := total |} = Ok n
    /\ (n - 1) * per < total <= n * per.
Proof.
  intros Hper. unfold total_pages. cbn.
  destruct (per =? 0) eqn:H0; [apply Z.eqb_eq in H0; lia |].
  eexists. split; [reflexivity |]. now apply ceiling_bounds.
Qed.

(** Page [p], for [p] from 1 on, is the slice of the sorted matches at
    offset [(p - 1) * ITEMS_PER_PAGE]; the world is only read. *)
Lemma get_paginated_content_page (env : Env) (q : query_filter) (p : Z)
  (w : World) :
  1 <= p ->
  get_paginated_content env q p w
  = (Ok (firstn 20 (skipn (Z.to_nat (p - 1) * 20)
                          (Cursor.sort_desc (find env q w))),
         {| page := p; per_page := ITEMS_PER_PAGE;
            total_count := count_documents env q w |}),
     w).
Proof.
  intros Hp. unfold get_paginated_content, Cursor.skip, Cursor.limit,
    ITEMS_PER_PAGE.
  rewrite !bind_run. unfold get_world, lift, ret.
  destruct ((p - 1) * 20 <? 0) eqn:Hneg; [apply Z.ltb_lt in Hneg; lia |].
  cbn. do 4 f_equal. rewrite Z2Nat.inj_mul by lia. reflexivity.
Qed.

Lemma pages_from_slices (env : Env) (q : query_filter) (w : World) (k : nat) :
  forall p,
    1 <= p ->
    pages_from env q p k w
    = (Ok (map (fun i => firstn 20 (skipn (i * 20)
                                          (Cursor.sort_desc (find env q w))))
               (seq (Z.to_nat (p - 1)) k)),
       w).
Proof.
  induction k as [|k IH]; intros p Hp; [reflexivity |].
  cbn [pages_from]. rewrite bind_run, get_paginated_content_page by exact Hp.
  rewrite bind_run, IH by lia. cbn.
  replace (Z.to_nat (p + 1 - 1)) with (S (Z.to_nat (p - 1))) by lia.
  reflexivity.
Qed.

(** C3.  Whatever the filter: the page count of a [Pagination] over the
    matching documents is the ceiling of their number by the page size,
    for every positive page size; every page from 1 on reports that
    count for the page size of the site; and pages 1 to the count, one
    after the other, are the matching documents sorted newest first,
    each of them once. *)
Theorem pages_cover_query (env : Env) (q : query_filter) (w : World) :
  let total := count_documents env q w in
  (forall p per,
      0 < per ->
      exists n,
        total_pages {| page := p; per_page := per; total_count := total |} = Ok n
        /\ (n - 1) * per < total <= n * per)
  /\ exists n,
      (n - 1) * ITEMS_PER_PAGE < total <= n * ITEMS_PER_PAGE
      /\ (forall p,
            1 <= p ->
            exists content pagination,
              get_paginated_content env q p w = (Ok (content, pagination), w)
              /\ total_pages pagination = Ok n)
      /\ exists pages,
          pages_from env q 1 (Z.to_nat n) w = (Ok pages, w)
          /\ List.concat pages = Cursor.sort_desc (find env q w)
          /\ Permutation (List.concat pages) (find env q w)
          /\ StronglySorted newest_first (List.concat pages).
Proof.
  cbv zeta. split; [intros p per; apply total_pages_spec |].
  destruct (total_pages_spec 1 ITEMS_PER_PAGE (count_documents env q w))
    as (n & Hn & Hbounds); [reflexivity |].
  exists n. split; [exact Hbounds |]. split.
  - intros p Hp. do 2 eexists. split.
    + apply get_paginated_content_page. exact Hp.
    + exact Hn.
  - eexists. split; [apply pages_from_slices; lia |].
    assert (Hall : List.concat
                     (map (fun i => firstn 20
                                      (skipn (i * 20)
                                             (Cursor.sort_desc (find env q w))))
                          (seq (Z.to_nat (1 - 1)) (Z.to_nat n)))
                   = Cursor.sort_desc (find env q w)).
    { change (Z.to_nat (1 - 1)) with 0%nat. rewrite concat_slices.
      apply firstn_all2.
      rewrite (Permutation_length (sort_desc_perm (find env q w))).
      unfold count_documents, ITEMS_PER_PAGE in Hbounds. lia. }
    rewrite Hall. split; [reflexivity |].
    split; [apply sort_desc_perm | apply sort_desc_sorted].
Qed.

Lemma pages_cover_query_witness :
  exists pages,
    pages_from Sample.env QAll 1 3 Sample.library = (Ok pages, Sample.library)
    /\ Permutation (List.concat pages) (find Sample.env QAll Sample.library)
    /\ StronglySorted newest_first (List.concat pages).
Proof.
  destruct (pages_cover_query Sample.env QAll Sample.library)
    as (_ & n & Hb & _ & pages & Hp & _ & Hperm & Hsorted).
  assert (Hn : n = 3).
  { change (count_documents Sample.env QAll Sample.library) with 45 in Hb.
    unfold ITEMS_PER_PAGE in Hb. lia. }
  subst n. exists pages. split; [exact Hp | split; assumption].
Defined.

(* ================================================================= *)
(** ** The filename parser *)

Section Pattern.

Local Open Scope string_scope.

Lemma lstrip_split (s : string) :
  exists ws,
    s = ws ++ PyStr.lstrip s /\ PyStr.forallb PyStr.is_space ws = true.
Proof.
  induction s as [|c s (ws & Hs & Hws)]; [now exists "" |].
  cbn. destruct (PyStr.is_space c) eqn:Hc.
  - exists (String c ws). cbn. rewrite Hc, Hws. split; [now f_equal | reflexivity].
  - now exists "".
Qed.

Lemma lstrip_spaces (ws t : string) :
  PyStr.forallb PyStr.is_space ws = true ->
  PyStr.lstrip (ws ++ String "(" t) = String "(" t.
Proof.
  induction ws as [|c ws IH]; cbn; [reflexivity |].
  intros H. apply andb_true_iff in H as [-> H]. now apply IH.
Qed.

Lemma year_group_some (s year : string) :
  FilenameRe.year_group s = Some year ->
  exists rest,
    s = "(" ++ year ++ ")" ++ rest
    /\ String.length year = 4%nat
    /\ PyStr.forallb PyStr.is_digit year = true.
Proof.
  unfold FilenameRe.year_group.
  destruct s as [|p s]; [discriminate |].
  destruct p as [[] [] [] [] [] [] [] []]; try discriminate.
  destruct s as [|a [|b [|c [|d [|q rest]]]]]; try discriminate.
  destruct q as [[] [] [] [] [] [] [] []]; try discriminate.
  destruct (PyStr.is_digit a && PyStr.is_digit b && PyStr.is_digit c
            && PyStr.is_digit d) eqn:Hd; [| discriminate].
  intros [= <-]. exists rest. cbn.
  apply andb_true_iff in Hd as [Hd Hd4].
  apply andb_true_iff in Hd as [Hd Hd3].
  apply andb_true_iff in Hd as [Hd1 Hd2].
  repeat split; auto. now rewrite Hd1, Hd2, Hd3, Hd4.
Qed.

Lemma year_group_paren (year rest : string) :
  String.length year = 4%nat ->
  PyStr.forallb PyStr.is_digit year = true ->
  FilenameRe.year_group ("(" ++ year ++ ")" ++ rest) = Some year.
Proof.
  destruct year as [|a [|b [|c [|d [|x y]]]]]; try discriminate.
  intros _. cbn. intros H. rewrite andb_true_r in H.
  rewrite !andb_assoc in H. now rewrite H.
Qed.

(** The rest of the pattern matches at the head of [s] exactly when
    [s] is white space, the parenthesised year and anything. *)
Lemma after_title_some (s year : string) :
  FilenameRe.after_title s = Some year
  <-> exists ws rest,
        s = ws ++ "(" ++ year ++ ")" ++ rest
        /\ PyStr.forallb PyStr.is_space ws = true
        /\ String.length year = 4%nat
        /\ PyStr.forallb PyStr.is_digit year = true.
Proof.
  unfold FilenameRe.after_title. split.
  - intros H. destruct (lstrip_split s) as (ws & Hs & Hws).
    destruct (year_group_some _ _ H) as (rest & Hrest & Hlen & Hdig).
    exists ws, rest. rewrite Hrest in Hs. auto.
  - intros (ws & rest & -> & Hws & Hlen & Hdig).
    change ("(" ++ year ++ ")" ++ rest) with (String "(" (year ++ ")" ++ rest)).
    rewrite lstrip_spaces by exact Hws.
    now apply year_group_paren.
Qed.

Lemma append_assoc (a b c : string) : (a ++ b) ++ c = a ++ b ++ c.
Proof.
  induction a as [|x a IH]; cbn; [reflexivity | now rewrite IH].
Qed.

(** What the lazy search returns: the shortest prefix without line
    break after which the rest of the pattern matches. *)
Lemma lazy_title_some (s : string) :
  forall seen group1 year,
    FilenameRe.lazy_title seen s = Some (group1, year) ->
    exists p t,
      group1 = seen ++ p /\ s = p ++ t
      /\ PyStr.forallb no_break p = true
      /\ FilenameRe.after_title t = Some year
      /\ forall p' t' year',
          s = p' ++ t' -> FilenameRe.after_title t' = Some year' ->
          (String.length p <= String.length p')%nat.
Proof.
  induction s as [|c s IH]; intros seen group1 year; cbn [FilenameRe.lazy_title].
  - destruct (FilenameRe.after_title "") as [y|] eqn:Ha; [| discriminate].
    intros [= <- <-]. exists "", "". cbn.
    repeat split; auto using Nat.le_0_l.
    clear. induction seen; cbn; congruence.
  - destruct (FilenameRe.after_title (String c s)) as [y|] eqn:Ha.
    + intros [= <- <-]. exists "", (String c s). cbn.
      repeat split; auto using Nat.le_0_l.
      clear. induction seen; cbn; congruence.
    + destruct (PyStr.is_linebreak c) eqn:Hc; [discriminate |].
      intros H. destruct (IH _ _ _ H) as (p & t & Hg & Hs & Hp & Ht & Hmin).
      exists (String c p), t. cbn. unfold no_break at 1. rewrite Hc. cbn.
      repeat split; auto.
      * now rewrite Hg, append_assoc.
      * now rewrite Hs.
      * intros p' t' year' Hs' Ht'. destruct p' as [|c' p'].
        -- cbn in Hs'. subst t'. congruence.
        -- cbn in Hs'. injection Hs' as -> Hs'. cbn.
           apply le_n_S. now apply (Hmin p' t' year').
Qed.

Lemma lazy_title_none (s : string) :
  forall seen,
    FilenameRe.lazy_title seen s = None ->
    forall p t,
      s = p ++ t -> PyStr.forallb no_break p = true ->
      FilenameRe.after_title t = None.
Proof.
  induction s as [|c s IH]; intros seen; cbn [FilenameRe.lazy_title].
  - destruct (FilenameRe.after_title "") eqn:Ha; [discriminate |].
    intros _ p t Hs _. destruct p; [| discriminate]. cbn in Hs. now subst t.
  - destruct (FilenameRe.after_title (String c s)) eqn:Ha; [discriminate |].
    intros H p t Hs Hp. destruct p as [|c' p].
    + cbn in Hs. now subst t.
    + cbn in Hs. injection Hs as <- Hs. cbn in Hp.
      apply andb_true_iff in Hp as [Hc Hp]. unfold no_break in Hc.
      apply negb_true_iff in Hc. rewrite Hc in H.
      exact (IH _ H p t Hs Hp).
Qed.

End Pattern.

(** A match of the search is a split of the filename, and no split has a
    shorter first group. *)
Lemma search_some (filename group1 year : string) :
  FilenameRe.search filename = Some (group1, year) ->
  splits filename group1 year
  /\ forall g y,
      splits filename g y -> (String.length group1 <= String.length g)%nat.
Proof.
  unfold FilenameRe.search. intros H.
  destruct (lazy_title_some _ _ _ _ H) as (p & t & Hg & Hs & Hp & Ht & Hmin).
  cbn in Hg. subst p. split.
  - apply after_title_some in Ht as (ws & rest & -> & Hws & Hlen & Hdig).
    exists ws, rest. auto.
  - intros g y (ws & rest & Hs' & _ & Hws & Hlen & Hdig).
    apply (Hmin g _ y Hs'). apply after_title_some. exists ws, rest. auto.
Qed.

(** Without a match no split exists. *)
Lemma search_none (filename : string) :
  FilenameRe.search filename = None ->
  forall g y, ~ splits filename g y.
Proof.
  unfold FilenameRe.search. intros H g y (ws & rest & Hs & Hg & Hws & Hlen & Hdig).
  pose proof (lazy_title_none _ _ H g _ Hs Hg) as Hnone.
  assert (Hsome : FilenameRe.after_title
                    (ws ++ "(" ++ y ++ ")" ++ rest)%string = Some y).
  { apply after_title_some. exists ws, rest. auto. }
  congruence.
Qed.

(** A filename the pattern does not match parses to [(None, None)]; one
    it matches parses to its year and to its shortest first group,
    stripped and then with dots and underscores turned into spaces. *)
Lemma parse_filename_spec (filename : string) :
  ((forall g y, ~ splits filename g y) ->
   parse_filename filename = (None, None))
  /\ (forall g y,
        splits filename g y ->
        exists group1 year,
          splits filename group1 year
          /\ (String.length group1 <= String.length g)%nat
          /\ parse_filename filename
             = (Some (PyStr.replace "_" " "
                        (PyStr.replace "." " " (PyStr.strip group1))),
                Some year)).
Proof.
  unfold parse_filename. split.
  - intros Hno. destruct (FilenameRe.search filename) as [[g y]|] eqn:Hs;
      [| reflexivity].
    destruct (Hno g y). now apply search_some.
  - intros g y Hsplit.
    destruct (FilenameRe.search filename) as [[g0 y0]|] eqn:Hs.
    + destruct (search_some _ _ _ Hs) as [Hsp Hmin].
      exists g0, y0.
      split; [exact Hsp | split; [exact (Hmin g y Hsplit) | reflexivity]].
    + destruct (search_none _ Hs g y Hsplit).
Qed.

(** C2.  The filename of the specification's example matches the
    pattern with first group [The.Matrix.] and parses to the year
    [1999], but the title keeps the space the last dot became:
    [strip] ran before the dots were replaced. *)
Theorem parse_filename_matrix_trailing_space :
  splits "The.Matrix.(1999).1080p.mkv" "The.Matrix." "1999"
  /\ parse_filename "The.Matrix.(1999).1080p.mkv"
     = (Some "The Matrix "%string, Some "1999"%string).
Proof.
  split; [| reflexivity].
  exists ""%string, ".1080p.mkv"%string. repeat split.
Qed.

Example parse_filename_inception :
  parse_filename "Inception (2010).mkv"
  = (Some "Inception"%string, Some "2010"%string).
Proof. reflexivity. Qed.

Example parse_filename_randomfile :
  parse_filename "randomfile.mkv" = (None, None).
Proof. reflexivity. Qed.

Example pages_of_library :
  fst (pages_from Sample.env QAll 1 3 Sample.library)
  = Ok [map Sample.doc (rev (seq 26 20));
        map Sample.doc (rev (seq 6 20));
        map Sample.doc (rev (seq 1 5))]
  /\ total_pages {| page := 1; per_page := ITEMS_PER_PAGE;
                    total_count := count_documents Sample.env QAll Sample.library |}
     = Ok 3.
Proof. split; vm_compute; reflexivity. Qed.

(* ================================================================= *)
(** ** More on the filename parser *)

Lemma forallb_lstrip (p : ascii -> bool) (s : string) :
  PyStr.forallb p s = true -> PyStr.forallb p (PyStr.lstrip s) = true.
Proof.
  induction s as [|c s IH]; cbn; [auto |].
  intros H. destruct (PyStr.is_space c); [| exact H].
  apply andb_true_iff in H as [_ H]. auto.
Qed.

Lemma forallb_rstrip (p : ascii -> bool) (s : string) :
  PyStr.forallb p s = true -> PyStr.forallb p (PyStr.rstrip s) = true.
Proof.
  induction s as [|c s IH]; cbn; [auto |].
  intros H. apply andb_true_iff in H as [Hc H]. specialize (IH H).
  destruct (PyStr.rstrip s) as [|x r].
  - destruct (PyStr.is_space c); cbn; [reflexivity | now rewrite Hc].
  - cbn in *. now rewrite Hc, IH.
Qed.

Lemma forallb_replace (p q : ascii -> bool) (old new : ascii) (s : string) :
  (forall c, p c = true -> q (if Ascii.eqb c old then new else c) = true) ->
  PyStr.forallb p s = true ->
  PyStr.forallb q (PyStr.replace old new s) = true.
Proof.
  intros Hpq. induction s as [|c s IH]; cbn; [auto |].
  intros H. apply andb_true_iff in H as [Hc H].
  now rewrite (Hpq c Hc), IH.
Qed.

(** X1.  The parser returns both members or neither; a year it returns
    is four decimal digits, and a title it returns holds no dot, no
    underscore and no line break. *)
Theorem parse_filename_shape (filename : string) :
  parse_filename filename = (None, None)
  \/ exists title year,
      parse_filename filename = (Some title, Some year)
      /\ four_digits year
      /\ PyStr.forallb title_char title = true.
Proof.
  unfold parse_filename.
  destruct (FilenameRe.search filename) as [[g y]|] eqn:Hs; [right | now left].
  destruct (search_some _ _ _ Hs) as [(ws & rest & _ & Hg & _ & Hlen & Hdig) _].
  do 2 eexists. split; [reflexivity |]. split; [now split |].
  apply forallb_replace
    with (p := fun c => no_break c && negb (Ascii.eqb c ".")).
  - intros c Hc. unfold title_char.
    destruct (Ascii.eqb c "_") eqn:Hu; [reflexivity |].
    now rewrite Hc, Hu.
  - apply forallb_replace with (p := no_break).
    + intros c Hc. destruct (Ascii.eqb c ".") eqn:Hd; [reflexivity |].
      now rewrite Hc, Hd.
    + unfold PyStr.strip. now apply forallb_rstrip, forallb_lstrip.
Qed.

(** X2.  The parser returns [(None, None)] exactly for the filenames
    that do not split as a first group without line break, white space
    and a parenthesised group of four digits; for the others the title
    comes from the shortest such first group. *)
Theorem parse_filename_none_iff (filename : string) :
  (parse_filename filename = (None, None)
   <-> forall g y, ~ splits filename g y)
  /\ (forall g y,
        splits filename g y ->
        exists group1 year,
          splits filename group1 year
          /\ (forall g' y', splits filename g' y' ->
                            (String.length group1 <= String.length g')%nat)
          /\ parse_filename filename
             = (Some (PyStr.replace "_" " "
                        (PyStr.replace "." " " (PyStr.strip group1))),
                Some year)).
Proof.
  unfold parse_filename. split; [split |].
  - destruct (FilenameRe.search filename) as [[g y]|] eqn:Hs; [discriminate |].
    intros _. now apply search_none.
  - intros Hno. destruct (FilenameRe.search filename) as [[g y]|] eqn:Hs;
      [| reflexivity].
    destruct (Hno g y). now apply search_some.
  - intros g y Hsplit.
    destruct (FilenameRe.search filename) as [[g0 y0]|] eqn:Hs.
    + destruct (search_some _ _ _ Hs) as [Hsp Hmin].
      exists g0, y0. split; [exact Hsp | split; [exact Hmin | reflexivity]].
    + destruct (search_none _ Hs g y Hsplit).
Qed.

Lemma parse_filename_none_iff_witness :
  splits "Inception (2010).mkv" "Inception" "2010"
  /\ exists group1 year,
      splits "Inception (2010).mkv" group1 year
      /\ parse_filename "Inception (2010).mkv"
         = (Some (PyStr.replace "_" " "
                    (PyStr.replace "." " " (PyStr.strip group1))),
            Some year).
Proof.
  assert (H : splits "Inception (2010).mkv" "Inception" "2010").
  { exists " "%string, ".mkv"%string. repeat split. }
  split; [exact H |].
  destruct (proj2 (parse_filename_none_iff "Inception (2010).mkv") _ _ H)
    as (g & y & Hs & _ & Hp).
  exists g, y. split; assumption.
Defined.

(** A filename that opens with the year group, after white space at
    most, parses to the empty title. *)
Lemma parse_leading_year (ws year rest : string) :
  PyStr.forallb PyStr.is_space ws = true ->
  four_digits year ->
  parse_filename (ws ++ "(" ++ year ++ ")" ++ rest)%string
  = (Some EmptyString, Some year).
Proof.
  intros Hws [Hlen Hdig]. unfold parse_filename, FilenameRe.search.
  assert (Ha : FilenameRe.after_title (ws ++ "(" ++ year ++ ")" ++ rest)%string
               = Some year).
  { apply after_title_some. exists ws, rest. auto. }
  destruct (ws ++ "(" ++ year ++ ")" ++ rest)%string;
    cbn [FilenameRe.lazy_title]; now rewrite Ha.
Qed.

(** X3.  A post whose filename opens with the year group, after white
    space at most, has an empty title: the handler answers with the
    format-error text and neither looks the title up nor stores
    anything. *)
Theorem handle_new_post_leading_year
  (cfg : Config) (env : Env) (update : tg_update) (w : World)
  (m : tg_message) (ws year rest : string) :
  channel_post update = Some m ->
  from_source cfg m ->
  named_attachment m (ws ++ "(" ++ year ++ ")" ++ rest)%string ->
  PyStr.forallb PyStr.is_space ws = true ->
  four_digits year ->
  let w' := snd (handle_new_post cfg env update w) in
  parse_filename (ws ++ "(" ++ year ++ ")" ++ rest)%string
  = (Some EmptyString, Some year)
  /\ store w' = store w
  /\ exists o,
      new_events w w'
      = [Event (SendMessage (chat_id m) FormatErrorText (message_id m)) o].
Proof.
  intros Hpost Hsrc Hatt Hws Hyear. cbv zeta.
  split; [now apply parse_leading_year |].
  rewrite (handle_new_post_named cfg env update m _ Hpost Hsrc Hatt).
  rewrite (parse_leading_year ws year rest Hws Hyear). cbn.
  unfold send_message, extern. cbn. split; [reflexivity |].
  eexists. apply new_events_app. reflexivity.
Qed.

Lemma handle_new_post_leading_year_witness :
  let w' :=
    snd (handle_new_post Sample.cfg Sample.env (Sample.post " (1999).mkv")
                         Sample.empty_world) in
  store w' = store Sample.empty_world
  /\ exists o,
      new_events Sample.empty_world w'
      = [Event (SendMessage (-1001) FormatErrorText 42) o].
Proof.
  assert (Hatt : named_attachment
                   {| chat_id := -1001; message_id := 42; video := None;
                      document := Some {| file_name := Some " (1999).mkv"%string |} |}
                   (" " ++ "(" ++ "1999" ++ ")" ++ ".mkv")%string).
  { eexists. split; [reflexivity |]. split; [reflexivity | discriminate]. }
  exact (proj2 (handle_new_post_leading_year Sample.cfg Sample.env
                  (Sample.post " (1999).mkv") Sample.empty_world _
                  " "%string "1999"%string ".mkv"%string
                  eq_refl eq_refl Hatt eq_refl (conj eq_refl eq_refl))).
Defined.

(* ================================================================= *)
(** ** More on the metadata lookup *)

(** The kind of a record the lookup returns. *)
Lemma search_details_kind (cfg : Config) (env : Env) title year w details :
  fst (search_tmdb_for_bot cfg env title year w) = Ok (Some details) ->
  Tmdb.type details = "movie"%string \/ Tmdb.type details = "series"%string.
Proof.
  run_search. repeat split_step; intros Hd; try discriminate Hd.
  all: injection Hd as <-; cbn.
  all: try match goal with
           | |- context [Py.eq_str ?v "tv"] => destruct (Py.eq_str v "tv")
           end; auto.
Qed.

(** The calls of the lookup are requests. *)
Lemma search_events_requests (cfg : Config) (env : Env) title year w ev :
  In ev (new_events w (snd (search_tmdb_for_bot cfg env title year w))) ->
  exists url, ev_call ev = RequestsGet url.
Proof.
  run_search. repeat split_step; read_events; intros Hin; cbn in Hin;
    repeat (destruct Hin as [Hin | Hin]; [subst ev; eexists; reflexivity |]);
    contradiction.
Qed.

(** X4.  The status of the detail response is not looked at.  When the
    search gave a first movie or series with an identifier, and the
    detail request is answered with a JSON object, whatever its status,
    the lookup returns a record made of that object: its title is the
    [title] of the object, or else its [name]. *)
Theorem detail_status_unchecked
  (cfg : Config) (env : Env) (title : string) (year : option string)
  (w : World) (response detail : http_response)
  (before : list json) (r : json) (after : list json)
  (media_type tmdb_id : json) (fields : list (string * json))
  (genres : list json) (names : list json) :
  requests_get_result env (search_url cfg env title year) = Ok response ->
  search_results response = Ok (before ++ r :: after) ->
  Forall other_kind before ->
  is_media r = Ok true ->
  Py.getitem r "media_type" = Ok media_type ->
  Py.getitem r "id" = Ok tmdb_id ->
  requests_get_result env (detail_url cfg env media_type tmdb_id) = Ok detail ->
  json_body detail = Ok (JObj fields) ->
  Py.iter (match Py.assoc "genres" fields with
           | Some v => v
           | None => JArr []
           end) = Ok genres ->
  genre_names genres = Ok names ->
  exists details,
    fst (search_tmdb_for_bot cfg env title year w) = Ok (Some details)
    /\ Tmdb.title details
       = Py.or_ (match Py.assoc "title" fields with Some v => v | None => JNull end)
                (match Py.assoc "name" fields with Some v => v | None => JNull end)
    /\ Tmdb.genres details = names.
Proof.
  intros Hget Hres Hbefore Hr Hmt Hid Hdet Hbody Hiter Hnames.
  destruct (is_media_true r Hr) as (Htruthy & _).
  run_search. rewrite Hget. cbn.
  read_results Hres. cbn. rewrite Hres. cbn.
  rewrite (first_media_first _ _ after Hbefore Hr). cbn.
  rewrite Htruthy, Hmt. cbn. rewrite Hid. cbn. rewrite Hdet. cbn.
  rewrite Hbody. cbn. rewrite Hiter. cbn. rewrite Hnames. cbn.
  eexists. split; [reflexivity |]. split; reflexivity.
Qed.

Lemma detail_status_unchecked_witness :
  exists details,
    fst (search_tmdb_for_bot Sample.cfg Sample2.env_detail_missing "Inception"
           (Some "2010"%string) Sample.empty_world)
    = Ok (Some details)
    /\ Tmdb.title details = JNull.
Proof.
  destruct (detail_status_unchecked Sample.cfg Sample2.env_detail_missing
              "Inception" (Some "2010"%string) Sample.empty_world
              {| status_code := 200; json_body := Ok Sample.search_payload |}
              {| status_code := 404; json_body := Ok Sample2.error_payload |}
              [JObj [("media_type"%string, JStr "person"); ("id"%string, JInt 1)]]
              (JObj [("media_type"%string, JStr "movie"); ("id"%string, JInt 27205)])
              [] (JStr "movie") (JInt 27205)
              [("success"%string, JBool false); ("status_code"%string, JInt 34);
               ("status_message"%string,
                JStr "The resource you requested could not be found.")]
              [] [])
    as (details & Hrun & Htitle & _);
    try reflexivity.
  - constructor; [reflexivity | constructor].
  - exists details. split; [exact Hrun | exact Htitle].
Defined.

(** X5.  A record the lookup returns is of type [movie] or [series],
    and its poster and backdrop are absent or addresses under the image
    host. *)
Theorem tmdb_details_shape
  (cfg : Config) (env : Env) (title : string) (year : option string)
  (w : World) (details : Tmdb.details) :
  fst (search_tmdb_for_bot cfg env title year w) = Ok (Some details) ->
  (Tmdb.type details = "movie"%string \/ Tmdb.type details = "series"%string)
  /\ (Tmdb.poster details = None
      \/ exists path,
          Tmdb.poster details
          = Some ("https://image.tmdb.org/t/p/w500" ++ path)%string)
  /\ (Tmdb.backdrop details = None
      \/ exists path,
          Tmdb.backdrop details
          = Some ("https://image.tmdb.org/t/p/w1280" ++ path)%string).
Proof.
  intros H. split; [exact (search_details_kind _ _ _ _ _ _ H) |].
  revert H. run_search. repeat split_step; intros Hd; try discriminate Hd.
  all: injection Hd as <-; cbn; unfold image_url.
  all: split;
    try match goal with
        | |- context [Py.truthy ?v] => destruct (Py.truthy v)
        end;
    first [left; reflexivity | right; eexists; reflexivity].
Qed.

Lemma tmdb_details_shape_witness :
  exists details,
    fst (search_tmdb_for_bot Sample.cfg Sample.env "Inception"
           (Some "2010"%string) Sample.empty_world)
    = Ok (Some details)
    /\ (Tmdb.type details = "movie"%string \/ Tmdb.type details = "series"%string).
Proof.
  eexists. split; [vm_compute; reflexivity |].
  exact (proj1 (tmdb_details_shape Sample.cfg Sample.env "Inception"
                  (Some "2010"%string) Sample.empty_world _ eq_refl)).
Defined.

(* ================================================================= *)
(** ** More on the ingestion handler *)

Lemma poster_or_placeholder_nonempty (poster : option string) :
  poster_or_placeholder poster <> EmptyString.
Proof.
  unfold poster_or_placeholder. destruct poster as [p|]; [| discriminate].
  destruct (PyStr.truthy p) eqn:Hp; [| discriminate].
  now apply truthy_nonempty.
Qed.

(** X6.  Without a usable [TARGET_CHANNEL_ID] the handler drops every
    update: nothing is sent, looked up or stored. *)
Theorem handle_new_post_without_target
  (cfg : Config) (env : Env) (update : tg_update) (w : World) :
  TARGET_CHANNEL_ID cfg = None ->
  handle_new_post cfg env update w = (Ok tt, w).
Proof.
  intros Hnone. apply handle_new_post_ignores.
  intros m _ Hsrc. unfold from_source in Hsrc. congruence.
Qed.

Lemma handle_new_post_without_target_witness :
  handle_new_post Sample2.cfg_no_target Sample.env
                  (Sample.post "Inception (2010).mkv") Sample.empty_world
  = (Ok tt, Sample.empty_world).
Proof.
  exact (handle_new_post_without_target Sample2.cfg_no_target Sample.env
           (Sample.post "Inception (2010).mkv") Sample.empty_world eq_refl).
Defined.

(** X7.  One call of the handler leaves the categories, the settings
    and the requests alone and adds at most one record to the
    catalogue; a record it adds carries the post's channel reference,
    has no manual links, is of type [movie] or [series] and has a
    poster. *)
Theorem handle_new_post_store_effect
  (cfg : Config) (env : Env) (update : tg_update) (w : World) :
  let w' := snd (handle_new_post cfg env update w) in
  categories_collection w' = categories_collection w
  /\ settings w' = settings w
  /\ requests_collection w' = requests_collection w
  /\ (movies w' = movies w
      \/ exists m oid d,
          channel_post update = Some m
          /\ movies w' = movies w ++ [{| Movie._id := oid; Movie.fields := d |}]
          /\ Movie.telegram_ref d
             = Some {| ref_chat_id := chat_id m; ref_message_id := message_id m |}
          /\ Movie.manual_links d = None
          /\ (Movie.type d = "movie"%string \/ Movie.type d = "series"%string)
          /\ Movie.poster d <> EmptyString).
Proof.
  cbv zeta. unfold handle_new_post.
  destruct (channel_post update) as [m|]; [| cbn; auto].
  destruct (other_channel cfg (chat_id m)); [cbn; auto |].
  destruct (or_file (video m) (document m)) as [file|]; [| cbn; auto].
  destruct (file_name file) as [name|]; [| cbn; auto].
  destruct (PyStr.truthy name); [| cbn; auto]. cbn [negb].
  destruct (parse_filename name) as [[title|] year];
    [| unfold send_message, extern; cbn; auto].
  destruct (PyStr.truthy title); cbn [negb];
    [| unfold send_message, extern; cbn; auto].
  unfold post_parsed. rewrite bind_run.
  destruct (search_tmdb_world cfg env title year w) as [evs Hw1].
  pose proof (search_details_kind cfg env title year w) as Hkind.
  destruct (search_tmdb_for_bot cfg env title year w) as [[[details|]|e] w1];
    cbn [fst snd] in *; subst w1;
    [| unfold send_message, extern; cbn; auto | cbn; auto].
  specialize (Hkind details eq_refl).
  unfold try_except, bind, insert_one, send_message, extern, modify, ret.
  cbn. destruct (insert_one_result env (movie_data_of env details m)) as [oid|e];
    cbn.
  - assert (Hnew : exists m0 oid0 d,
               Some m = Some m0
               /\ movies w ++ [{| Movie._id := oid;
                                  Movie.fields := movie_data_of env details m |}]
                  = movies w ++ [{| Movie._id := oid0; Movie.fields := d |}]
               /\ Movie.telegram_ref d
                  = Some {| ref_chat_id := chat_id m0;
                            ref_message_id := message_id m0 |}
               /\ Movie.manual_links d = None
               /\ (Movie.type d = "movie"%string \/ Movie.type d = "series"%string)
               /\ Movie.poster d <> EmptyString).
    { exists m, oid, (movie_data_of env details m). cbn.
      repeat split; auto. apply poster_or_placeholder_nonempty. }
    destruct (send_message_result env (chat_id m) _ (message_id m)); cbn; auto.
  - auto.
Qed.

(** The run of the handler on a post whose filename parses. *)
Lemma handle_new_post_parsed (cfg : Config) (env : Env) update m name title year :
  channel_post update = Some m -> from_source cfg m -> named_attachment m name ->
  parse_filename name = (Some title, year) -> title <> EmptyString ->
  handle_new_post cfg env update = post_parsed cfg env m title year.
Proof.
  intros Hpost Hsrc Hatt Hparse Hne.
  rewrite (handle_new_post_named cfg env update m name Hpost Hsrc Hatt), Hparse.
  apply truthy_nonempty in Hne. now rewrite Hne.
Qed.

(** X8.  When the store took the record and the confirmation cannot be
    sent, the record stays and the channel is told of a database error:
    the handler ends as that last notification does. *)
Theorem confirmation_failure_keeps_record
  (cfg : Config) (env : Env) (update : tg_update) (w : World)
  (m : tg_message) (name title : string) (year : option string)
  (details : Tmdb.details) (oid : N) (e : exn) :
  channel_post update = Some m -> from_source cfg m -> named_attachment m name ->
  parse_filename name = (Some title, year) -> title <> EmptyString ->
  fst (search_tmdb_for_bot cfg env title year w) = Ok (Some details) ->
  let d := movie_data_of env details m in
  let confirmation :=
    PostSuccessfulText (Tmdb.title details) (WEBSITE_URL cfg) oid in
  insert_one_result env d = Ok oid ->
  send_message_result env (chat_id m) confirmation (message_id m) = Raise e ->
  let run := handle_new_post cfg env update w in
  let told := send_message_result env (chat_id m) (DbErrorText e) (message_id m) in
  fst run = told
  /\ movies (snd run) = movies w ++ [{| Movie._id := oid; Movie.fields := d |}]
  /\ exists before,
      new_events w (snd run)
      = before
        ++ [Event (InsertOne d) None;
            Event (SendMessage (chat_id m) confirmation (message_id m)) (Some e);
            Event (SendMessage (chat_id m) (DbErrorText e) (message_id m))
                  (raised told)].
Proof.
  intros Hpost Hsrc Hatt Hparse Hne Hfound. cbv zeta. intros Hins Hsend.
  rewrite (handle_new_post_parsed cfg env update m name title year
             Hpost Hsrc Hatt Hparse Hne).
  unfold post_parsed. rewrite bind_run.
  destruct (search_tmdb_world cfg env title year w) as [evs Hw1].
  destruct (search_tmdb_for_bot cfg env title year w) as [found w1].
  cbn [fst snd] in *. subst w1 found.
  unfold try_except, bind, insert_one, send_message, extern, modify, ret.
  cbn. rewrite Hins. cbn. rewrite Hsend. cbn.
  split; [reflexivity |]. split; [reflexivity |].
  exists evs. unfold new_events. cbn.
  rewrite <- !app_assoc. apply skipn_length_app.
Qed.

Lemma confirmation_failure_keeps_record_witness :
  let run :=
    handle_new_post Sample.cfg Sample2.env_confirmation_fails
                    (Sample.post "Inception (2010).mkv") Sample.empty_world in
  fst run = Ok tt
  /\ exists d, movies (snd run) = [{| Movie._id := 1%N; Movie.fields := d |}].
Proof.
  cbv zeta.
  assert (Hatt : named_attachment
                   {| chat_id := -1001; message_id := 42; video := None;
                      document := Some {| file_name := Some "Inception (2010).mkv"%string |} |}
                   "Inception (2010).mkv").
  { eexists. split; [reflexivity |]. split; [reflexivity | discriminate]. }
  assert (Hne : "Inception"%string <> EmptyString) by discriminate.
  assert (Hfound : exists details,
             fst (search_tmdb_for_bot Sample.cfg Sample2.env_confirmation_fails
                    "Inception" (Some "2010"%string) Sample.empty_world)
             = Ok (Some details)).
  { vm_compute. eauto. }
  destruct Hfound as [details Hd].
  destruct (confirmation_failure_keeps_record Sample.cfg
              Sample2.env_confirmation_fails
              (Sample.post "Inception (2010).mkv") Sample.empty_world
              _ _ _ _ details 1%N Sample.NetworkError
              eq_refl eq_refl Hatt eq_refl Hne Hd eq_refl eq_refl)
    as (Hres & Hmovies & _).
  split; [exact Hres |]. eexists. exact Hmovies.
Defined.

Lemma find_app_fresh (oid : N) (l : list Movie.doc) (d : Movie.data) :
  (forall x, In x l -> Movie._id x <> oid) ->
  List.find (fun x => (Movie._id x =? oid)%N)
            (l ++ [{| Movie._id := oid; Movie.fields := d |}])
  = Some {| Movie._id := oid; Movie.fields := d |}.
Proof.
  induction l as [|x l IH]; cbn; intros Hfresh.
  - now rewrite N.eqb_refl.
  - destruct (Movie._id x =? oid)%N eqn:Hx.
    + apply N.eqb_eq in Hx. destruct (Hfresh x (or_introl eq_refl) Hx).
    + apply IH. intros y Hy. apply Hfresh. now right.
Qed.

(** X9.  A record the bot has stored under an identifier no other
    document has is what [find_one] gives for that identifier
    afterwards, with the channel reference of the post. *)
Theorem stored_record_is_found
  (cfg : Config) (env : Env) (update : tg_update) (w : World)
  (m : tg_message) (name title : string) (year : option string)
  (details : Tmdb.details) (oid : N) :
  channel_post update = Some m -> from_source cfg m -> named_attachment m name ->
  parse_filename name = (Some title, year) -> title <> EmptyString ->
  fst (search_tmdb_for_bot cfg env title year w) = Ok (Some details) ->
  insert_one_result env (movie_data_of env details m) = Ok oid ->
  (forall x, In x (movies w) -> Movie._id x <> oid) ->
  exists doc,
    find_one oid (snd (handle_new_post cfg env update w)) = Some doc
    /\ Movie._id doc = oid
    /\ Movie.telegram_ref (Movie.fields doc)
       = Some {| ref_chat_id := chat_id m; ref_message_id := message_id m |}.
Proof.
  intros Hpost Hsrc Hatt Hparse Hne Hfound Hins Hfresh.
  rewrite (handle_new_post_parsed cfg env update m name title year
             Hpost Hsrc Hatt Hparse Hne).
  unfold post_parsed. rewrite bind_run.
  destruct (search_tmdb_world cfg env title year w) as [evs Hw1].
  destruct (search_tmdb_for_bot cfg env title year w) as [found w1].
  cbn [fst snd] in *. subst w1 found.
  unfold try_except, bind, insert_one, send_message, extern, modify, ret.
  cbn. rewrite Hins. cbn.
  exists {| Movie._id := oid; Movie.fields := movie_data_of env details m |}.
  split; [| split; reflexivity].
  repeat match goal with
         | |- context [match send_message_result ?a ?b ?c ?d with _ => _ end] =>
             destruct (send_message_result a b c d); cbn
         end;
    unfold find_one; cbn; now apply find_app_fresh.
Qed.

Lemma stored_record_is_found_witness :
  exists doc,
    find_one 1%N
      (snd (handle_new_post Sample.cfg Sample.env
              (Sample.post "Inception (2010).mkv") Sample.empty_world))
    = Some doc
    /\ Movie._id doc = 1%N.
Proof.
  assert (Hatt : named_attachment
                   {| chat_id := -1001; message_id := 42; video := None;
                      document := Some {| file_name := Some "Inception (2010).mkv"%string |} |}
                   "Inception (2010).mkv").
  { eexists. split; [reflexivity |]. split; [reflexivity | discriminate]. }
  assert (Hne : "Inception"%string <> EmptyString) by discriminate.
  assert (Hfound : exists details,
             fst (search_tmdb_for_bot Sample.cfg Sample.env
                    "Inception" (Some "2010"%string) Sample.empty_world)
             = Ok (Some details)).
  { vm_compute. eauto. }
  destruct Hfound as [details Hd].
  destruct (stored_record_is_found Sample.cfg Sample.env
              (Sample.post "Inception (2010).mkv") Sample.empty_world
              _ _ _ _ details 1%N
              eq_refl eq_refl Hatt eq_refl Hne Hd eq_refl)
    as (doc & Hdoc & Hid & _).
  - intros x [].
  - exists doc. split; assumption.
Defined.

(* ================================================================= *)
(** ** More on the link resolver *)

(** X10.  When the primary method answers, its link is the result and
    the fallback is left alone: no message is forwarded, downloaded or
    deleted, and the account's own chat is as it was. *)
Theorem primary_link_no_fallback
  (env : Env) (chat msg : Z) (w : World) (link : string) :
  get_download_link_result env chat msg = Ok link ->
  is_initialized w = true \/ start_result env = Ok tt ->
  let run := generate_fresh_link_async env chat msg w in
  fst run = Ok (Some (LinkUrl link))
  /\ saved_messages (snd run) = saved_messages w
  /\ forall c o,
      In (Event c o) (new_events w (snd run)) -> is_fallback_call c = false.
Proof.
  intros Hlink Hstart. cbv zeta. run_resolver.
  destruct (is_initialized w) eqn:Hinit; cbn.
  - rewrite Hlink. cbn. repeat split. read_events.
    intros c o [H | []]. now injection H as <- _.
  - destruct Hstart as [Hstart | Hstart]; [discriminate |].
    rewrite Hstart. cbn. rewrite Hlink. cbn. repeat split. read_events.
    intros c o [H | [H | []]]; now injection H as <- _.
Qed.

Lemma primary_link_no_fallback_witness :
  fst (generate_fresh_link_async Sample2.env_link 1 2 Sample.empty_world)
  = Ok (Some (LinkUrl "https://cdn.example/file")).
Proof.
  exact (proj1 (primary_link_no_fallback Sample2.env_link 1 2 Sample.empty_world
                  "https://cdn.example/file" eq_refl (or_intror eq_refl))).
Defined.

(** A call that returns leaves the client started. *)
Lemma resolver_returns_started (env : Env) (chat msg : Z) (w : World) v :
  fst (generate_fresh_link_async env chat msg w) = Ok v ->
  is_initialized (snd (generate_fresh_link_async env chat msg w)) = true.
Proof.
  run_resolver.
  destruct (is_initialized w) eqn:Hinit; cbn;
    [| destruct (start_result env) as [[]|]; cbn; [| discriminate] ];
    destruct (get_download_link_result env chat msg); cbn; auto;
    destruct (forward_messages_result env chat msg) as [fwd|]; cbn; auto;
    destruct (download_result env fwd); cbn; auto;
    destruct (delete_result env fwd) as [[]|]; cbn; auto.
Qed.

(** A started client is not started again. *)
Lemma started_not_restarted (env : Env) (chat msg : Z) (w : World) :
  is_initialized w = true ->
  forall o,
    ~ In (Event PyroStart o)
         (new_events w (snd (generate_fresh_link_async env chat msg w))).
Proof.
  intros Hinit o. run_resolver. rewrite Hinit. cbn.
  destruct (get_download_link_result env chat msg); cbn;
    [| destruct (forward_messages_result env chat msg) as [fwd|]; cbn;
       [ destruct (download_result env fwd); cbn;
         [ destruct (delete_result env fwd) as [[]|]; cbn | ] | ] ];
    read_events; intros Hin; cbn in Hin;
    repeat (destruct Hin as [Hin | Hin]; try discriminate); exact Hin.
Qed.

(** X11.  The client is started once: after a call of the resolver that
    returned, the client counts as started, and no later call, for
    whatever reference, starts it again. *)
Theorem client_started_once
  (env : Env) (chat msg chat' msg' : Z) (w : World) (v : option fresh_link) :
  fst (generate_fresh_link_async env chat msg w) = Ok v ->
  let w1 := snd (generate_fresh_link_async env chat msg w) in
  let w2 := snd (generate_fresh_link_async env chat' msg' w1) in
  is_initialized w1 = true
  /\ forall o, ~ In (Event PyroStart o) (new_events w1 w2).
Proof.
  intros Hret. cbv zeta.
  pose proof (resolver_returns_started env chat msg w v Hret) as Hinit.
  split; [exact Hinit |]. now apply started_not_restarted.
Qed.

Lemma client_started_once_witness :
  let w1 := snd (generate_fresh_link_async Sample.env 1 2 Sample.empty_world) in
  let w2 := snd (generate_fresh_link_async Sample.env 3 4 w1) in
  In (Event PyroStart None) (new_events Sample.empty_world w1)
  /\ forall o, ~ In (Event PyroStart o) (new_events w1 w2).
Proof.
  cbv zeta. split; [vm_compute; auto |].
  exact (proj2 (client_started_once Sample.env 1 2 3 4 Sample.empty_world
                  (Some (LinkBuffer "bytes")) eq_refl)).
Defined.

Lemma filter_other_messages (copy : forwarded_message)
  (l : list forwarded_message) :
  (forall x, In x l -> fwd_message_id x <> fwd_message_id copy) ->
  filter (fun x => negb (same_message x copy)) (l ++ [copy]) = l.
Proof.
  unfold same_message. induction l as [|x l IH]; cbn; intros Hfresh.
  - now rewrite Z.eqb_refl.
  - destruct (fwd_message_id x =? fwd_message_id copy) eqn:Hx; cbn.
    + apply Z.eqb_eq in Hx. destruct (Hfresh x (or_introl eq_refl) Hx).
    + f_equal. apply IH. intros y Hy. apply Hfresh. now right.
Qed.

(** X12.  When the primary method raises and the forward, the download
    and the delete all return, the result is the downloaded content and
    the account's own chat holds what it held before: the forwarded copy
    is gone. *)
Theorem fallback_leaves_no_copy
  (env : Env) (chat msg : Z) (w : World) (e : exn)
  (copy : forwarded_message) (content : string) :
  is_initialized w = true \/ start_result env = Ok tt ->
  get_download_link_result env chat msg = Raise e ->
  forward_messages_result env chat msg = Ok copy ->
  download_result env copy = Ok content ->
  delete_result env copy = Ok tt ->
  (forall x, In x (saved_messages w) -> fwd_message_id x <> fwd_message_id copy) ->
  let run := generate_fresh_link_async env chat msg w in
  fst run = Ok (Some (LinkBuffer content))
  /\ saved_messages (snd run) = saved_messages w.
Proof.
  intros Hstart Hprim Hfwd Hdl Hdel Hfresh. cbv zeta. run_resolver.
  destruct (is_initialized w) eqn:Hinit; cbn.
  - rewrite Hprim. cbn. rewrite Hfwd. cbn. rewrite Hdl. cbn. rewrite Hdel. cbn.
    split; [reflexivity | now apply filter_other_messages].
  - destruct Hstart as [Hstart | Hstart]; [discriminate |].
    rewrite Hstart. cbn.
    rewrite Hprim. cbn. rewrite Hfwd. cbn. rewrite Hdl. cbn. rewrite Hdel. cbn.
    split; [reflexivity | now apply filter_other_messages].
Qed.

Lemma fallback_leaves_no_copy_witness :
  let run := generate_fresh_link_async Sample.env 1 2 Sample.empty_world in
  fst run = Ok (Some (LinkBuffer "bytes"))
  /\ saved_messages (snd run) = [].
Proof.
  apply (fallback_leaves_no_copy Sample.env 1 2 Sample.empty_world
           AttributeError Sample.copy "bytes");
    try reflexivity.
  - right. reflexivity.
  - intros x [].
Defined.

(* ================================================================= *)
(** ** More on pagination *)

Lemma slice_length {A} (a : nat) (l : list A) :
  List.length (firstn 20 (skipn a l)) = Nat.min 20 (List.length l - a).
Proof.
  now rewrite length_firstn, length_skipn.
Qed.

Lemma in_firstn {A} (n : nat) (l : list A) (x : A) :
  In x (firstn n l) -> In x l.
Proof.
  revert l. induction n as [|n IH]; intros [|y l]; cbn; try tauto.
  intros [H | H]; [now left | right; now apply IH].
Qed.

Lemma slice_in {A} (a : nat) (l : list A) (x : A) :
  In x (firstn 20 (skipn a l)) -> In x l.
Proof.
  intros H. apply in_firstn in H.
  rewrite <- (firstn_skipn a l). apply in_or_app. now right.
Qed.

Lemma sorted_length (env : Env) (q : query_filter) (w : World) :
  Z.of_nat (List.length (Cursor.sort_desc (find env q w)))
  = count_documents env q w.
Proof.
  unfold count_documents.
  now rewrite (Permutation_length (sort_desc_perm (find env q w))).
Qed.

(** X13.  The next-page link is offered exactly when the next page
    holds something: for a page from 1 on, [has_next] of the pagination
    that comes with it is true if and only if the page after it is not
    empty. *)
Theorem has_next_iff_next_page
  (env : Env) (q : query_filter) (p : Z) (w : World) :
  1 <= p ->
  exists content pagination next pagination' b,
    get_paginated_content env q p w = (Ok (content, pagination), w)
    /\ get_paginated_content env q (p + 1) w = (Ok (next, pagination'), w)
    /\ has_next pagination = Ok b
    /\ (b = true <-> next <> []).
Proof.
  intros Hp.
  destruct (total_pages_spec p ITEMS_PER_PAGE (count_documents env q w))
    as (n & Hn & Hbounds); [reflexivity |].
  do 4 eexists. exists (p <? n).
  split; [apply get_paginated_content_page; exact Hp |].
  split; [apply get_paginated_content_page; lia |].
  unfold has_next. rewrite Hn. cbn [page]. split; [reflexivity |].
  replace (p + 1 - 1) with p by lia.
  pose proof (slice_length (Z.to_nat p * 20)
                (Cursor.sort_desc (find env q w))) as Hlen.
  pose proof (sorted_length env q w) as Htotal.
  unfold ITEMS_PER_PAGE in Hbounds.
  destruct (firstn 20 (skipn (Z.to_nat p * 20)
                             (Cursor.sort_desc (find env q w)))) as [|x rest];
    cbn [List.length] in Hlen; rewrite Z.ltb_lt; split; intros H;
    try congruence; try lia.
Qed.

Lemma has_next_iff_next_page_witness :
  exists content pagination next pagination' b,
    get_paginated_content Sample.env QAll 2 Sample.library
    = (Ok (content, pagination), Sample.library)
    /\ get_paginated_content Sample.env QAll (2 + 1) Sample.library
       = (Ok (next, pagination'), Sample.library)
    /\ has_next pagination = Ok b
    /\ (b = true <-> next <> []).
Proof.
  apply (has_next_iff_next_page Sample.env QAll 2 Sample.library). lia.
Defined.

(** X14.  A page below 1 is refused: the query raises before anything
    is returned.  A page from 1 on holds matching documents of the
    catalogue only, and as many as are left after the pages before it,
    twenty at most. *)
Theorem page_contents
  (env : Env) (q : query_filter) (p : Z) (w : World) :
  (p < 1 ->
   exists e, get_paginated_content env q p w = (Raise e, w))
  /\ (1 <= p ->
      exists content pagination,
        get_paginated_content env q p w = (Ok (content, pagination), w)
        /\ Forall (fun d => matches env q d = true /\ In d (movies w)) content
        /\ Z.of_nat (List.length content)
           = Z.max 0 (Z.min ITEMS_PER_PAGE
                            (count_documents env q w - (p - 1) * ITEMS_PER_PAGE))).
Proof.
  split.
  - intros Hp. unfold get_paginated_content, Cursor.skip, ITEMS_PER_PAGE.
    rewrite !bind_run. unfold get_world, lift.
    destruct ((p - 1) * 20 <? 0) eqn:Hneg; [eexists; reflexivity |].
    apply Z.ltb_ge in Hneg. lia.
  - intros Hp. do 2 eexists.
    split; [apply get_paginated_content_page; exact Hp |]. split.
    + apply Forall_forall. intros d Hd. apply slice_in in Hd.
      apply (Permutation_in _ (sort_desc_perm (find env q w))) in Hd.
      unfold find in Hd. apply filter_In in Hd. tauto.
    + rewrite slice_length. pose proof (sorted_length env q w) as Htotal.
      unfold ITEMS_PER_PAGE. lia.
Qed.

Lemma page_contents_witness :
  (exists e,
      get_paginated_content Sample.env QAll 0 Sample.library
      = (Raise e, Sample.library))
  /\ exists content pagination,
      get_paginated_content Sample.env QAll 3 Sample.library
      = (Ok (content, pagination), Sample.library)
      /\ Z.of_nat (List.length content) = 5.
Proof.
  destruct (page_contents Sample.env QAll 0 Sample.library) as [Hlow _].
  destruct (page_contents Sample.env QAll 3 Sample.library) as [_ Hhigh].
  split; [apply Hlow; lia |].
  destruct Hhigh as (content & pagination & Hrun & _ & Hlen); [lia |].
  exists content, pagination. split; [exact Hrun |].
  rewrite Hlen. reflexivity.
Defined.

(* ================================================================= *)
(** ** More on the basic-auth gate *)

(** X15.  The gate lets a request through to the view it guards, as if
    there were no gate, exactly when the request carries the configured
    username and password. *)
Theorem requires_auth_runs_view_iff (cfg : Config) (request : Request) :
  credentials_match cfg request
  <-> forall (f : Request -> M Response) (w : World),
      requires_auth cfg f request w = f request w.
Proof.
  split.
  - intros (auth & Ha & Hu & Hp) f w. unfold requires_auth. rewrite Ha.
    now rewrite (proj2 (check_auth_true cfg _ _) (conj Hu Hp)).
  - intros Hruns.
    specialize (Hruns (fun _ => raise TypeError) Sample.empty_world).
    unfold requires_auth, raise, ret in Hruns.
    destruct (authorization request) as [auth|] eqn:Ha; [| discriminate].
    destruct (check_auth cfg (username auth) (password auth)) eqn:Hc;
      [| discriminate].
    apply check_auth_true in Hc. exists auth. tauto.
Qed.

(* ================================================================= *)
(** ** More on the detail route *)

(** X16.  For the identifier of a document the detail route renders the
    page once and answers 200 with it; when the rendering raises, the
    answer is the 404 of a missing document.  The collections are not
    written. *)
Theorem movie_detail_found
  (env : Env) (movie_id : string) (oid : N) (movie : Movie.doc) (w : World) :
  Oid.ObjectId movie_id = Ok (Oid.Proper oid) ->
  find_one oid w = Some movie ->
  let related :=
    if PyStr.truthy (Movie.type (Movie.fields movie))
    then related_to movie w else [] in
  let rendered := render_detail_result env movie related in
  let run := movie_detail env movie_id w in
  store (snd run) = store w
  /\ new_events w (snd run)
     = [Event (RenderDetail (Movie._id movie)) (raised rendered)]
  /\ (forall html,
        rendered = Ok html ->
        fst run = Ok {| body := html; status := 200; headers := [] |})
  /\ (forall e, rendered = Raise e -> fst run = Ok not_found).
Proof.
  intros Hoid Hfound. cbv zeta.
  unfold movie_detail, try_except, bind, lift, find_by_id, get_world,
    render_detail, extern, ret.
  rewrite Hoid. cbn. rewrite Hfound. cbn.
  destruct (render_detail_result env movie _) as [html|e]; cbn;
    (split; [reflexivity |]);
    (split; [apply new_events_app; reflexivity |]);
    split; intros ? [= <-]; reflexivity.
Qed.

Lemma movie_detail_found_witness :
  fst (movie_detail Sample.env Sample2.id1 Sample2.shelf)
  = Ok {| body := "<html>"; status := 200; headers := [] |}.
Proof.
  destruct (movie_detail_found Sample.env Sample2.id1 1%N Sample2.channel_doc
              Sample2.shelf eq_refl eq_refl) as (_ & _ & Hok & _).
  exact (Hok "<html>"%string eq_refl).
Defined.

Lemma sorted_app_order {A} (R : A -> A -> Prop) (l1 l2 : list A) :
  StronglySorted R (l1 ++ l2) ->
  forall a b, In a l1 -> In b l2 -> R a b.
Proof.
  induction l1 as [|x l1 IH]; cbn; intros Hs a b Ha Hb; [contradiction |].
  apply StronglySorted_inv in Hs as [Hs Hx]. destruct Ha as [<- | Ha].
  - rewrite Forall_forall in Hx. apply Hx, in_or_app. now right.
  - now apply IH.
Qed.

Lemma sorted_prefix {A} (R : A -> A -> Prop) (l1 l2 : list A) :
  StronglySorted R (l1 ++ l2) -> StronglySorted R l1.
Proof.
  induction l1 as [|x l1 IH]; cbn; intros Hs; [constructor |].
  apply StronglySorted_inv in Hs as [Hs Hx]. constructor; [now apply IH |].
  rewrite Forall_forall in *. intros y Hy. apply Hx, in_or_app. now left.
Qed.

(** X17.  The related titles of a detail page are documents of the
    catalogue of the same type as the movie and of another identifier,
    ten at most, newest first; a document of that type that is left out
    is not newer than any that is shown. *)
Theorem related_to_newest (movie : Movie.doc) (w : World) :
  let related := related_to movie w in
  let candidate d :=
    In d (movies w)
    /\ Movie.type (Movie.fields d) = Movie.type (Movie.fields movie)
    /\ Movie._id d <> Movie._id movie in
  (List.length related <= 10)%nat
  /\ StronglySorted newest_first related
  /\ (forall d, In d related -> candidate d)
  /\ (forall d x,
        In d related -> candidate x -> ~ In x related -> newest_first d x).
Proof.
  cbv zeta. unfold related_to, Cursor.limit. cbn [Z.eqb Z.abs_nat].
  change (Pos.to_nat 10) with 10%nat.
  set (pick := fun d : Movie.doc =>
                 String.eqb (Movie.type (Movie.fields d))
                            (Movie.type (Movie.fields movie))
                 && negb (Movie._id d =? Movie._id movie)%N).
  set (sorted := Cursor.sort_desc (filter pick (movies w))).
  assert (Hsorted : StronglySorted newest_first
                      (firstn 10 sorted ++ skipn 10 sorted)).
  { rewrite firstn_skipn. apply sort_desc_sorted. }
  assert (Hcand : forall d, In d sorted <->
                            In d (movies w)
                            /\ Movie.type (Movie.fields d)
                               = Movie.type (Movie.fields movie)
                            /\ Movie._id d <> Movie._id movie).
  { intros d. unfold sorted. split.
    - intros Hd. apply (Permutation_in _ (sort_desc_perm _)) in Hd.
      apply filter_In in Hd as [Hin Hpick]. unfold pick in Hpick.
      apply andb_true_iff in Hpick as [Ht Hi].
      apply String.eqb_eq in Ht. apply negb_true_iff, N.eqb_neq in Hi. auto.
    - intros (Hin & Ht & Hi).
      apply (Permutation_in _ (Permutation_sym (sort_desc_perm _))).
      apply filter_In. split; [exact Hin |]. unfold pick.
      apply andb_true_iff. split; [now apply String.eqb_eq |].
      now apply negb_true_iff, N.eqb_neq. }
  split; [apply firstn_le_length |].
  split; [exact (sorted_prefix _ _ _ Hsorted) |].
  split.
  - intros d Hd. apply Hcand. now apply in_firstn in Hd.
  - intros d x Hd Hx Hnot. apply (sorted_app_order _ _ _ Hsorted); [exact Hd |].
    apply Hcand in Hx. rewrite <- (firstn_skipn 10 sorted) in Hx.
    apply in_app_or in Hx as [Hx | Hx]; [contradiction | exact Hx].
Qed.

(* ================================================================= *)
(** ** The download and stream routes *)

(** X18.  For an identifier of no document, or of a document without a
    channel reference, the download route and the stream route both
    answer 404 and nothing else happens: Telegram is not called. *)
Theorem no_reference_not_found
  (env : Env) (out : Site.Outside) (movie_id : string) (oid : N) (w : World) :
  Oid.ObjectId movie_id = Ok (Oid.Proper oid) ->
  (find_one oid w = None
   \/ exists movie,
       find_one oid w = Some movie
       /\ Movie.telegram_ref (Movie.fields movie) = None) ->
  Site.download_file env out movie_id w = (Ok (Site.Tuple "File reference not found." 404), w)
  /\ Site.stream_page env out movie_id w
     = (Ok (Site.Tuple "File reference not found." 404), w).
Proof.
  intros Hoid Hno. unfold Site.download_file, Site.stream_page.
  rewrite !bind_run. unfold lift. rewrite Hoid. rewrite !bind_run.
  unfold find_by_id, bind, get_world, ret.
  destruct Hno as [Hnone | (movie & Hsome & Href)].
  - rewrite Hnone. split; reflexivity.
  - rewrite Hsome, Href. split; reflexivity.
Qed.

Lemma no_reference_not_found_witness :
  Site.download_file Sample.env Sample2.out Sample2.id2 Sample2.shelf
  = (Ok (Site.Tuple "File reference not found." 404), Sample2.shelf).
Proof.
  apply (no_reference_not_found Sample.env Sample2.out Sample2.id2 2%N
           Sample2.shelf eq_refl).
  right. exists Sample2.manual_doc. split; reflexivity.
Defined.

(** X19.  For a document with a channel reference the download route
    answers by what the resolver gave: 500 when it gave [None] or an
    empty address, and otherwise whatever [redirect] makes of the link;
    the world is the one the resolver left. *)
Theorem download_file_by_link
  (env : Env) (out : Site.Outside) (movie_id : string) (oid : N)
  (movie : Movie.doc) (ref : telegram_ref) (w : World) :
  Oid.ObjectId movie_id = Ok (Oid.Proper oid) ->
  find_one oid w = Some movie ->
  Movie.telegram_ref (Movie.fields movie) = Some ref ->
  let resolved :=
    generate_fresh_link_async env (ref_chat_id ref) (ref_message_id ref) w in
  let run := Site.download_file env out movie_id w in
  snd run = snd resolved
  /\ (fst resolved = Ok None \/ fst resolved = Ok (Some (LinkUrl EmptyString)) ->
      fst run = Ok (Site.Tuple "Could not generate download link." 500))
  /\ (forall link,
        fst resolved = Ok (Some link) -> link <> LinkUrl EmptyString ->
        fst run = match Site.redirect_result out link with
                  | Ok r => Ok (Site.Made r)
                  | Raise e => Raise e
                  end)
  /\ (forall e, fst resolved = Raise e -> fst run = Raise e).
Proof.
  intros Hoid Hfound Href. cbv zeta. unfold Site.download_file.
  rewrite bind_run. unfold lift. rewrite Hoid. rewrite bind_run.
  unfold find_by_id. rewrite bind_run. unfold get_world, ret.
  rewrite Hfound, Href. rewrite bind_run.
  unfold Site.run_async_from_sync.
  destruct (generate_fresh_link_async env (ref_chat_id ref) (ref_message_id ref) w)
    as [[[[[|c url]|content]|]|e] w1]; cbn [fst snd];
    unfold bind, lift, ret; cbn;
    try match goal with
        | |- context [Site.redirect_result out ?l] =>
            destruct (Site.redirect_result out l) eqn:Hr
        end;
    repeat split; try reflexivity; try discriminate;
    try (intros [H | H]; discriminate);
    try (intros link [= <-] Hne; try (now destruct Hne);
         try rewrite Hr; reflexivity);
    try (now intros e0 [= ->]).
Qed.

Lemma download_file_by_link_witness :
  fst (Site.download_file Sample2.env_no_link Sample2.out Sample2.id1 Sample2.shelf)
  = Ok (Site.Tuple "Could not generate download link." 500)
  /\ fst (Site.download_file Sample2.env_link Sample2.out Sample2.id1 Sample2.shelf)
     = Ok (Site.Made {| body := ""; status := 302;
                        headers := [("Location"%string,
                                     "https://cdn.example/file"%string)] |}).
Proof.
  split.
  - destruct (download_file_by_link Sample2.env_no_link Sample2.out Sample2.id1
                1%N Sample2.channel_doc
                {| ref_chat_id := -1001; ref_message_id := 42 |}
                Sample2.shelf eq_refl eq_refl eq_refl) as (_ & Hnone & _).
    apply Hnone. left. reflexivity.
  - destruct (download_file_by_link Sample2.env_link Sample2.out Sample2.id1
                1%N Sample2.channel_doc
                {| ref_chat_id := -1001; ref_message_id := 42 |}
                Sample2.shelf eq_refl eq_refl eq_refl) as (_ & _ & Hlink & _).
    exact (Hlink (LinkUrl "https://cdn.example/file") eq_refl
                 ltac:(discriminate)).
Defined.

(** X20.  The stream route does not look at the link: once the resolver
    has returned, be it with [None], the page is rendered and, when the
    rendering returns, is the answer. *)
Theorem stream_page_renders_without_link
  (env : Env) (out : Site.Outside) (movie_id : string) (oid : N)
  (movie : Movie.doc) (ref : telegram_ref) (w : World)
  (link : option fresh_link) (html : string) :
  Oid.ObjectId movie_id = Ok (Oid.Proper oid) ->
  find_one oid w = Some movie ->
  Movie.telegram_ref (Movie.fields movie) = Some ref ->
  fst (generate_fresh_link_async env (ref_chat_id ref) (ref_message_id ref) w)
  = Ok link ->
  Site.render_template_string_result out "stream_html" = Ok html ->
  fst (Site.stream_page env out movie_id w) = Ok (Site.Html html).
Proof.
  intros Hoid Hfound Href Hlink Hrender. unfold Site.stream_page.
  rewrite bind_run. unfold lift. rewrite Hoid. rewrite bind_run.
  unfold find_by_id. rewrite bind_run. unfold get_world, ret.
  rewrite Hfound, Href. rewrite bind_run.
  unfold Site.run_async_from_sync.
  destruct (generate_fresh_link_async env (ref_chat_id ref) (ref_message_id ref) w)
    as [r w1]. cbn in Hlink. subst r. rewrite bind_run, Hrender. reflexivity.
Qed.

Lemma stream_page_renders_without_link_witness :
  fst (generate_fresh_link_async Sample2.env_no_link (-1001) 42 Sample2.shelf)
  = Ok None
  /\ fst (Site.stream_page Sample2.env_no_link Sample2.out Sample2.id1 Sample2.shelf)
     = Ok (Site.Html "<html>").
Proof.
  split; [reflexivity |].
  exact (stream_page_renders_without_link Sample2.env_no_link Sample2.out
           Sample2.id1 1%N Sample2.channel_doc
           {| ref_chat_id := -1001; ref_message_id := 42 |}
           Sample2.shelf None "<html>"
           eq_refl eq_refl eq_refl eq_refl eq_refl).
Defined.

(** What [ObjectId] does not take as an identifier it refuses with
    [InvalidId]. *)
Lemma malformed_invalid_id (s : string) :
  ~ well_formed_id s -> Oid.ObjectId s = Raise (InvalidId s).
Proof.
  intros Hbad. unfold Oid.ObjectId in *.
  destruct (String.length s =? 24)%nat eqn:Hlen; [| reflexivity].
  destruct (Oid.fromhex s) as [bytes|] eqn:Hhex; [| reflexivity].
  destruct Hbad. unfold well_formed_id, Oid.ObjectId.
  rewrite Hlen, Hhex. eexists. reflexivity.
Qed.

(** X21.  Outside the detail route a str that spells no [ObjectId] is
    not caught: the download, the stream, the delete and the edit route
    raise [InvalidId] on it, and the world is as it was. *)
Theorem malformed_id_raises
  (env : Env) (out : Site.Outside) (movie_id method : string)
  (form : Site.Form) (w : World) :
  ~ well_formed_id movie_id ->
  Site.download_file env out movie_id w = (Raise (InvalidId movie_id), w)
  /\ Site.stream_page env out movie_id w = (Raise (InvalidId movie_id), w)
  /\ Site.delete_movie out movie_id w = (Raise (InvalidId movie_id), w)
  /\ Site.edit_movie env out movie_id method form w
     = (Raise (InvalidId movie_id), w).
Proof.
  intros Hbad. unfold Site.download_file, Site.stream_page, Site.delete_movie,
    Site.edit_movie.
  rewrite !bind_run. unfold lift.
  rewrite (malformed_invalid_id movie_id Hbad). repeat split.
Qed.

Lemma malformed_id_raises_witness :
  ~ well_formed_id "not-an-id"
  /\ Site.download_file Sample.env Sample2.out "not-an-id" Sample2.shelf
     = (Raise (InvalidId "not-an-id"), Sample2.shelf).
Proof.
  assert (H : ~ well_formed_id "not-an-id").
  { intros [oid Hoid]. vm_compute in Hoid. discriminate. }
  split; [exact H |].
  exact (proj1 (malformed_id_raises Sample.env Sample2.out "not-an-id" "GET" []
                  Sample2.shelf H)).
Defined.

(** A str of 24 characters in which white space stands between the
    bytes spells an identifier of fewer than twelve bytes, so no route
    raises [InvalidId] on it: where the driver lets the query through,
    the download route answers 404.  White space inside a byte spells
    no identifier. *)
Example spaced_identifier :
  Oid.ObjectId "00 00 00 00 00 00 00 01 "
  = Ok (Oid.Short [0; 0; 0; 0; 0; 0; 0; 1]%N)
  /\ Site.download_file Sample.env Sample2.out "00 00 00 00 00 00 00 01 "
                        Sample2.shelf
     = (Ok (Site.Tuple "File reference not found." 404), Sample2.shelf)
  /\ Oid.ObjectId "0 0000000000000000000001"
     = Raise (InvalidId "0 0000000000000000000001").
Proof.
  repeat split.
Qed.

(* ================================================================= *)
(** ** The webhook set-up route *)

Lemma rstrip_char_spec (c : ascii) (s : string) :
  exists tail,
    s = (Site.rstrip_char c s ++ tail)%string
    /\ PyStr.forallb (fun x => Ascii.eqb x c) tail = true
    /\ last_char (Site.rstrip_char c s) <> Some c.
Proof.
  induction s as [|x s (tail & Hs & Htail & Hlast)]; cbn.
  - exists EmptyString. repeat split. discriminate.
  - destruct (Site.rstrip_char c s) as [|y r] eqn:Hr.
    + cbn in Hs. subst s. destruct (Ascii.eqb x c) eqn:Hx.
      * exists (String x tail). cbn. rewrite Hx, Htail.
        repeat split. discriminate.
      * exists tail. cbn. repeat split; auto.
        intros [= ->]. now rewrite Ascii.eqb_refl in Hx.
    + exists tail. cbn. split; [now rewrite Hs at 1 |]. split; [exact Htail |].
      exact Hlast.
Qed.

(** X22.  The set-up route always answers, and the first member of its
    answer announces success whenever Telegram answered at all: when
    Telegram refuses the webhook the answer is the success text paired
    with the failure pair, not the failure text with status 500.  The
    address it registers is the site address without its trailing
    slashes, then [/webhook/] and the token. *)
Theorem set_webhook_reply (cfg : Config) (out : Site.Outside) (w : World) :
  let url := Site.webhook_url cfg out in
  let said := ("Webhook successfully set to: " ++ url)%string in
  (exists base slashes,
      WEBSITE_URL cfg = (base ++ slashes)%string
      /\ PyStr.forallb (fun x => Ascii.eqb x "/") slashes = true
      /\ last_char base <> Some "/"%char
      /\ url = (base ++ "/webhook/" ++ Site.BOT_TOKEN out)%string)
  /\ exists reply,
      Site.set_webhook cfg out w = (Ok reply, w)
      /\ (Site.set_webhook_result out url = Ok true ->
          reply = Site.Tuple said 200)
      /\ (Site.set_webhook_result out url = Ok false ->
          reply = Site.NestedTuple said ("Failed to set webhook."%string, 500))
      /\ (forall e,
            Site.set_webhook_result out url = Raise e ->
            reply = Site.Tuple ("Error setting webhook: " ++ exn_msg e)%string 500).
Proof.
  cbv zeta. split.
  - destruct (rstrip_char_spec "/" (WEBSITE_URL cfg)) as (tail & Hs & Ht & Hl).
    exists (Site.rstrip_char "/" (WEBSITE_URL cfg)), tail. auto.
  - unfold Site.set_webhook, try_except, bind, lift, ret.
    destruct (Site.set_webhook_result out (Site.webhook_url cfg out))
      as [[|]|e]; eexists; (split; [reflexivity |]);
      repeat split; try discriminate; try reflexivity.
    now intros e0 [= ->].
Qed.

Example set_webhook_refused :
  Site.set_webhook Sample2.cfg_no_target Sample2.out_refused Sample.empty_world
  = (Ok (Site.NestedTuple
           "Webhook successfully set to: https://site.example/webhook/123:abc"
           ("Failed to set webhook."%string, 500)),
     Sample.empty_world).
Proof. reflexivity. Qed.

(* ================================================================= *)
(** ** The request form *)

(** X23.  A posted request form with a content name adds one request
    to the requests, pending, with the name and the note stripped of
    surrounding white space, and touches no other collection; a posted
    form without a content name, or with an empty one, changes nothing.
    Both are answered with the same redirect. *)
Theorem request_content_post
  (env : Env) (out : Site.Outside) (form : Site.Form) (w : World) :
  let run := Site.request_content env out "POST" form w in
  (forall name,
      Site.get form "content_name" = Some name -> name <> EmptyString ->
      let d := pending_request env form name in
      (Site.insert_request_result out d = Ok tt ->
       fst run = Ok (Site.RedirectFor "request_content")
       /\ requests_collection (snd run) = requests_collection w ++ [d]
       /\ movies (snd run) = movies w
       /\ categories_collection (snd run) = categories_collection w
       /\ settings (snd run) = settings w)
      /\ (forall e, Site.insert_request_result out d = Raise e ->
                    run = (Raise e, w)))
  /\ (Site.get form "content_name" = None
      \/ Site.get form "content_name" = Some EmptyString ->
      run = (Ok (Site.RedirectFor "request_content"), w)).
Proof.
  cbv zeta. unfold Site.request_content. cbn [String.eqb Ascii.eqb Bool.eqb].
  rewrite bind_run. split.
  - intros name Hname Hne. rewrite Hname.
    apply truthy_nonempty in Hne. rewrite Hne.
    unfold Site.store_write, pending_request. split.
    + intros Hins. rewrite Hins. cbn. repeat split.
    + intros e Hins. now rewrite Hins.
  - intros [Hnone | Hempty]; [rewrite Hnone | rewrite Hempty]; reflexivity.
Qed.

Lemma request_content_post_witness :
  let form := [("content_name"%string, "  Dune  "%string)] in
  let run := Site.request_content Sample.env Sample2.out "POST" form
                                  Sample.empty_world in
  requests_collection (snd run)
  = [{| req_name := "Dune"; req_info := ""; req_status := "Pending";
        req_created_at := 0 |}].
Proof.
  cbv zeta.
  destruct (request_content_post Sample.env Sample2.out
              [("content_name"%string, "  Dune  "%string)] Sample.empty_world)
    as [Hadd _].
  destruct (Hadd "  Dune  "%string eq_refl ltac:(discriminate)) as [Hok _].
  destruct (Hok eq_refl) as (_ & Hreq & _). exact Hreq.
Defined.

(* ================================================================= *)
(** ** The admin panel *)

Lemma add_category_run (out : Site.Outside) (form : Site.Form) (w : World) :
  Site.add_category out form w
  = match Site.get form "category_name" with
    | Some name =>
        if PyStr.truthy name then
          match Site.upsert_category_result out (PyStr.strip name) with
          | Ok _ =>
              (Ok (Site.RedirectFor "admin"),
               if existsb (String.eqb (PyStr.strip name)) (categories_collection w)
               then w
               else Site.with_categories
                      (categories_collection w ++ [PyStr.strip name]) w)
          | Raise e => (Raise e, w)
          end
        else (Ok (Site.RedirectFor "admin"), w)
    | None => (Ok (Site.RedirectFor "admin"), w)
    end.
Proof.
  unfold Site.add_category. rewrite bind_run.
  destruct (Site.get form "category_name") as [name|]; [| reflexivity].
  destruct (PyStr.truthy name); [| reflexivity].
  unfold Site.store_write.
  now destruct (Site.upsert_category_result out (PyStr.strip name)).
Qed.

Lemma existsb_eqb_in (n : string) (l : list string) :
  existsb (String.eqb n) l = true <-> In n l.
Proof.
  rewrite existsb_exists. split.
  - intros (x & Hx & Heq). apply String.eqb_eq in Heq. now subst x.
  - intros Hin. exists n. split; [exact Hin | apply String.eqb_refl].
Qed.

(** X24.  Adding a category never removes one and keeps the names
    distinct; once the store took a name, the name is in the collection
    and adding it again changes nothing.  The catalogue is not
    touched. *)
Theorem add_category_keeps_names_distinct
  (out : Site.Outside) (form : Site.Form) (w : World) :
  NoDup (categories_collection w) ->
  let run := Site.add_category out form w in
  NoDup (categories_collection (snd run))
  /\ incl (categories_collection w) (categories_collection (snd run))
  /\ movies (snd run) = movies w
  /\ forall name,
      Site.get form "category_name" = Some name -> name <> EmptyString ->
      Site.upsert_category_result out (PyStr.strip name) = Ok tt ->
      In (PyStr.strip name) (categories_collection (snd run))
      /\ Site.add_category out form (snd run)
         = (Ok (Site.RedirectFor "admin"), snd run).
Proof.
  intros Hnodup. cbv zeta.
  assert (Hw : snd (Site.add_category out form w) = w
               \/ exists name,
                   Site.get form "category_name" = Some name
                   /\ ~ In (PyStr.strip name) (categories_collection w)
                   /\ snd (Site.add_category out form w)
                      = Site.with_categories
                          (categories_collection w ++ [PyStr.strip name]) w).
  { rewrite add_category_run.
    destruct (Site.get form "category_name") as [name|]; [| now left].
    destruct (PyStr.truthy name); [| now left].
    destruct (Site.upsert_category_result out (PyStr.strip name));
      [| now left]. cbn.
    destruct (existsb (String.eqb (PyStr.strip name)) (categories_collection w))
      eqn:Hex; [now left | right].
    exists name. repeat split. intros Hin.
    apply existsb_eqb_in in Hin. congruence. }
  split; [| split; [| split]].
  - destruct Hw as [-> | (name & _ & Hnew & ->)]; [exact Hnodup |]. cbn.
    apply NoDup_app; [exact Hnodup | repeat constructor; intros [] |].
    intros x Hx [<- | []]. contradiction.
  - destruct Hw as [-> | (name & _ & _ & ->)]; [apply incl_refl |]. cbn.
    intros x Hx. apply in_or_app. now left.
  - destruct Hw as [-> | (name & _ & _ & ->)]; reflexivity.
  - intros name Hname Hne Hup. apply truthy_nonempty in Hne.
    assert (Hin : In (PyStr.strip name)
                     (categories_collection (snd (Site.add_category out form w)))).
    { rewrite add_category_run, Hname, Hne, Hup. cbn.
      destruct (existsb (String.eqb (PyStr.strip name)) (categories_collection w))
        eqn:Hex; [now apply existsb_eqb_in |].
      cbn. apply in_or_app. right. now left. }
    split; [exact Hin |].
    rewrite (add_category_run out form (snd (Site.add_category out form w))).
    rewrite Hname, Hne, Hup.
    now rewrite (proj2 (existsb_eqb_in _ _) Hin).
Qed.

Lemma add_category_keeps_names_distinct_witness :
  let w := Site.with_categories ["Hindi"%string] Sample.empty_world in
  let run :=
    Site.add_category Sample2.out [("category_name"%string, " Hindi "%string)] w in
  NoDup (categories_collection (snd run))
  /\ categories_collection (snd run) = ["Hindi"%string].
Proof.
  cbv zeta. split; [| reflexivity].
  apply (add_category_keeps_names_distinct Sample2.out
           [("category_name"%string, " Hindi "%string)]
           (Site.with_categories ["Hindi"%string] Sample.empty_world)).
  repeat constructor. intros [].
Defined.

Lemma object_ids_malformed (selected : list string) :
  (exists s, In s selected /\ ~ well_formed_id s) ->
  exists s,
    In s selected /\ ~ well_formed_id s
    /\ Site.object_ids selected = Raise (InvalidId s).
Proof.
  induction selected as [|s rest IH]; intros (x & Hin & Hbad);
    [destruct Hin |]. cbn.
  destruct (Oid.ObjectId s) as [oid|e] eqn:Hs.
  - destruct Hin as [<- | Hin]; [destruct Hbad; now exists oid |].
    destruct (IH (ex_intro _ x (conj Hin Hbad))) as (s' & Hin' & Hbad' & ->).
    exists s'. auto.
  - assert (Hs' : ~ well_formed_id s).
    { intros [oid Hoid]. congruence. }
    exists s. rewrite (malformed_invalid_id s Hs') in Hs.
    injection Hs as <-. auto.
Qed.

Lemma object_ids_well_formed (selected : list string) :
  Forall well_formed_id selected ->
  exists ids,
    Site.object_ids selected = Ok ids
    /\ Forall2 (fun s oid => Oid.ObjectId s = Ok oid) selected ids.
Proof.
  induction 1 as [|s rest [oid Hs] _ (ids & Hids & Hall)]; cbn.
  - exists []. split; [reflexivity | constructor].
  - rewrite Hs, Hids. exists (oid :: ids). split; [reflexivity |].
    now constructor.
Qed.

Lemma existsb_is_id_in (n : N) (l : list Oid.t) :
  existsb (fun oid => Oid.is_id oid n) l = true <-> In (Oid.Proper n) l.
Proof.
  rewrite existsb_exists. split.
  - intros ([m|bytes] & Hx & Heq); [| discriminate].
    apply N.eqb_eq in Heq. now subst m.
  - intros Hin. exists (Oid.Proper n). split; [exact Hin | apply N.eqb_refl].
Qed.

(** X25.  The bulk delete is all or nothing on the identifiers: when
    one of the selected strs spells no [ObjectId], the call raises
    [InvalidId] on such a str and no document is deleted; when all do
    and the store obeys, the documents
    left are those of the catalogue whose identifier was not
    selected.  A selected str of 24 characters with white space in it
    spells an identifier of fewer than twelve bytes: it stops nothing
    and deletes nothing. *)
Theorem bulk_delete_all_or_nothing
  (out : Site.Outside) (form : Site.Form) (w : World) :
  let selected := Site.getlist form "selected_ids" in
  let run := Site.bulk_delete out form w in
  ((exists s, In s selected /\ ~ well_formed_id s) ->
   exists s,
     In s selected /\ ~ well_formed_id s /\ run = (Raise (InvalidId s), w))
  /\ (Forall well_formed_id selected ->
      exists ids,
        Forall2 (fun s oid => Oid.ObjectId s = Ok oid) selected ids
        /\ (Site.delete_movies_result out ids = Ok tt ->
            fst run = Ok (Site.RedirectFor "admin")
            /\ forall d,
                In d (movies (snd run))
                <-> In d (movies w) /\ ~ In (Oid.Proper (Movie._id d)) ids)).
Proof.
  cbv zeta. unfold Site.bulk_delete. rewrite !bind_run. unfold lift. split.
  - intros Hbad.
    destruct (object_ids_malformed _ Hbad) as (s & Hin & Hs & ->). eauto.
  - intros Hall. destruct (object_ids_well_formed _ Hall) as (ids & -> & Hids).
    exists ids. split; [exact Hids |]. intros Hdel.
    destruct ids as [|oid ids]; cbn.
    + split; [reflexivity |]. intros d. tauto.
    + unfold Site.store_write. rewrite Hdel. cbn. split; [reflexivity |].
      intros d. unfold Site.delete_many.
      rewrite filter_In, negb_true_iff, <- not_true_iff_false.
      now rewrite (existsb_is_id_in (Movie._id d) (oid :: ids)).
Qed.

Lemma bulk_delete_all_or_nothing_witness :
  (exists s,
      In s [Sample2.id1; "x"%string] /\ ~ well_formed_id s
      /\ Site.bulk_delete Sample2.out
           [("selected_ids"%string, Sample2.id1); ("selected_ids"%string, "x"%string)]
           Sample2.shelf
         = (Raise (InvalidId s), Sample2.shelf))
  /\ movies (snd (Site.bulk_delete Sample2.out
                    [("selected_ids"%string, Sample2.id1)] Sample2.shelf))
     = [Sample2.manual_doc].
Proof.
  split; [| reflexivity].
  apply (bulk_delete_all_or_nothing Sample2.out
           [("selected_ids"%string, Sample2.id1); ("selected_ids"%string, "x"%string)]
           Sample2.shelf).
  exists "x"%string. split; [cbn; auto |].
  intros [oid Hoid]. vm_compute in Hoid. discriminate.
Defined.

Lemma find_remove_first_same (oid : N) (l : list Movie.doc) :
  NoDup (map Movie._id l) ->
  List.find (fun d => (Movie._id d =? oid)%N) (Site.remove_first oid l) = None.
Proof.
  induction l as [|d l IH]; cbn; intros Hnd; [reflexivity |].
  apply NoDup_cons_iff in Hnd as [Hd Hnd].
  destruct (Movie._id d =? oid)%N eqn:Hx; cbn.
  - apply N.eqb_eq in Hx. subst oid.
    destruct (List.find (fun x => (Movie._id x =? Movie._id d)%N) l) as [x|] eqn:Hf;
      [| reflexivity].
    apply find_some in Hf as [Hin Heq]. apply N.eqb_eq in Heq.
    destruct Hd. rewrite <- Heq. now apply in_map.
  - rewrite Hx. now apply IH.
Qed.

Lemma find_remove_first_other (oid other : N) (l : list Movie.doc) :
  other <> oid ->
  List.find (fun d => (Movie._id d =? other)%N) (Site.remove_first oid l)
  = List.find (fun d => (Movie._id d =? other)%N) l.
Proof.
  intros Hne. induction l as [|d l IH]; cbn; [reflexivity |].
  destruct (Movie._id d =? oid)%N eqn:Hx; cbn.
  - apply N.eqb_eq in Hx.
    destruct (Movie._id d =? other)%N eqn:Hy; [| reflexivity].
    apply N.eqb_eq in Hy. congruence.
  - destruct (Movie._id d =? other)%N; [reflexivity | exact IH].
Qed.

Lemma remove_first_missing (oid : N) (l : list Movie.doc) :
  List.find (fun d => (Movie._id d =? oid)%N) l = None ->
  Site.remove_first oid l = l.
Proof.
  induction l as [|d l IH]; cbn; [reflexivity |].
  destruct (Movie._id d =? oid)%N; [discriminate |].
  intros H. now rewrite IH.
Qed.

(** X26.  After a delete the store obeyed, with identifiers distinct as
    the store keeps them, the identifier finds nothing and every other
    identifier finds what it found before; deleting the identifier of no
    document is no error and leaves the catalogue as it was. *)
Theorem delete_movie_then_missing
  (out : Site.Outside) (movie_id : string) (oid : N) (w : World) :
  Oid.ObjectId movie_id = Ok (Oid.Proper oid) ->
  Site.delete_movies_result out [Oid.Proper oid] = Ok tt ->
  NoDup (map Movie._id (movies w)) ->
  let run := Site.delete_movie out movie_id w in
  fst run = Ok (Site.RedirectFor "admin")
  /\ find_one oid (snd run) = None
  /\ (forall other, other <> oid -> find_one other (snd run) = find_one other w)
  /\ (find_one oid w = None -> movies (snd run) = movies w).
Proof.
  intros Hoid Hdel Hnd. cbv zeta. unfold Site.delete_movie.
  rewrite !bind_run. unfold lift, Site.store_write. rewrite Hoid, Hdel. cbn.
  unfold find_one. cbn. split; [reflexivity |].
  split; [now apply find_remove_first_same |].
  split; [intros other Hne; now apply find_remove_first_other |].
  apply remove_first_missing.
Qed.

Lemma delete_movie_then_missing_witness :
  let run := Site.delete_movie Sample2.out Sample2.id1 Sample2.shelf in
  find_one 1%N (snd run) = None
  /\ find_one 2%N (snd run) = Some Sample2.manual_doc.
Proof.
  cbv zeta.
  destruct (delete_movie_then_missing Sample2.out Sample2.id1 1%N Sample2.shelf
              eq_refl eq_refl) as (_ & Hgone & Hother & _).
  - cbn. repeat constructor; cbn; intuition discriminate.
  - split; [exact Hgone |]. rewrite Hother by discriminate. reflexivity.
Defined.

Lemma update_first_map {B} (g : Movie.doc -> B) (oid : N)
  (f : Movie.data -> Movie.data) (l : list Movie.doc) :
  (forall d, g {| Movie._id := Movie._id d; Movie.fields := f (Movie.fields d) |}
             = g d) ->
  map g (Site.update_first oid f l) = map g l.
Proof.
  intros Hg. induction l as [|d l IH]; cbn; [reflexivity |].
  destruct (Movie._id d =? oid)%N; cbn; [now rewrite Hg | now rewrite IH].
Qed.

Lemma find_update_first (oid : N) (f : Movie.data -> Movie.data)
  (l : list Movie.doc) (movie : Movie.doc) :
  List.find (fun d => (Movie._id d =? oid)%N) l = Some movie ->
  List.find (fun d => (Movie._id d =? oid)%N) (Site.update_first oid f l)
  = Some {| Movie._id := Movie._id movie; Movie.fields := f (Movie.fields movie) |}.
Proof.
  induction l as [|d l IH]; cbn; [discriminate |].
  destruct (Movie._id d =? oid)%N eqn:Hx; cbn.
  - intros [= <-]. now rewrite Hx.
  - rewrite Hx. exact IH.
Qed.

(** X27.  An edit the store obeyed changes one document and neither
    its identifier, its type nor its source: every document keeps its
    channel reference, and has manual links after the edit exactly if it
    had them before.  The edited document carries the stripped title of
    the form and a poster that is not empty. *)
Theorem edit_movie_keeps_source
  (env : Env) (out : Site.Outside) (movie_id : string) (oid : N) (movie : Movie.doc)
  (form : Site.Form) (title poster backdrop overview : string) (w : World) :
  Oid.ObjectId movie_id = Ok (Oid.Proper oid) ->
  find_one oid w = Some movie ->
  Site.get_strip form "title" = Ok title ->
  Site.get_strip form "poster" = Ok poster ->
  Site.get_strip form "backdrop" = Ok backdrop ->
  Site.get_strip form "overview" = Ok overview ->
  Site.update_movie_result out (Oid.Proper oid) = Ok tt ->
  let run := Site.edit_movie env out movie_id "POST" form w in
  fst run = Ok (Site.RedirectFor "admin")
  /\ map Movie._id (movies (snd run)) = map Movie._id (movies w)
  /\ map (fun d => Movie.type (Movie.fields d)) (movies (snd run))
     = map (fun d => Movie.type (Movie.fields d)) (movies w)
  /\ map (fun d => Movie.telegram_ref (Movie.fields d)) (movies (snd run))
     = map (fun d => Movie.telegram_ref (Movie.fields d)) (movies w)
  /\ map has_manual_links (movies (snd run)) = map has_manual_links (movies w)
  /\ exists doc,
      find_one oid (snd run) = Some doc
      /\ Movie.title (Movie.fields doc) = JStr title
      /\ Movie.poster (Movie.fields doc) <> EmptyString.
Proof.
  intros Hoid Hfound Ht Hp Hb Ho Hup. cbv zeta. unfold Site.edit_movie.
  rewrite bind_run. unfold lift. rewrite Hoid. rewrite bind_run.
  unfold find_by_id. rewrite bind_run. unfold get_world, ret.
  rewrite Hfound. cbn [String.eqb Ascii.eqb Bool.eqb].
  rewrite !bind_run, Ht. rewrite !bind_run, Hp. rewrite !bind_run, Hb.
  rewrite !bind_run, Ho. rewrite !bind_run.
  unfold Site.store_write. rewrite Hup. cbn.
  split; [reflexivity |].
  split; [now apply update_first_map |].
  split; [now apply update_first_map |].
  split; [now apply update_first_map |].
  split.
  - apply update_first_map. intros d. unfold has_manual_links. cbn.
    now destruct (Movie.manual_links (Movie.fields d)).
  - eexists. split; [apply find_update_first; exact Hfound |].
    cbn. split; [reflexivity |].
    destruct (PyStr.truthy poster) eqn:Htr; [| discriminate].
    now apply truthy_nonempty.
Qed.

Lemma edit_movie_keeps_source_witness :
  let form :=
    [("title"%string, " Inception (4K) "%string); ("poster"%string, ""%string);
     ("backdrop"%string, ""%string); ("overview"%string, "A thief."%string);
     ("manual_link_name[]"%string, "720p"%string);
     ("manual_link_url[]"%string, "https://x.example/i"%string)] in
  let run :=
    Site.edit_movie Sample.env Sample2.out Sample2.id1 "POST" form Sample2.shelf in
  map has_manual_links (movies (snd run)) = [false; true]
  /\ exists doc,
      find_one 1%N (snd run) = Some doc
      /\ Movie.title (Movie.fields doc) = JStr "Inception (4K)".
Proof.
  cbv zeta.
  destruct (edit_movie_keeps_source Sample.env Sample2.out Sample2.id1 1%N
              Sample2.channel_doc
              [("title"%string, " Inception (4K) "%string);
               ("poster"%string, ""%string);
               ("backdrop"%string, ""%string);
               ("overview"%string, "A thief."%string);
               ("manual_link_name[]"%string, "720p"%string);
               ("manual_link_url[]"%string, "https://x.example/i"%string)]
              "Inception (4K)" "" "" "A thief." Sample2.shelf
              eq_refl eq_refl eq_refl eq_refl eq_refl eq_refl eq_refl)
    as (_ & _ & _ & _ & Hlinks & doc & Hdoc & Htitle & _).
  split; [exact Hlinks |]. exists doc. split; assumption.
Defined.

(** X28.  An edit form that lacks the title, the poster, the backdrop
    or the overview is not answered: the route raises on the missing
    field and the catalogue is as it was. *)
Theorem edit_movie_missing_field
  (env : Env) (out : Site.Outside) (movie_id : string) (oid : N) (movie : Movie.doc)
  (form : Site.Form) (field : string) (w : World) :
  Oid.ObjectId movie_id = Ok (Oid.Proper oid) ->
  find_one oid w = Some movie ->
  In field ["title"; "poster"; "backdrop"; "overview"]%string ->
  Site.get form field = None ->
  Site.edit_movie env out movie_id "POST" form w = (Raise AttributeError, w).
Proof.
  intros Hoid Hfound Hfield Hmissing. unfold Site.edit_movie.
  rewrite bind_run. unfold lift. rewrite Hoid. rewrite bind_run.
  unfold find_by_id. rewrite bind_run. unfold get_world, ret.
  rewrite Hfound. cbn [String.eqb Ascii.eqb Bool.eqb].
  unfold Site.get_strip.
  cbn in Hfield. rewrite !bind_run.
  destruct (Site.get form "title") eqn:H1;
    [| reflexivity].
  rewrite !bind_run. destruct (Site.get form "poster") eqn:H2; [| reflexivity].
  rewrite !bind_run. destruct (Site.get form "backdrop") eqn:H3; [| reflexivity].
  rewrite !bind_run. destruct (Site.get form "overview") eqn:H4; [| reflexivity].
  destruct Hfield as [<- | [<- | [<- | [<- | []]]]]; congruence.
Qed.

Lemma edit_movie_missing_field_witness :
  Site.edit_movie Sample.env Sample2.out Sample2.id1 "POST"
                  [("title"%string, "Inception"%string)] Sample2.shelf
  = (Raise AttributeError, Sample2.shelf).
Proof.
  apply (edit_movie_missing_field Sample.env Sample2.out Sample2.id1 1%N
           Sample2.channel_doc
           [("title"%string, "Inception"%string)] "poster" Sample2.shelf
           eq_refl eq_refl).
  - cbn. auto.
  - reflexivity.
Defined.

(* ================================================================= *)
(** ** The details helper of the admin panel *)

Arguments details_url : simpl never.

(** X29.  The details helper never raises and asks the series endpoint
    for the media type [tv] only.  A record it returns carries the
    identifier it was given, is of type [series] exactly for [tv], and
    always has a poster and a backdrop address.  The status of the
    response is not looked at: any response whose body is a JSON object
    without genres gives a record. *)
Theorem get_tmdb_details_shape
  (cfg : Config) (env : Env) (tmdb_id media_type : option string) (w : World) :
  let run := Site.get_tmdb_details cfg env tmdb_id media_type w in
  (exists found, fst run = Ok found)
  /\ (exists o,
        new_events w (snd run)
        = [Event (RequestsGet (details_url cfg tmdb_id media_type)) o])
  /\ (forall id details,
        fst run = Ok (Some (id, details)) ->
        id = tmdb_id
        /\ Tmdb.type details
           = (if String.eqb (fmt_opt media_type) "tv" then "series" else "movie")%string
        /\ Tmdb.poster details <> None
        /\ Tmdb.backdrop details <> None)
  /\ (forall response fields,
        requests_get_result env (details_url cfg tmdb_id media_type) = Ok response ->
        json_body response = Ok (JObj fields) ->
        Py.assoc "genres" fields = None ->
        exists details, fst run = Ok (Some (tmdb_id, details))).
Proof.
  cbv zeta. split; [apply try_except_returns |].
  unfold Site.get_tmdb_details, try_except, bind, requests_get, extern, lift,
    ret.
  cbv beta zeta.
  change ("https://api.themoviedb.org/3/"
          ++ match media_type with
             | Some t => if String.eqb t "tv" then "tv" else "movie"
             | None => "movie"
             end
          ++ "/" ++ fmt_opt tmdb_id ++ "?api_key=" ++ TMDB_API_KEY cfg)%string
    with (details_url cfg tmdb_id media_type).
  split; [| split].
  - cbn. repeat split_step; eexists; apply new_events_app; reflexivity.
  - intros id details.
    destruct media_type as [t|]; cbn;
      [destruct (String.eqb t "tv") eqn:Ht; cbn |];
      repeat split_step; intros Hd; try discriminate Hd;
      injection Hd as <- <-; cbn; repeat split; discriminate.
  - intros response fields Hget Hbody Hgenres. rewrite Hget. cbn.
    rewrite Hbody. cbn. rewrite Hgenres. cbn. eexists. reflexivity.
Qed.

Lemma get_tmdb_details_shape_witness :
  exists details,
    fst (Site.get_tmdb_details Sample.cfg Sample2.env_detail_missing
           (Some "27205"%string) None Sample.empty_world)
    = Ok (Some (Some "27205"%string, details))
    /\ Tmdb.title details = JNull.
Proof.
  destruct (get_tmdb_details_shape Sample.cfg Sample2.env_detail_missing
              (Some "27205"%string) None Sample.empty_world)
    as (_ & _ & _ & Hrecord).
  destruct (Hrecord {| status_code := 404; json_body := Ok Sample2.error_payload |}
                    [("success"%string, JBool false);
                     ("status_code"%string, JInt 34);
                     ("status_message"%string,
                      JStr "The resource you requested could not be found.")]
                    eq_refl eq_refl eq_refl) as [details Hd].
  exists details. split; [exact Hd |].
  vm_compute in Hd. now injection Hd as <-.
Defined.

(* ================================================================= *)
(** ** The relative-time filter *)

Lemma div_between (a b lo hi : Z) :
  0 < b -> b * lo <= a -> a < b * hi -> lo <= a / b < hi.
Proof.
  intros Hb Hlo Hhi. split.
  - now apply Z.div_le_lower_bound.
  - now apply Z.div_lt_upper_bound.
Qed.

(** X30.  The filter shows nothing for what is no [ObjectId] and
    [just now] for an identifier less than a minute old, one from the
    future included.  From a minute on it shows a count and a unit: the
    whole minutes up to 59, then the whole hours up to 23, then the
    whole days; the count is never zero and the unit is in the plural
    unless the count is one. *)
Theorem time_ago_shape (env : Env) (oid : N) :
  let age := utcnow env - Site.generation_time oid * 1000000 in
  Site.time_ago env Site.NotAnObjectId = EmptyString
  /\ (age < 60000000 ->
      Site.time_ago env (Site.AnObjectId oid) = "just now"%string)
  /\ (60000000 <= age ->
      exists n unit,
        Site.time_ago env (Site.AnObjectId oid)
        = (Site.str_int n ++ " " ++ unit
           ++ (if Z.eqb n 1 then "" else "s") ++ " ago")%string
        /\ 1 <= n
        /\ ((unit = "minute"%string /\ n = age / 60000000 /\ n <= 59)
            \/ (unit = "hour"%string /\ n = age / 3600000000 /\ n <= 23)
            \/ (unit = "day"%string /\ n = age / 86400000000 /\ 86400000000 <= age))).
Proof.
  cbv zeta. unfold Site.time_ago.
  change (60 * 1000000) with 60000000.
  change (3600 * 1000000) with 3600000000.
  change (86400 * 1000000) with 86400000000.
  generalize (utcnow env - Site.generation_time oid * 1000000).
  intros age. split; [reflexivity |]. split.
  - intros Hage. apply Z.ltb_lt in Hage. now rewrite Hage.
  - intros Hage.
    assert (Hs : forall n, 1 <= n ->
                           Site.plural n = (if Z.eqb n 1 then "" else "s")%string).
    { intros n Hn. unfold Site.plural.
      destruct (1 <? n) eqn:H1, (n =? 1) eqn:H2; try reflexivity;
        [apply Z.ltb_lt in H1; apply Z.eqb_eq in H2
        | apply Z.ltb_ge in H1; apply Z.eqb_neq in H2]; lia. }
    destruct (age <? 60000000) eqn:H60; [apply Z.ltb_lt in H60; lia |].
    destruct (age <? 3600000000) eqn:H3600;
      [| destruct (age <? 86400000000) eqn:H86400].
    + apply Z.ltb_lt in H3600.
      exists (age / 60000000), "minute"%string.
      rewrite Z.quot_div_nonneg by lia.
      assert (Hn : 1 <= age / 60000000 < 60).
      { apply div_between; lia. }
      rewrite Hs by apply Hn. split; [reflexivity |]. split; [apply Hn |].
      left. repeat split. apply Z.lt_succ_r. apply Hn.
    + apply Z.ltb_ge in H3600. apply Z.ltb_lt in H86400.
      exists (age / 3600000000), "hour"%string.
      rewrite Z.quot_div_nonneg by lia.
      assert (Hn : 1 <= age / 3600000000 < 24).
      { apply div_between; lia. }
      rewrite Hs by apply Hn. split; [reflexivity |]. split; [apply Hn |].
      right. left. repeat split. apply Z.lt_succ_r. apply Hn.
    + apply Z.ltb_ge in H86400.
      exists (age / 86400000000), "day"%string.
      rewrite Z.quot_div_nonneg by lia.
      assert (Hn : 1 <= age / 86400000000).
      { apply Z.div_le_lower_bound; lia. }
      rewrite Hs by exact Hn. split; [reflexivity |]. split; [exact Hn |].
      right. right. repeat split. exact H86400.
Qed.

Example time_ago_ninety_minutes :
  Site.time_ago
    {| quote := quote Sample.env; str_of := str_of Sample.env;
       utcnow := 5400 * 1000000;
       requests_get_result := requests_get_result Sample.env;
       start_result := start_result Sample.env;
       get_download_link_result := get_download_link_result Sample.env;
       forward_messages_result := forward_messages_result Sample.env;
       download_result := download_result Sample.env;
       delete_result := delete_result Sample.env;
       send_message_result := send_message_result Sample.env;
       insert_one_result := insert_one_result Sample.env;
       render_detail_result := render_detail_result Sample.env;
       short_id_result := short_id_result Sample.env;
       regex_i := regex_i Sample.env |}
    (Site.AnObjectId 0)
  = "1 hour ago"%string.
Proof. reflexivity. Qed.
